(** * Text classifier training orchestrator

    A shallow embedding of
    [mediapipe/model_maker/python/text/text_classifier/text_classifier.py]
    (the option validator, the [create] factory, [evaluate], and the two
    family-specific builders) together with the properties the
    specification states about them.

    Conventions.
    - Python objects are records; optional attributes are [option]s;
      tagged unions stand for [isinstance] tests.
    - A Python [float] is an IEEE-754 binary64 value ([spec_float] with
      precision 53 and maximal exponent 1024).
    - Calls into collaborators whose code is not part of this file
      (tensor framework, preprocessor construction, training loop) are
      recorded, in program order, in a trace of events.
    - A function that can raise returns in the monad [M]: the state (the
      caller's options object and the trace) survives a raise, as it does
      in Python. *)

From Stdlib Require Import ZArith List String Ascii Bool Lia.
From Stdlib Require Import DecimalString QArith SpecFloat.
From Stdlib Require Import Permutation Sorted.
Import ListNotations.

Local Open Scope Z_scope.
Local Open Scope string_scope.
Local Open Scope list_scope.

Set Implicit Arguments.

(* ===================================================================== *)
(** * Python numbers *)
(* ===================================================================== *)

Module PyFloat.

Definition prec : Z := 53.
Definition emax : Z := 1024.

(** A Python [float]. *)
Definition pyfloat : Type := spec_float.

Definition is_finite (x : pyfloat) : bool :=
  match x with
  | S754_zero _ | S754_finite _ _ _ => true
  | S754_infinity _ | S754_nan => false
  end.

(** [float(n)] for a Python [int]: round to nearest even; an [int] too
    large for a double raises [OverflowError] ([None] here). *)
Definition of_int (n : Z) : option pyfloat :=
  let x := binary_normalize prec emax n 0 false in
  if is_finite x then Some x else None.

Definition mul (x y : pyfloat) : pyfloat := SFmul prec emax x y.
Definition div (x y : pyfloat) : pyfloat := SFdiv prec emax x y.

(** [int(x)]: truncation toward zero; [None] for infinities and NaN
    (Python raises there). *)
Definition to_int (x : pyfloat) : option Z :=
  match x with
  | S754_zero _ => Some 0
  | S754_finite s m e =>
      let a := match e with
               | Z0 => Zpos m
               | Zpos p => Zpos m * 2 ^ Zpos p
               | Zneg p => Zpos m / 2 ^ Zpos p
               end in
      Some (if s then - a else a)
  | S754_infinity _ | S754_nan => None
  end.

(** The double nearest to the decimal literal [n / d] (both below 2^53,
    so the operands convert exactly and the quotient is rounded once). *)
Definition of_ratio (n d : Z) : pyfloat :=
  div (binary_normalize prec emax n 0 false)
      (binary_normalize prec emax d 0 false).

(** The literals of the source. *)
Definition lit_0_1 : pyfloat := Eval vm_compute in of_ratio 1 10.
Definition lit_1_0 : pyfloat := Eval vm_compute in of_ratio 1 1.
Definition lit_1e_6 : pyfloat := Eval vm_compute in of_ratio 1 1000000.
Definition lit_0_02 : pyfloat := Eval vm_compute in of_ratio 2 100.

(** [n * x] for an [int] [n] and a [float] [x]: the [int] is converted
    first. *)
Definition int_mul (n : Z) (x : pyfloat) : option pyfloat :=
  match of_int n with
  | Some fn => Some (mul fn x)
  | None => None
  end.

(** The exact rational value of a finite double. *)
Definition to_Q (x : pyfloat) : Q :=
  match x with
  | S754_finite s m e =>
      let a := match e with
               | Z0 => inject_Z (Zpos m)
               | Zpos p => inject_Z (Zpos m * 2 ^ Zpos p)
               | Zneg p => Qmake (Zpos m) (2 ^ p)
               end in
      if s then Qopp a else a
  | _ => 0%Q
  end.

End PyFloat.
Export PyFloat.

(** [str(n)] for a Python [int]. *)
Definition str_int (n : Z) : string := NilZero.string_of_int (Z.to_int n).

(* ===================================================================== *)
(** * Data model *)
(* ===================================================================== *)

(** [text_ds.Dataset]: ordered label names and (text, label index)
    records. *)
Module text_ds.
Record Dataset := {
  label_names : list string;
  examples : list (string * Z)
}.

(** [[text.numpy()[0] for text, _ in data.gen_tf_dataset()]]: the texts
    in dataset order. *)
Definition texts (d : Dataset) : list string := map fst (examples d).
End text_ds.

(** The [data] argument of [evaluate] is typed [ds.Dataset]; only a
    [text_ds.Dataset] passes the [isinstance] test. *)
Module ds.
Inductive Dataset :=
| TextDataset (d : text_ds.Dataset)
| CoreDataset (size : Z).
End ds.

(** [hyperparameters] *)
Module hp.

Inductive BertOptimizer :=
| ADAMW
| LAMB
| OtherOptimizer (str : string).   (* any other value, by its [str()] *)

Definition str_BertOptimizer (o : BertOptimizer) : string :=
  match o with
  | ADAMW => "BertOptimizer.ADAMW"
  | LAMB => "BertOptimizer.LAMB"
  | OtherOptimizer s => s
  end.

Inductive SupportedBertTokenizers := FULL_TOKENIZER | FAST_BERT_TOKENIZER.

(** The attributes this file reads from every hyperparameter object. *)
Record BaseHParams := {
  learning_rate : pyfloat;
  batch_size : Z;
  epochs : Z;
  steps_per_epoch : option Z;
  shuffle : bool;
  export_dir : string
}.

Definition set_steps_per_epoch (v : option Z) (h : BaseHParams) : BaseHParams :=
  {| learning_rate := learning_rate h;
     batch_size := batch_size h;
     epochs := epochs h;
     steps_per_epoch := v;
     shuffle := shuffle h;
     export_dir := export_dir h |}.

Record BertHParams := {
  base : BaseHParams;
  end_learning_rate : pyfloat;
  optimizer : BertOptimizer;
  weight_decay : pyfloat;
  desired_precisions : list pyfloat;
  desired_recalls : list pyfloat;
  gamma : pyfloat;
  tokenizer : SupportedBertTokenizers
}.

Definition set_base (b : BaseHParams) (h : BertHParams) : BertHParams :=
  {| base := b;
     end_learning_rate := end_learning_rate h;
     optimizer := optimizer h;
     weight_decay := weight_decay h;
     desired_precisions := desired_precisions h;
     desired_recalls := desired_recalls h;
     gamma := gamma h;
     tokenizer := tokenizer h |}.

(** [hp.HParams = Union[BertHParams, AverageWordEmbeddingHParams]]. *)
Inductive HParams :=
| AverageWordEmbeddingHParams (b : BaseHParams)
| Bert (h : BertHParams).

Definition base_of (h : HParams) : BaseHParams :=
  match h with
  | AverageWordEmbeddingHParams b => b
  | Bert h => base h
  end.

End hp.

(** [model_options] *)
Module mo.

Record AverageWordEmbeddingModelOptions := {
  seq_len : Z;
  wordvec_dim : Z;
  do_lower_case : bool;
  vocab_size : Z;
  dropout_rate : pyfloat
}.

Record BertModelOptions := {
  bert_seq_len : Z;
  do_fine_tuning : bool;
  bert_dropout_rate : pyfloat
}.

(** [Union[AverageWordEmbeddingModelOptions, BertModelOptions]]. *)
Inductive TextClassifierModelOptions :=
| AverageWordEmbedding (o : AverageWordEmbeddingModelOptions)
| Bert (o : BertModelOptions).

End mo.

(** [model_spec] *)
Module ms.

Record AverageWordEmbeddingClassifierSpec := {
  awe_hparams : hp.BaseHParams;
  awe_model_options : mo.AverageWordEmbeddingModelOptions;
  awe_name : string
}.

Record BertClassifierSpec := {
  hparams : hp.BertHParams;
  model_options : mo.BertModelOptions;
  do_lower_case : bool;
  is_tf2 : bool;
  name : string;
  path : string                     (* what [get_path()] returns *)
}.

(** What [supported_model.value()] can be: one of the two families, or
    something else (the [else] branch of [create]). *)
Inductive ModelSpec :=
| AverageWordEmbedding (s : AverageWordEmbeddingClassifierSpec)
| Bert (s : BertClassifierSpec)
| Other (default_hparams : hp.HParams)
        (default_model_options : mo.TextClassifierModelOptions).

Definition spec_model_options (s : ModelSpec) : mo.TextClassifierModelOptions :=
  match s with
  | AverageWordEmbedding a => mo.AverageWordEmbedding (awe_model_options a)
  | Bert b => mo.Bert (model_options b)
  | Other _ o => o
  end.

Definition spec_hparams (s : ModelSpec) : hp.HParams :=
  match s with
  | AverageWordEmbedding a => hp.AverageWordEmbeddingHParams (awe_hparams a)
  | Bert b => hp.Bert (hparams b)
  | Other h _ => h
  end.

Definition is_BertClassifierSpec (s : ModelSpec) : bool :=
  match s with Bert _ => true | _ => false end.

Definition is_AverageWordEmbeddingClassifierSpec (s : ModelSpec) : bool :=
  match s with AverageWordEmbedding _ => true | _ => false end.

End ms.

(* ===================================================================== *)
(** * The embedding-family preprocessor *)
(* ===================================================================== *)

Module preprocessor.

(** ** Tokenization *)

Definition in_range (lo hi n : N) : bool := (N.leb lo n && N.leb n hi)%bool.

(** Modelled from the spec: the word characters of the delimiter pattern
    (the preprocessor module is not under src/; the pattern
    [[^\w\']+] itself is [_DELIM_REGEX_PATTERN] below).  Digits, letters
    and underscore. *)
Definition is_word_char (c : ascii) : bool :=
  let n := N_of_ascii c in
  (in_range 48 57 n || in_range 65 90 n || in_range 97 122 n || N.eqb n 95)%bool.

(** Modelled from the spec: a character is part of a token when it is a
    word character or an apostrophe; any run of other characters is a
    delimiter. *)
Definition is_token_char (c : ascii) : bool :=
  (is_word_char c || Ascii.eqb c "'"%char)%bool.

Definition lower_char (c : ascii) : ascii :=
  let n := N_of_ascii c in
  if in_range 65 90 n then ascii_of_N (n + 32) else c.

Fixpoint lower (s : string) : string :=
  match s with
  | EmptyString => EmptyString
  | String c r => String (lower_char c) (lower r)
  end.

Definition flush (cur : string) : list string :=
  match cur with
  | EmptyString => []
  | _ => [cur]
  end.

(** [cur] is the token being read. *)
Fixpoint split_from (cur : string) (s : string) : list string :=
  match s with
  | EmptyString => flush cur
  | String c r =>
      if is_token_char c
      then split_from (cur ++ String c EmptyString) r
      else flush cur ++ split_from EmptyString r
  end.

(** Modelled from the spec: tokenization by non-word-character splitting,
    lower-casing first if configured. *)
Definition regex_split (do_lower_case : bool) (text : string) : list string :=
  split_from EmptyString (if do_lower_case then lower text else text).

(** ** Vocabulary *)

(** One more occurrence of [t] in a tally kept in first-occurrence
    order. *)
Fixpoint tally (t : string) (c : list (string * nat)) : list (string * nat) :=
  match c with
  | [] => [(t, 1%nat)]
  | (u, n) :: r =>
      if String.eqb u t then (u, S n) :: r else (u, n) :: tally t r
  end.

Definition count_tokens (tokens : list string) : list (string * nat) :=
  fold_left (fun c t => tally t c) tokens [].

(** Insertion in decreasing order of count; among equal counts the
    inserted entry goes first, so that sorting keeps first-occurrence
    order. *)
Fixpoint insert_by_count (x : string * nat) (l : list (string * nat))
  : list (string * nat) :=
  match l with
  | [] => [x]
  | y :: r =>
      if (snd y <=? snd x)%nat then x :: y :: r
      else y :: insert_by_count x r
  end.

Definition sort_by_count (l : list (string * nat)) : list (string * nat) :=
  fold_right insert_by_count [] l.

Definition most_common (n : nat) (c : list (string * nat)) : list (string * nat) :=
  firstn n (sort_by_count c).

(** Modelled from the spec: the vocabulary holds the [vocab_size] most
    frequent tokens of the given texts. *)
Definition gen_vocab (do_lower_case : bool) (texts : list string)
           (vocab_size : Z) : list string :=
  map fst (most_common (Z.to_nat vocab_size)
             (count_tokens (flat_map (regex_split do_lower_case) texts))).

(** Modelled from the spec: ids below [first_token_id] are reserved, one
    for padding and one for out-of-vocabulary tokens.  The spec does not
    number them; nothing below depends on the numbering. *)
Definition pad_id : Z := 0.
Definition unknown_id : Z := 1.
Definition first_token_id : Z := 2.

Fixpoint index_of (t : string) (l : list string) (i : Z) : option Z :=
  match l with
  | [] => None
  | u :: r => if String.eqb u t then Some i else index_of t r (i + 1)
  end.

Definition token_id (vocab : list string) (t : string) : Z :=
  match index_of t vocab first_token_id with
  | Some i => i
  | None => unknown_id
  end.

Definition pad_or_truncate (seq_len : Z) (ids : list Z) : list Z :=
  let n := Z.to_nat seq_len in
  firstn n (ids ++ repeat pad_id n).

(** The fitted embedding-family preprocessor. *)
Record AverageWordEmbeddingClassifierPreprocessor := {
  awe_seq_len : Z;
  awe_do_lower_case : bool;
  awe_vocab : list string
}.

(** Modelled from the spec: constructing the preprocessor fits the
    vocabulary on [texts]. *)
Definition new_AverageWordEmbeddingClassifierPreprocessor
           (seq_len : Z) (do_lower_case : bool) (texts : list string)
           (vocab_size : Z) : AverageWordEmbeddingClassifierPreprocessor :=
  {| awe_seq_len := seq_len;
     awe_do_lower_case := do_lower_case;
     awe_vocab := gen_vocab do_lower_case texts vocab_size |}.

(** [len(get_vocab())]: reserved ids included. *)
Definition vocab_len (p : AverageWordEmbeddingClassifierPreprocessor) : Z :=
  first_token_id + Z.of_nat (List.length (awe_vocab p)).

(** Modelled from the spec: a text becomes its token ids, padded or
    truncated to [seq_len]. *)
Definition encode (p : AverageWordEmbeddingClassifierPreprocessor)
           (text : string) : list Z :=
  pad_or_truncate (awe_seq_len p)
    (map (token_id (awe_vocab p)) (regex_split (awe_do_lower_case p) text)).

(** The encoder-family preprocessor: its tokenizer and vocabulary come
    with the pretrained encoder and stay opaque. *)
Record BertClassifierPreprocessor := {
  bert_seq_len : Z;
  bert_do_lower_case : bool;
  uri : string;
  model_name : string;
  tokenizer : hp.SupportedBertTokenizers
}.

Inductive TextClassifierPreprocessor :=
| AverageWordEmbedding (p : AverageWordEmbeddingClassifierPreprocessor)
| Bert (p : BertClassifierPreprocessor).

(** A preprocessed dataset: fixed-length id sequences for the embedding
    family; for the encoder family the three tensors are left as "this
    preprocessor applied to this dataset". *)
Inductive ProcessedDataset :=
| Encoded (label_names : list string) (examples : list (list Z * Z))
| BertEncoded (p : BertClassifierPreprocessor) (d : text_ds.Dataset).

Definition preprocess (p : TextClassifierPreprocessor) (d : text_ds.Dataset)
  : ProcessedDataset :=
  match p with
  | AverageWordEmbedding a =>
      Encoded (text_ds.label_names d)
              (map (fun e => (encode a (fst e), snd e)) (text_ds.examples d))
  | Bert b => BertEncoded b d
  end.

End preprocessor.

(* ===================================================================== *)
(** * Objects of the tensor framework (symbolic) *)
(* ===================================================================== *)

Module tf.

Inductive dtype := float32 | int32.

Inductive Activation := relu | softmax.

Inductive Layer :=
| InputLayer (input_shape : list Z) (dt : dtype) (name : string)
| Embedding (input_dim output_dim input_length : Z)
| GlobalAveragePooling1D
| Dense (units : Z) (activation : Activation)
| Dropout (rate : pyfloat).

Inductive Encoder :=
| KerasLayer (path : string) (trainable : bool)
| HubKerasLayerV1V2 (path signature output_key : string) (trainable : bool).

Inductive Architecture :=
| Sequential (layers : list Layer)
| EncoderClassifier (seq_len : Z) (encoder : Encoder) (dropout_rate : pyfloat)
                    (num_classes : Z) (initializer_stddev : pyfloat).

(** [tf.keras.optimizers.schedules.PolynomialDecay] and
    [model_util.WarmUp], by their constructor arguments. *)
Inductive LearningRateSchedule :=
| PolynomialDecay (initial_learning_rate : pyfloat) (decay_steps : Z)
                  (end_learning_rate : pyfloat) (power : pyfloat)
| WarmUp (initial_learning_rate : pyfloat)
         (decay_schedule_fn : LearningRateSchedule) (warmup_steps : Z).

Inductive Optimizer :=
| by_name (name : string)
| AdamW (learning_rate : LearningRateSchedule)
        (weight_decay epsilon global_clipnorm : pyfloat)
        (exclude_from_weight_decay : list string)
| LAMB (learning_rate : LearningRateSchedule)
       (weight_decay_rate epsilon : pyfloat)
       (exclude_from_weight_decay : list string)
       (global_clipnorm : pyfloat).

Inductive Loss :=
| sparse_categorical_crossentropy
| SparseFocalLoss (gamma : pyfloat) (num_classes : Z).

(** [metrics.*] and [tf.keras.metrics.*] *)
Inductive Metric :=
| accuracy                        (* the string ["accuracy"] *)
| SparseCategoricalAccuracy (name : string) (dt : dtype)
| SparsePrecision (name : string) (dt : dtype)
| SparseRecall (name : string) (dt : dtype)
| BinarySparseRecallAtPrecision (precision : pyfloat) (name : string)
                                (num_thresholds : Z)
| BinarySparsePrecisionAtRecall (recall : pyfloat) (name : string)
                                (num_thresholds : Z).

Inductive Callbacks := default_callbacks (export_dir : string).

Record Dataset := {
  source : preprocessor.ProcessedDataset;
  batch_size : Z;
  is_training : bool
}.

End tf.

(** [core/tasks/classifier]: the object all text classifiers share. *)
Module classifier.

(** A model graph, as built or after calls of the training loop. *)
Inductive KerasModel :=
| Built (a : tf.Architecture)
| Fitted (m : KerasModel) (o : tf.Optimizer) (l : tf.Loss)
         (metric_functions : list tf.Metric)
         (train validation : preprocessor.ProcessedDataset).

(** The attributes of a [TextClassifier] instance.  [_text_preprocessor],
    [_model] and [_optimizer] are [None] until the builder sets them. *)
Record Classifier := {
  _model_spec : ms.ModelSpec;
  _label_names : list string;
  _shuffle : bool;
  _num_classes : Z;
  _hparams : hp.HParams;
  _model_options : option mo.TextClassifierModelOptions;
  _callbacks : tf.Callbacks;
  _loss_function : tf.Loss;
  _metric_functions : list tf.Metric;
  _text_preprocessor : option preprocessor.TextClassifierPreprocessor;
  _model : option KerasModel;
  _optimizer : option tf.Optimizer
}.

Definition set_hparams (v : hp.HParams) (c : Classifier) : Classifier :=
  {| _model_spec := _model_spec c; _label_names := _label_names c;
     _shuffle := _shuffle c; _num_classes := _num_classes c;
     _hparams := v; _model_options := _model_options c;
     _callbacks := _callbacks c; _loss_function := _loss_function c;
     _metric_functions := _metric_functions c;
     _text_preprocessor := _text_preprocessor c;
     _model := _model c; _optimizer := _optimizer c |}.

Definition set_metric_functions (v : list tf.Metric) (c : Classifier) : Classifier :=
  {| _model_spec := _model_spec c; _label_names := _label_names c;
     _shuffle := _shuffle c; _num_classes := _num_classes c;
     _hparams := _hparams c; _model_options := _model_options c;
     _callbacks := _callbacks c; _loss_function := _loss_function c;
     _metric_functions := v;
     _text_preprocessor := _text_preprocessor c;
     _model := _model c; _optimizer := _optimizer c |}.

Definition set_text_preprocessor
           (v : option preprocessor.TextClassifierPreprocessor)
           (c : Classifier) : Classifier :=
  {| _model_spec := _model_spec c; _label_names := _label_names c;
     _shuffle := _shuffle c; _num_classes := _num_classes c;
     _hparams := _hparams c; _model_options := _model_options c;
     _callbacks := _callbacks c; _loss_function := _loss_function c;
     _metric_functions := _metric_functions c;
     _text_preprocessor := v;
     _model := _model c; _optimizer := _optimizer c |}.

Definition set_model (v : option KerasModel) (c : Classifier) : Classifier :=
  {| _model_spec := _model_spec c; _label_names := _label_names c;
     _shuffle := _shuffle c; _num_classes := _num_classes c;
     _hparams := _hparams c; _model_options := _model_options c;
     _callbacks := _callbacks c; _loss_function := _loss_function c;
     _metric_functions := _metric_functions c;
     _text_preprocessor := _text_preprocessor c;
     _model := v; _optimizer := _optimizer c |}.

Definition set_optimizer (v : option tf.Optimizer) (c : Classifier) : Classifier :=
  {| _model_spec := _model_spec c; _label_names := _label_names c;
     _shuffle := _shuffle c; _num_classes := _num_classes c;
     _hparams := _hparams c; _model_options := _model_options c;
     _callbacks := _callbacks c; _loss_function := _loss_function c;
     _metric_functions := _metric_functions c;
     _text_preprocessor := _text_preprocessor c;
     _model := _model c; _optimizer := v |}.

End classifier.
Import classifier.

(* ===================================================================== *)
(** * Collaborator calls and the execution monad *)
(* ===================================================================== *)

(** The calls this file makes into code it does not own, as they appear
    in a run. *)
Inductive event :=
| EvGetDefaultCallbacks (export_dir : string)
| EvStrategyScopeEnter
| EvStrategyScopeExit
| EvGetPath (spec_name : string)
| EvNewAverageWordEmbeddingPreprocessor
    (seq_len : Z) (do_lower_case : bool) (texts : list string) (vocab_size : Z)
| EvNewBertPreprocessor
    (seq_len : Z) (do_lower_case : bool) (uri model_name : string)
    (tokenizer : hp.SupportedBertTokenizers)
| EvPreprocess (p : preprocessor.TextClassifierPreprocessor) (d : text_ds.Dataset)
| EvBuildModel (a : tf.Architecture)
| EvTrain (m : KerasModel) (o : tf.Optimizer) (l : tf.Loss)
          (metric_functions : list tf.Metric) (callbacks : tf.Callbacks)
          (h : hp.HParams) (train validation : preprocessor.ProcessedDataset)
| EvEvaluate (m : KerasModel) (d : tf.Dataset).

Definition is_training_event (e : event) : bool :=
  match e with EvTrain _ _ _ _ _ _ _ _ => true | _ => false end.

(** Fitting a preprocessor or running one. *)
Definition is_preprocessing_event (e : event) : bool :=
  match e with
  | EvNewAverageWordEmbeddingPreprocessor _ _ _ _
  | EvNewBertPreprocessor _ _ _ _ _
  | EvPreprocess _ _ => true
  | _ => false
  end.

(** Fitting a preprocessor (building or loading a vocabulary). *)
Definition is_preprocessor_fit_event (e : event) : bool :=
  match e with
  | EvNewAverageWordEmbeddingPreprocessor _ _ _ _
  | EvNewBertPreprocessor _ _ _ _ _ => true
  | _ => false
  end.

Inductive exn :=
| ValueError (msg : string)
| AttributeError (msg : string)
| OverflowError (msg : string).

Inductive outcome (A : Type) :=
| Return (a : A)
| Raise (e : exn).
Arguments Return {A} a.
Arguments Raise {A} e.

(** What this file needs from outside and cannot see: the family selector
    enumeration of [model_spec], Python's formatting of values inside
    f-strings, and two helpers of the core library. *)
Class Environment := {
  SupportedModels : Type;
  AVERAGE_WORD_EMBEDDING_CLASSIFIER : SupportedModels;
  SupportedModels_eq_dec :
    forall a b : SupportedModels, {a = b} + {a <> b};
  (** [supported_model.value()] *)
  value : SupportedModels -> ms.ModelSpec;
  str_SupportedModels : SupportedModels -> string;
  str_float : pyfloat -> string;
  str_list : list string -> string;
  (** [model_util.get_steps_per_epoch] *)
  get_steps_per_epoch :
    option Z -> Z -> preprocessor.ProcessedDataset -> Z;
  (** What [model.evaluate(dataset)] returns: the loss and metric values. *)
  keras_evaluate : KerasModel -> tf.Dataset -> list pyfloat
}.

Module text_classifier_options.
Section WithEnvironment.
Context {env : Environment}.

Record TextClassifierOptions := {
  supported_model : SupportedModels;
  hparams : option hp.HParams;
  model_options : option mo.TextClassifierModelOptions
}.

Definition set_hparams (v : option hp.HParams) (o : TextClassifierOptions) :=
  {| supported_model := supported_model o;
     hparams := v;
     model_options := model_options o |}.

Definition set_model_options (v : option mo.TextClassifierModelOptions)
           (o : TextClassifierOptions) :=
  {| supported_model := supported_model o;
     hparams := hparams o;
     model_options := v |}.
End WithEnvironment.
End text_classifier_options.
Import text_classifier_options.

Section Monad.
Context {env : Environment}.

(** The caller's options object (which [create] fills in) and the trace
    so far. *)
Record state := {
  options : TextClassifierOptions;
  trace : list event
}.

Definition M (A : Type) : Type := state -> outcome A * state.

Definition ret {A} (a : A) : M A := fun s => (Return a, s).

Definition bind {A B} (m : M A) (k : A -> M B) : M B :=
  fun s =>
    match m s with
    | (Return a, s') => k a s'
    | (Raise e, s') => (Raise e, s')
    end.

Definition raise {A} (e : exn) : M A := fun s => (Raise e, s).

Definition emit (e : event) : M unit :=
  fun s => (Return tt, {| options := options s; trace := trace s ++ [e] |}).

Definition get_options : M TextClassifierOptions :=
  fun s => (Return (options s), s).

Definition put_options (o : TextClassifierOptions) : M unit :=
  fun s => (Return tt, {| options := o; trace := trace s |}).

(** [with self._hparams.get_strategy().scope(): body]; the scope is left
    on a raise too. *)
Definition with_strategy_scope {A} (body : M A) : M A :=
  fun s =>
    let (r, s') := bind (emit EvStrategyScopeEnter) (fun _ => body) s in
    (r, {| options := options s'; trace := trace s' ++ [EvStrategyScopeExit] |}).

End Monad.

Declare Scope py_scope.
Delimit Scope py_scope with py.
Notation "x <- c ;; k" := (bind c (fun x => k))
  (at level 100, c at next level, right associativity) : py_scope.
Notation "c ;; k" := (bind c (fun _ => k))
  (at level 100, right associativity) : py_scope.
Local Open Scope py_scope.

(* ===================================================================== *)
(** * text_classifier.py *)
(* ===================================================================== *)

Definition is_AverageWordEmbeddingModelOptions
           (o : mo.TextClassifierModelOptions) : bool :=
  match o with mo.AverageWordEmbedding _ => true | mo.Bert _ => false end.

Definition is_BertModelOptions (o : mo.TextClassifierModelOptions) : bool :=
  match o with mo.Bert _ => true | mo.AverageWordEmbedding _ => false end.

(** [seq_len] is an attribute of both kinds of model options. *)
Definition seq_len_of (o : mo.TextClassifierModelOptions) : Z :=
  match o with
  | mo.AverageWordEmbedding a => mo.seq_len a
  | mo.Bert b => mo.bert_seq_len b
  end.

(** A Python sequence is true when it is not empty. *)
Definition truthy {A} (l : list A) : bool :=
  match l with [] => false | _ :: _ => true end.

Section Shared.
Context {env : Environment}.

(** [_validate(options)] *)
Definition _validate (options : TextClassifierOptions) : M unit :=
  match model_options options with
  | None => ret tt
  | Some model_options =>
      (if (is_AverageWordEmbeddingModelOptions model_options
           && (if SupportedModels_eq_dec (supported_model options)
                                         AVERAGE_WORD_EMBEDDING_CLASSIFIER
               then false else true))%bool
       then raise (ValueError
                     ("Expected AVERAGE_WORD_EMBEDDING_CLASSIFIER,"
                        ++ " got " ++ str_SupportedModels (supported_model options)))
       else ret tt) ;;
      if (is_BertModelOptions model_options
          && negb (ms.is_BertClassifierSpec (value (supported_model options))))%bool
      then raise (ValueError
                    ("Expected a Bert Classifier, got "
                       ++ str_SupportedModels (supported_model options)))
      else ret tt
  end.

(** [model_util.get_default_callbacks(export_dir)] *)
Definition get_default_callbacks (export_dir : string) : M tf.Callbacks :=
  emit (EvGetDefaultCallbacks export_dir) ;;
  ret (tf.default_callbacks export_dir).

(** [self._text_preprocessor.preprocess(data)] *)
Definition run_preprocess (p : option preprocessor.TextClassifierPreprocessor)
           (data : text_ds.Dataset) : M preprocessor.ProcessedDataset :=
  match p with
  | Some p =>
      emit (EvPreprocess p data) ;;
      ret (preprocessor.preprocess p data)
  | None => raise (AttributeError "'NoneType' object has no attribute 'preprocess'")
  end.

(** [processed_data.gen_tf_dataset(batch_size, is_training=...)]: lazy, no
    work is done until the framework consumes it. *)
Definition gen_tf_dataset (d : preprocessor.ProcessedDataset) (batch_size : Z)
           (is_training : bool) : tf.Dataset :=
  {| tf.source := d; tf.batch_size := batch_size; tf.is_training := is_training |}.

(** Modelled from the spec: the base-class constructor
    ([classifier.Classifier.__init__], not under src/) stores the label
    names and the shuffle flag and takes the class count to be the number
    of label names. *)
Definition len_label_names (label_names : list string) : Z :=
  Z.of_nat (List.length label_names).

(** Modelled from the spec: the training orchestrator
    ([classifier.Classifier._train_model], not under src/) compiles the
    model with the optimizer, loss and metrics the instance holds and
    drives the fit loop with the instance's callbacks. *)
Definition _train_model (self : Classifier)
           (train_data validation_data : preprocessor.ProcessedDataset)
  : M Classifier :=
  match _model self, _optimizer self with
  | Some m, Some o =>
      emit (EvTrain m o (_loss_function self) (_metric_functions self)
                    (_callbacks self) (_hparams self)
                    train_data validation_data) ;;
      ret (set_model
             (Some (Fitted m o (_loss_function self) (_metric_functions self)
                           train_data validation_data))
             self)
  | _, _ => raise (AttributeError "model or optimizer not set")
  end.

End Shared.

(* ===================================================================== *)
(** * Saving and exporting: collaborator calls and their monad *)
(* ===================================================================== *)

(** What the save and export methods need from outside and cannot see:
    [os.path.join], [tempfile.mkdtemp], the vocabulary accessors of the two
    preprocessors and the input-name table of an encoder specification. *)
Class ExportEnvironment := {
  QuantizationConfig : Type;
  (** [os.path.join(a, b)] *)
  path_join : string -> string -> string;
  (** the directory that the k-th call of [tempfile.mkdtemp()] creates *)
  temp_dir : nat -> string;
  (** [get_vocab().items()]: the tokens with their ids, in dictionary
      order *)
  get_vocab :
    preprocessor.AverageWordEmbeddingClassifierPreprocessor -> list (string * Z);
  (** [get_vocab_file()] *)
  get_vocab_file : preprocessor.BertClassifierPreprocessor -> string;
  (** [model_spec.tflite_input_name[key]]; [None] where the key is missing *)
  tflite_input_name : ms.BertClassifierSpec -> string -> option string
}.

Module io.

(** The line feed of ["\n"]. *)
Definition newline : string := String (ascii_of_nat 10) EmptyString.

(** [metadata_writer.RegexTokenizer] and [metadata_writer.BertTokenizer],
    by their constructor arguments. *)
Inductive MetadataTokenizer :=
| RegexTokenizer (delim_regex_pattern vocab_file_path : string)
| BertTokenizer (vocab_file_path : string).

(** [metadata_writer.Labels]: the label lists added so far. *)
Definition Labels : Type := list (list string).
Definition new_Labels : Labels := [].
Definition add (labels : list string) (l : Labels) : Labels := l ++ [labels].

(** The tokenizer inside a [ModelWithTokenizer]: a new
    [bert_tokenizer.BertFastTokenizer], or the [tokenizer] attribute of a
    preprocessor. *)
Inductive GraphTokenizer :=
| BertFastTokenizer (vocab_file : string) (do_lower_case : bool) (seq_len : Z)
| tokenizer_of (p : preprocessor.BertClassifierPreprocessor).

(** [model_with_tokenizer.ModelWithTokenizer(tokenizer, model)], and the
    object after it was called on inputs (which builds it). *)
Inductive ModelWithTokenizer :=
| new_ModelWithTokenizer (tokenizer : GraphTokenizer) (model : option KerasModel)
| Called (m : ModelWithTokenizer) (inputs : list string).

Inductive error :=
| AttributeError (msg : string)
| KeyError (key : string).

Inductive result (A : Type) :=
| Ok (a : A)
| Failed (e : error).
Arguments Ok {A} a.
Arguments Failed {A} e.

Section WithEnvironment.
Context {xenv : ExportEnvironment}.

(** A TFLite flatbuffer: what [model_util.convert_to_tflite_from_file]
    returns ([allow_custom_ops] is [None] when the call leaves it out), and
    what [writer.populate()] returns first.  A metadata writer, by the
    arguments of the factory that made it. *)
Inductive TfliteModel :=
| Converted (saved_model_file : string)
            (quantization_config : option QuantizationConfig)
            (allow_custom_ops : option bool)
| Populated (w : MetadataWriter)
with MetadataWriter :=
| create_for_regex_model (model_buffer : TfliteModel)
                         (regex_tokenizer : MetadataTokenizer) (labels : Labels)
| create_for_bert_model (model_buffer : TfliteModel)
                        (tokenizer : MetadataTokenizer) (labels : Labels)
                        (ids_name mask_name segment_name : string).

(** What one [f.write] receives: a string, or the metadata JSON that
    [writer.populate()] returns second. *)
Inductive Written :=
| Str (s : string)
| MetadataJson (w : MetadataWriter).

(** The calls the save and export methods make into code they do not own,
    as they appear in a run.  [GFileWrite path writes] is a
    [with tf.io.gfile.GFile(path, "w")] block with its [f.write] calls in
    order. *)
Inductive call :=
| Makedirs (path : string)
| ModelSave (m : KerasModel) (filepath : string)
            (include_optimizer : bool) (save_format : string)
| ModelWithTokenizerSave (m : ModelWithTokenizer) (filepath : string)
| ConvertToTflite (saved_model_file : string)
                  (quantization_config : option QuantizationConfig)
                  (allow_custom_ops : option bool)
| Mkdtemp (path : string)
| GFileWrite (path : string) (writes : list Written)
| Copy (src dst : string) (overwrite : bool)
| Populate (w : MetadataWriter)
| SaveTflite (t : TfliteModel) (path : string)
| Print (line : string).

(** The calls made so far (oldest first) and the number of temporary
    directories created. *)
Record world := {
  calls : list call;
  temp_dirs : nat
}.

Definition IO (A : Type) : Type := world -> result A * world.

Definition ret {A} (a : A) : IO A := fun w => (Ok a, w).

Definition bind {A B} (m : IO A) (k : A -> IO B) : IO B :=
  fun w =>
    match m w with
    | (Ok a, w') => k a w'
    | (Failed e, w') => (Failed e, w')
    end.

Definition raise {A} (e : error) : IO A := fun w => (Failed e, w).

Definition emit (c : call) : IO unit :=
  fun w => (Ok tt, {| calls := calls w ++ [c]; temp_dirs := temp_dirs w |}).

(** [tf.io.gfile.makedirs(path)] *)
Definition makedirs (path : string) : IO unit := emit (Makedirs path).

(** [tempfile.mkdtemp()] *)
Definition mkdtemp : IO string :=
  fun w =>
    (Ok (temp_dir (temp_dirs w)),
     {| calls := calls w ++ [Mkdtemp (temp_dir (temp_dirs w))];
        temp_dirs := S (temp_dirs w) |}).

(** [self._model.save(filepath, include_optimizer=..., save_format=...)] *)
Definition model_save (m : option KerasModel) (filepath : string)
           (include_optimizer : bool) (save_format : string) : IO unit :=
  match m with
  | Some m => emit (ModelSave m filepath include_optimizer save_format)
  | None => raise (AttributeError "'NoneType' object has no attribute 'save'")
  end.

(** [model_util.convert_to_tflite_from_file(saved_model_file, ...)] *)
Definition convert_to_tflite_from_file (saved_model_file : string)
           (quantization_config : option QuantizationConfig)
           (allow_custom_ops : option bool) : IO TfliteModel :=
  bind (emit (ConvertToTflite saved_model_file quantization_config allow_custom_ops))
       (fun _ => ret (Converted saved_model_file quantization_config
                                allow_custom_ops)).

(** [writer.populate()] *)
Definition populate (w : MetadataWriter) : IO (TfliteModel * Written) :=
  bind (emit (Populate w)) (fun _ => ret (Populated w, MetadataJson w)).

(** [model_util.save_tflite(tflite_model, tflite_file)] *)
Definition save_tflite (t : TfliteModel) (tflite_file : string) : IO unit :=
  emit (SaveTflite t tflite_file).

(** [print(line)] *)
Definition print (line : string) : IO unit := emit (Print line).

(** The two abstract methods of [TextClassifier], as a subclass provides
    them. *)
Record Subclass := {
  _save_vocab : Classifier -> string -> IO unit;
  _get_metadata_writer : Classifier -> TfliteModel -> string -> IO MetadataWriter
}.

End WithEnvironment.

End io.

Declare Scope io_scope.
Delimit Scope io_scope with io.
Notation "x <- c ;; k" := (io.bind c (fun x => k))
  (at level 100, c at next level, right associativity) : io_scope.
Notation "c ;; k" := (io.bind c (fun _ => k))
  (at level 100, right associativity) : io_scope.

(** [self._hparams.export_dir] *)
Definition export_dir_of (self : Classifier) : string :=
  hp.export_dir (hp.base_of (_hparams self)).

(** [str()] of a member of [SupportedBertTokenizers]. *)
Definition str_SupportedBertTokenizers (t : hp.SupportedBertTokenizers) : string :=
  match t with
  | hp.FULL_TOKENIZER => "SupportedBertTokenizers.FULL_TOKENIZER"
  | hp.FAST_BERT_TOKENIZER => "SupportedBertTokenizers.FAST_BERT_TOKENIZER"
  end.

Module _AverageWordEmbeddingClassifier.
Section WithEnvironment.
Context {env : Environment}.

Definition _DELIM_REGEX_PATTERN : string := "[^\w\']+".

Definition __init__ (model_spec : ms.ModelSpec)
           (model_options : option mo.TextClassifierModelOptions)
           (hparams : hp.HParams) (label_names : list string)
  : M Classifier :=
  _callbacks <- get_default_callbacks (hp.export_dir (hp.base_of hparams)) ;;
  ret {| _model_spec := model_spec;
         _label_names := label_names;
         _shuffle := hp.shuffle (hp.base_of hparams);
         _num_classes := len_label_names label_names;
         _hparams := hparams;
         _model_options := model_options;
         _callbacks := _callbacks;
         _loss_function := tf.sparse_categorical_crossentropy;
         _metric_functions :=
           [ tf.accuracy;
             tf.SparsePrecision "precision" tf.float32;
             tf.SparseRecall "recall" tf.float32 ];
         _text_preprocessor := None;
         _model := None;
         _optimizer := None |}.

Definition _load_and_run_preprocessor (self : Classifier)
           (train_data validation_data : text_ds.Dataset)
  : M (Classifier * (preprocessor.ProcessedDataset * preprocessor.ProcessedDataset)) :=
  let train_texts := text_ds.texts train_data in
  let validation_texts := text_ds.texts validation_data in
  match _model_options self with
  | Some (mo.AverageWordEmbedding o) =>
      emit (EvNewAverageWordEmbeddingPreprocessor
              (mo.seq_len o) (mo.do_lower_case o)
              (train_texts ++ validation_texts) (mo.vocab_size o)) ;;
      let self :=
        set_text_preprocessor
          (Some (preprocessor.AverageWordEmbedding
                   (preprocessor.new_AverageWordEmbeddingClassifierPreprocessor
                      (mo.seq_len o) (mo.do_lower_case o)
                      (train_texts ++ validation_texts) (mo.vocab_size o))))
          self in
      processed_train_data <- run_preprocess (_text_preprocessor self) train_data ;;
      processed_validation_data <-
        run_preprocess (_text_preprocessor self) validation_data ;;
      ret (self, (processed_train_data, processed_validation_data))
  | Some (mo.Bert _) =>
      raise (AttributeError
               "'BertModelOptions' object has no attribute 'do_lower_case'")
  | None =>
      raise (AttributeError "'NoneType' object has no attribute 'seq_len'")
  end.

Definition _create_model (self : Classifier) : M Classifier :=
  match _model_options self, _text_preprocessor self with
  | Some (mo.AverageWordEmbedding o),
    Some (preprocessor.AverageWordEmbedding p) =>
      let model :=
        tf.Sequential
          [ tf.InputLayer [mo.seq_len o] tf.int32 "input_ids";
            tf.Embedding (preprocessor.vocab_len p) (mo.wordvec_dim o)
                         (mo.seq_len o);
            tf.GlobalAveragePooling1D;
            tf.Dense (mo.wordvec_dim o) tf.relu;
            tf.Dropout (mo.dropout_rate o);
            tf.Dense (_num_classes self) tf.softmax ] in
      emit (EvBuildModel model) ;;
      ret (set_model (Some (Built model)) self)
  | _, _ => raise (AttributeError "model options or preprocessor of another family")
  end.

Definition _create_and_train_model (self : Classifier)
           (train_data validation_data : text_ds.Dataset) : M Classifier :=
  r <- _load_and_run_preprocessor self train_data validation_data ;;
  let '(self, (processed_train_data, processed_validation_data)) := r in
  self <- _create_model self ;;
  let self := set_optimizer (Some (tf.by_name "rmsprop")) self in
  _train_model self processed_train_data processed_validation_data.

Definition create_average_word_embedding_classifier
           (train_data validation_data : text_ds.Dataset)
           (options : TextClassifierOptions) : M Classifier :=
  match hparams options with
  | Some hparams =>
      average_word_embedding_classifier <-
        __init__ (value (supported_model options)) (model_options options)
                 hparams (text_ds.label_names train_data) ;;
      _create_and_train_model average_word_embedding_classifier
                              train_data validation_data
  | None => raise (AttributeError "'NoneType' object has no attribute 'shuffle'")
  end.

End WithEnvironment.
Section Exporting.
Context {xenv : ExportEnvironment}.
Local Open Scope io_scope.

(** What one [f.write(f"{token} {index}\n")] writes. *)
Definition vocab_line (item : string * Z) : io.Written :=
  io.Str (fst item ++ " " ++ str_int (snd item) ++ io.newline).

Definition _save_vocab (self : Classifier) (vocab_filepath : string)
  : io.IO unit :=
  match _text_preprocessor self with
  | Some (preprocessor.AverageWordEmbedding p) =>
      io.emit (io.GFileWrite vocab_filepath (map vocab_line (get_vocab p)))
  | Some (preprocessor.Bert _) =>
      io.emit (io.GFileWrite vocab_filepath []) ;;
      io.raise (io.AttributeError
                  "'BertClassifierPreprocessor' object has no attribute 'get_vocab'")
  | None =>
      io.emit (io.GFileWrite vocab_filepath []) ;;
      io.raise (io.AttributeError "'NoneType' object has no attribute 'get_vocab'")
  end.

Definition _get_metadata_writer (self : Classifier) (tflite_model : io.TfliteModel)
           (vocab_filepath : string) : io.IO io.MetadataWriter :=
  io.ret (io.create_for_regex_model
            tflite_model
            (io.RegexTokenizer _DELIM_REGEX_PATTERN vocab_filepath)
            (io.add (_label_names self) io.new_Labels)).

Definition methods : io.Subclass :=
  {| io._save_vocab := _save_vocab;
     io._get_metadata_writer := _get_metadata_writer |}.

End Exporting.

End _AverageWordEmbeddingClassifier.

Module _BertClassifier.
Section WithEnvironment.
Context {env : Environment}.

Definition _INITIALIZER_RANGE : pyfloat := lit_0_02.

Definition _create_metrics (self : Classifier) : M (list tf.Metric) :=
  let metric_functions :=
    [ tf.SparseCategoricalAccuracy "accuracy" tf.float32;
      tf.SparsePrecision "precision" tf.float32;
      tf.SparseRecall "recall" tf.float32 ] in
  match _hparams self with
  | hp.Bert h =>
      if (_num_classes self =? 2)%Z then
        let metric_functions :=
          if truthy (hp.desired_precisions h) then
            metric_functions ++
              map (fun desired_precision =>
                     tf.BinarySparseRecallAtPrecision
                       desired_precision
                       ("recall_at_precision_" ++ str_float desired_precision)
                       1000)
                  (hp.desired_precisions h)
          else metric_functions in
        let metric_functions :=
          if truthy (hp.desired_recalls h) then
            metric_functions ++
              map (fun desired_recall =>
                     tf.BinarySparseRecallAtPrecision
                       desired_recall
                       ("precision_at_recall_" ++ str_float desired_recall)
                       1000)
                  (hp.desired_recalls h)
          else metric_functions in
        ret metric_functions
      else
        if (truthy (hp.desired_precisions h)
            || truthy (hp.desired_recalls h))%bool
        then raise (ValueError
                      ("desired_recalls and desired_precisions parameters are binary"
                         ++ " metrics and not supported for num_classes > 2. Found"
                         ++ " num_classes: " ++ str_int (_num_classes self)))
        else ret metric_functions
  | hp.AverageWordEmbeddingHParams _ =>
      raise (AttributeError
               "'AverageWordEmbeddingHParams' object has no attribute 'desired_precisions'")
  end.

Definition __init__ (model_spec : ms.ModelSpec)
           (model_options : option mo.TextClassifierModelOptions)
           (hparams : hp.HParams) (label_names : list string)
  : M Classifier :=
  _callbacks <- get_default_callbacks (hp.export_dir (hp.base_of hparams)) ;;
  with_strategy_scope
    (match hparams with
     | hp.Bert h =>
         let self :=
           {| _model_spec := model_spec;
              _label_names := label_names;
              _shuffle := hp.shuffle (hp.base_of hparams);
              _num_classes := len_label_names label_names;
              _hparams := hparams;
              _model_options := model_options;
              _callbacks := _callbacks;
              _loss_function :=
                tf.SparseFocalLoss (hp.gamma h) (len_label_names label_names);
              _metric_functions := [];      (* assigned next *)
              _text_preprocessor := None;
              _model := None;
              _optimizer := None |} in
         metric_functions <- _create_metrics self ;;
         ret (set_metric_functions metric_functions self)
     | hp.AverageWordEmbeddingHParams _ =>
         raise (AttributeError
                  "'AverageWordEmbeddingHParams' object has no attribute 'gamma'")
     end).

(** [self._model_spec.get_path()] *)
Definition get_path (spec : ms.BertClassifierSpec) : M string :=
  emit (EvGetPath (ms.name spec)) ;;
  ret (ms.path spec).

Definition _load_and_run_preprocessor (self : Classifier)
           (train_data validation_data : text_ds.Dataset)
  : M (Classifier * (preprocessor.ProcessedDataset * preprocessor.ProcessedDataset)) :=
  match _model_options self, _model_spec self, _hparams self with
  | Some model_options, ms.Bert spec, hp.Bert h =>
      uri <- get_path spec ;;
      emit (EvNewBertPreprocessor
              (seq_len_of model_options) (ms.do_lower_case spec)
              uri (ms.name spec) (hp.tokenizer h)) ;;
      let self :=
        set_text_preprocessor
          (Some (preprocessor.Bert
                   {| preprocessor.bert_seq_len := seq_len_of model_options;
                      preprocessor.bert_do_lower_case := ms.do_lower_case spec;
                      preprocessor.uri := uri;
                      preprocessor.model_name := ms.name spec;
                      preprocessor.tokenizer := hp.tokenizer h |}))
          self in
      processed_train_data <- run_preprocess (_text_preprocessor self) train_data ;;
      processed_validation_data <-
        run_preprocess (_text_preprocessor self) validation_data ;;
      ret (self, (processed_train_data, processed_validation_data))
  | _, _, _ =>
      raise (AttributeError "model options, spec or hyperparameters of another family")
  end.

Definition _create_model (self : Classifier) : M Classifier :=
  match _model_options self, _model_spec self with
  | Some model_options, ms.Bert spec =>
      path <- get_path spec ;;
      match model_options with
      | mo.Bert o =>
          let encoder :=
            if ms.is_tf2 spec
            then tf.KerasLayer path (mo.do_fine_tuning o)
            else tf.HubKerasLayerV1V2 path "tokens" "pooled_output"
                                      (mo.do_fine_tuning o) in
          let model :=
            tf.EncoderClassifier (seq_len_of model_options) encoder
                                 (mo.bert_dropout_rate o) (_num_classes self)
                                 _INITIALIZER_RANGE in
          emit (EvBuildModel model) ;;
          ret (set_model (Some (Built model)) self)
      | mo.AverageWordEmbedding _ =>
          raise (AttributeError
                   "'AverageWordEmbeddingModelOptions' object has no attribute 'do_fine_tuning'")
      end
  | _, _ => raise (AttributeError "model options or spec of another family")
  end.

(** [int(total_steps * 0.1)] *)
Definition warmup_steps_of (total_steps : Z) : option Z :=
  match int_mul total_steps lit_0_1 with
  | Some x => to_int x
  | None => None
  end.

Definition _create_optimizer (self : Classifier)
           (train_data : preprocessor.ProcessedDataset) : M Classifier :=
  match _hparams self with
  | hp.Bert h =>
      let steps_per_epoch :=
        get_steps_per_epoch (hp.steps_per_epoch (hp.base h))
                            (hp.batch_size (hp.base h)) train_data in
      let h := hp.set_base
                 (hp.set_steps_per_epoch (Some steps_per_epoch) (hp.base h)) h in
      let self := classifier.set_hparams (hp.Bert h) self in
      let total_steps := steps_per_epoch * hp.epochs (hp.base h) in
      match warmup_steps_of total_steps with
      | None => raise (OverflowError "int too large to convert to float")
      | Some warmup_steps =>
          let initial_lr := hp.learning_rate (hp.base h) in
          let lr_schedule :=
            tf.PolynomialDecay initial_lr total_steps
                               (hp.end_learning_rate h) lit_1_0 in
          let lr_schedule :=
            if (warmup_steps =? 0)%Z then lr_schedule
            else tf.WarmUp initial_lr lr_schedule warmup_steps in
          match hp.optimizer h with
          | hp.ADAMW =>
              ret (set_optimizer
                     (Some (tf.AdamW lr_schedule (hp.weight_decay h)
                                     lit_1e_6 lit_1_0
                                     ["LayerNorm"; "layer_norm"; "bias"]))
                     self)
          | hp.LAMB =>
              ret (set_optimizer
                     (Some (tf.LAMB lr_schedule (hp.weight_decay h) lit_1e_6
                                    ["LayerNorm"; "layer_norm"; "bias"]
                                    lit_1_0))
                     self)
          | other =>
              raise (ValueError
                       ("BertHParams.optimizer must be set to ADAM or "
                          ++ "LAMB. Got " ++ hp.str_BertOptimizer other ++ "."))
          end
      end
  | hp.AverageWordEmbeddingHParams _ =>
      raise (AttributeError
               "'AverageWordEmbeddingHParams' object has no attribute 'end_learning_rate'")
  end.

Definition _create_and_train_model (self : Classifier)
           (train_data validation_data : text_ds.Dataset) : M Classifier :=
  r <- _load_and_run_preprocessor self train_data validation_data ;;
  let '(self, (processed_train_data, processed_validation_data)) := r in
  self <- with_strategy_scope
            (self <- _create_model self ;;
             _create_optimizer self processed_train_data) ;;
  _train_model self processed_train_data processed_validation_data.

Definition create_bert_classifier
           (train_data validation_data : text_ds.Dataset)
           (options : TextClassifierOptions) : M Classifier :=
  match hparams options with
  | Some hparams =>
      bert_classifier <-
        __init__ (value (supported_model options)) (model_options options)
                 hparams (text_ds.label_names train_data) ;;
      _create_and_train_model bert_classifier train_data validation_data
  | None => raise (AttributeError "'NoneType' object has no attribute 'shuffle'")
  end.

End WithEnvironment.
Section Exporting.
Context {xenv : ExportEnvironment}.
Local Open Scope io_scope.

(** [self._text_preprocessor.get_vocab_file()] *)
Definition preprocessor_vocab_file (self : Classifier) : io.IO string :=
  match _text_preprocessor self with
  | Some (preprocessor.Bert p) => io.ret (get_vocab_file p)
  | Some (preprocessor.AverageWordEmbedding _) =>
      io.raise (io.AttributeError
                  "'AverageWordEmbeddingClassifierPreprocessor' object has no attribute 'get_vocab_file'")
  | None =>
      io.raise (io.AttributeError
                  "'NoneType' object has no attribute 'get_vocab_file'")
  end.

Definition _save_vocab (self : Classifier) (vocab_filepath : string)
  : io.IO unit :=
  src <- preprocessor_vocab_file self ;;
  io.emit (io.Copy src vocab_filepath true).

(** [self._model_spec.tflite_input_name[key]] *)
Definition input_name (self : Classifier) (key : string) : io.IO string :=
  match _model_spec self with
  | ms.Bert spec =>
      match tflite_input_name spec key with
      | Some name => io.ret name
      | None => io.raise (io.KeyError key)
      end
  | _ => io.raise (io.AttributeError
                     "model specification without attribute 'tflite_input_name'")
  end.

Definition _get_metadata_writer (self : Classifier) (tflite_model : io.TfliteModel)
           (vocab_filepath : string) : io.IO io.MetadataWriter :=
  let tokenizer := io.BertTokenizer vocab_filepath in
  let labels := io.add (_label_names self) io.new_Labels in
  ids_name <- input_name self "ids" ;;
  mask_name <- input_name self "mask" ;;
  segment_name <- input_name self "segment_ids" ;;
  io.ret (io.create_for_bert_model tflite_model tokenizer labels
                                   ids_name mask_name segment_name).

Definition methods : io.Subclass :=
  {| io._save_vocab := _save_vocab;
     io._get_metadata_writer := _get_metadata_writer |}.

Definition tokenizer_warning (trained_with : hp.SupportedBertTokenizers) : string :=
  "WARNING: This model was trained with "
    ++ str_SupportedBertTokenizers trained_with
    ++ " tokenizer, but the exported model with tokenizer will have a "
    ++ str_SupportedBertTokenizers hp.FAST_BERT_TOKENIZER
    ++ " tokenizer.".

Definition is_FAST_BERT_TOKENIZER (t : hp.SupportedBertTokenizers) : bool :=
  match t with hp.FAST_BERT_TOKENIZER => true | hp.FULL_TOKENIZER => false end.

(** The tokenizer that goes into the exported graph. *)
Definition export_tokenizer (self : Classifier) : io.IO io.GraphTokenizer :=
  match _hparams self with
  | hp.Bert h =>
      if negb (is_FAST_BERT_TOKENIZER (hp.tokenizer h)) then
        io.print (tokenizer_warning (hp.tokenizer h)) ;;
        vocab_file <- preprocessor_vocab_file self ;;
        match _model_spec self, _model_options self with
        | ms.Bert spec, Some model_options =>
            io.ret (io.BertFastTokenizer vocab_file (ms.do_lower_case spec)
                                         (seq_len_of model_options))
        | _, _ =>
            io.raise (io.AttributeError
                        "model specification or options of another family")
        end
      else
        match _text_preprocessor self with
        | Some (preprocessor.Bert p) => io.ret (io.tokenizer_of p)
        | Some (preprocessor.AverageWordEmbedding _) =>
            io.raise (io.AttributeError
                        "'AverageWordEmbeddingClassifierPreprocessor' object has no attribute 'tokenizer'")
        | None =>
            io.raise (io.AttributeError
                        "'NoneType' object has no attribute 'tokenizer'")
        end
  | hp.AverageWordEmbeddingHParams _ =>
      io.raise (io.AttributeError
                  "'AverageWordEmbeddingHParams' object has no attribute 'tokenizer'")
  end.

Definition default_model_name : string := "model_with_tokenizer.tflite".

(** [export_model_with_tokenizer(self, model_name, quantization_config)] *)
Definition export_model_with_tokenizer (self : Classifier) (model_name : string)
           (quantization_config : option QuantizationConfig) : io.IO unit :=
  io.makedirs (export_dir_of self) ;;
  let tflite_file := path_join (export_dir_of self) model_name in
  tokenizer <- export_tokenizer self ;;
  let model := io.new_ModelWithTokenizer tokenizer (_model self) in
  let model := io.Called model ["Example input data"] in   (* build model *)
  let saved_model_file :=
    path_join (export_dir_of self) "saved_model_with_tokenizer" in
  io.emit (io.ModelWithTokenizerSave model saved_model_file) ;;
  tflite_model <- io.convert_to_tflite_from_file
                    saved_model_file quantization_config (Some true) ;;
  io.save_tflite tflite_model tflite_file.

End Exporting.

End _BertClassifier.

Module TextClassifier.
Section WithEnvironment.
Context {env : Environment}.

Definition labels_differ (a b : list string) : bool :=
  if list_eq_dec string_dec a b then false else true.

(** [TextClassifier.create(train_data, validation_data, options)]; the
    [options] argument is the object held in the state. *)
Definition create (train_data validation_data : text_ds.Dataset)
  : M Classifier :=
  if labels_differ (text_ds.label_names train_data)
                   (text_ds.label_names validation_data)
  then raise (ValueError
                ("Training data label names "
                   ++ str_list (text_ds.label_names train_data)
                   ++ " not equal to "
                   ++ "validation data label names "
                   ++ str_list (text_ds.label_names validation_data)))
  else
    options <- get_options ;;
    _validate options ;;
    (match model_options options with
     | None =>
         put_options
           (set_model_options
              (Some (ms.spec_model_options (value (supported_model options))))
              options)
     | Some _ => ret tt
     end) ;;
    options <- get_options ;;
    (match hparams options with
     | None =>
         put_options
           (text_classifier_options.set_hparams
              (Some (ms.spec_hparams (value (supported_model options))))
              options)
     | Some _ => ret tt
     end) ;;
    options <- get_options ;;
    match value (supported_model options) with
    | ms.Bert _ =>
        _BertClassifier.create_bert_classifier
          train_data validation_data options
    | ms.AverageWordEmbedding _ =>
        _AverageWordEmbeddingClassifier.create_average_word_embedding_classifier
          train_data validation_data options
    | ms.Other _ _ =>
        raise (ValueError
                 ("Unknown model " ++ str_SupportedModels (supported_model options)))
    end.

(** [model.evaluate(dataset)] on the instance's model. *)
Definition model_evaluate (m : option KerasModel) (dataset : tf.Dataset)
  : M (list pyfloat) :=
  match m with
  | Some m =>
      emit (EvEvaluate m dataset) ;;
      ret (keras_evaluate m dataset)
  | None => raise (AttributeError "'NoneType' object has no attribute 'evaluate'")
  end.

Definition default_batch_size : Z := 32.

(** [evaluate(self, data, batch_size, desired_precisions, desired_recalls)] *)
Definition evaluate (self : Classifier) (data : ds.Dataset) (batch_size : Z)
           (desired_precisions desired_recalls : option (list pyfloat))
  : M (list pyfloat) :=
  match data with
  | ds.TextDataset data =>
      processed_data <- run_preprocess (_text_preprocessor self) data ;;
      let dataset := gen_tf_dataset processed_data batch_size false in
      with_strategy_scope (model_evaluate (_model self) dataset)
  | ds.CoreDataset _ => raise (ValueError "Need a TextClassifier Dataset.")
  end.

End WithEnvironment.
Section Exporting.
Context {xenv : ExportEnvironment}.
Local Open Scope io_scope.

Definition default_saved_model_name : string := "saved_model".
Definition default_export_model_name : string := "model.tflite".

(** [save_model(self, model_name)] *)
Definition save_model (self : Classifier) (model_name : string) : io.IO unit :=
  io.makedirs (export_dir_of self) ;;
  let saved_model_file := path_join (export_dir_of self) model_name in
  io.model_save (_model self) saved_model_file false "tf".

(** [export_model(self, model_name, quantization_config)]; [cls] holds the
    two methods of the subclass of [self]. *)
Definition export_model (cls : io.Subclass) (self : Classifier)
           (model_name : string)
           (quantization_config : option QuantizationConfig) : io.IO unit :=
  io.makedirs (export_dir_of self) ;;
  let tflite_file := path_join (export_dir_of self) model_name in
  let metadata_file := path_join (export_dir_of self) "metadata.json" in
  save_model self "saved_model" ;;
  let saved_model_file := path_join (export_dir_of self) "saved_model" in
  tflite_model <- io.convert_to_tflite_from_file
                    saved_model_file quantization_config None ;;
  temp <- io.mkdtemp ;;
  let vocab_filepath := path_join temp "vocab.txt" in
  io._save_vocab cls self vocab_filepath ;;
  writer <- io._get_metadata_writer cls self tflite_model vocab_filepath ;;
  r <- io.populate writer ;;
  let '(tflite_model_with_metadata, metadata_json) := r in
  io.save_tflite tflite_model_with_metadata tflite_file ;;
  io.emit (io.GFileWrite metadata_file [metadata_json]).

End Exporting.

End TextClassifier.

(* ===================================================================== *)
(** * A concrete environment and concrete inputs *)
(* ===================================================================== *)

Module Sample.

Inductive Models := AWE_CLASSIFIER | MOBILEBERT_CLASSIFIER | UNLISTED_CLASSIFIER.

Definition Models_eq_dec (a b : Models) : {a = b} + {a <> b}.
Proof. decide equality. Defined.

Definition lit_0_9 : pyfloat := Eval vm_compute in of_ratio 9 10.
Definition lit_0_5 : pyfloat := Eval vm_compute in of_ratio 5 10.
Definition lit_0_2 : pyfloat := Eval vm_compute in of_ratio 2 10.
Definition lit_3e_5 : pyfloat := Eval vm_compute in of_ratio 3 100000.
Definition lit_0_0 : pyfloat := S754_zero false.

Definition base_hparams : hp.BaseHParams :=
  {| hp.learning_rate := lit_3e_5;
     hp.batch_size := 2;
     hp.epochs := 10;
     hp.steps_per_epoch := None;
     hp.shuffle := false;
     hp.export_dir := "/tmp/export" |}.

Definition bert_hparams : hp.BertHParams :=
  {| hp.base := base_hparams;
     hp.end_learning_rate := lit_0_0;
     hp.optimizer := hp.ADAMW;
     hp.weight_decay := lit_0_0;
     hp.desired_precisions := [];
     hp.desired_recalls := [];
     hp.gamma := lit_0_0;
     hp.tokenizer := hp.FULL_TOKENIZER |}.

Definition awe_options : mo.AverageWordEmbeddingModelOptions :=
  {| mo.seq_len := 6;
     mo.wordvec_dim := 16;
     mo.do_lower_case := true;
     mo.vocab_size := 3;
     mo.dropout_rate := lit_0_2 |}.

Definition bert_options : mo.BertModelOptions :=
  {| mo.bert_seq_len := 8;
     mo.do_fine_tuning := true;
     mo.bert_dropout_rate := lit_0_2 |}.

Definition awe_spec : ms.AverageWordEmbeddingClassifierSpec :=
  {| ms.awe_hparams := base_hparams;
     ms.awe_model_options := awe_options;
     ms.awe_name := "AverageWordEmbedding" |}.

Definition bert_spec : ms.BertClassifierSpec :=
  {| ms.hparams := bert_hparams;
     ms.model_options := bert_options;
     ms.do_lower_case := true;
     ms.is_tf2 := false;
     ms.name := "MobileBert";
     ms.path := "/models/mobilebert" |}.

Definition model_value (m : Models) : ms.ModelSpec :=
  match m with
  | AWE_CLASSIFIER => ms.AverageWordEmbedding awe_spec
  | MOBILEBERT_CLASSIFIER => ms.Bert bert_spec
  | UNLISTED_CLASSIFIER =>
      ms.Other (hp.AverageWordEmbeddingHParams base_hparams)
               (mo.AverageWordEmbedding awe_options)
  end.

Definition str_Models (m : Models) : string :=
  match m with
  | AWE_CLASSIFIER => "SupportedModels.AVERAGE_WORD_EMBEDDING_CLASSIFIER"
  | MOBILEBERT_CLASSIFIER => "SupportedModels.MOBILEBERT_CLASSIFIER"
  | UNLISTED_CLASSIFIER => "UNLISTED_CLASSIFIER"
  end.

(** The same finite binary64 value (same sign, mantissa and exponent). *)
Definition same_float (x y : pyfloat) : bool :=
  match x, y with
  | S754_finite s m e, S754_finite s' m' e' =>
      (Bool.eqb s s' && Pos.eqb m m' && Z.eqb e e')%bool
  | _, _ => false
  end.

Definition show_float (x : pyfloat) : string :=
  if same_float x lit_0_9 then "0.9"
  else if same_float x lit_0_5 then "0.5"
  else "<float>".

Definition show_list (l : list string) : string :=
  ("[" ++ String.concat ", " (map (fun s => "'" ++ s ++ "'") l) ++ "]")%string.

Definition processed_len (d : preprocessor.ProcessedDataset) : Z :=
  match d with
  | preprocessor.Encoded _ ex => Z.of_nat (List.length ex)
  | preprocessor.BertEncoded _ d => Z.of_nat (List.length (text_ds.examples d))
  end.

Definition steps_per_epoch (steps : option Z) (batch_size : Z)
           (train_data : preprocessor.ProcessedDataset) : Z :=
  match steps with
  | Some s => s
  | None => processed_len train_data / batch_size
  end.

#[export] Instance environment : Environment :=
  {| SupportedModels := Models;
     AVERAGE_WORD_EMBEDDING_CLASSIFIER := AWE_CLASSIFIER;
     SupportedModels_eq_dec := Models_eq_dec;
     value := model_value;
     str_SupportedModels := str_Models;
     str_float := show_float;
     str_list := show_list;
     get_steps_per_epoch := steps_per_epoch;
     keras_evaluate := fun _ _ => [lit_0_5; lit_0_9] |}.

Definition train : text_ds.Dataset :=
  {| text_ds.label_names := ["pos"; "neg"];
     text_ds.examples :=
       [ ("A fine, fine film!", 0); ("Not a fine film", 1);
         ("Don't miss it", 0); ("a bore", 1) ] |}.

Definition validation : text_ds.Dataset :=
  {| text_ds.label_names := ["pos"; "neg"];
     text_ds.examples := [ ("fine film", 0); ("what a bore...", 1) ] |}.

Definition validation_renamed : text_ds.Dataset :=
  {| text_ds.label_names := ["positive"; "negative"];
     text_ds.examples := text_ds.examples validation |}.

Definition validation_swapped : text_ds.Dataset :=
  {| text_ds.label_names := ["neg"; "pos"];
     text_ds.examples := text_ds.examples validation |}.

Definition three_classes : text_ds.Dataset :=
  {| text_ds.label_names := ["pos"; "neg"; "neutral"];
     text_ds.examples := [ ("fine film", 0); ("a bore", 1); ("a film", 2) ] |}.

Definition options_for (m : Models) (h : option hp.HParams)
           (o : option mo.TextClassifierModelOptions) : TextClassifierOptions :=
  {| supported_model := m; hparams := h; model_options := o |}.

Definition start (opts : TextClassifierOptions) : state :=
  {| options := opts; trace := [] |}.

(** Encoder hyperparameters with the given targets and optimizer selector. *)
Definition bert_hparams_with (precisions recalls : list pyfloat)
           (selector : hp.BertOptimizer) : hp.BertHParams :=
  {| hp.base := base_hparams;
     hp.end_learning_rate := lit_0_0;
     hp.optimizer := selector;
     hp.weight_decay := lit_0_0;
     hp.desired_precisions := precisions;
     hp.desired_recalls := recalls;
     hp.gamma := lit_0_0;
     hp.tokenizer := hp.FULL_TOKENIZER |}.

Definition encoder_options (h : hp.BertHParams) : TextClassifierOptions :=
  options_for MOBILEBERT_CLASSIFIER (Some (hp.Bert h)) None.

Definition embedding_options : TextClassifierOptions :=
  options_for AWE_CLASSIFIER None None.

(** ** A concrete export environment *)

Definition join (a b : string) : string := (a ++ "/" ++ b)%string.

(** Reserved entries first, then the fitted tokens, numbered in order. *)
Definition vocab_items
           (p : preprocessor.AverageWordEmbeddingClassifierPreprocessor)
  : list (string * Z) :=
  combine ("<PAD>" :: "<UNKNOWN>" :: preprocessor.awe_vocab p)
          (map Z.of_nat (seq 0 (2 + List.length (preprocessor.awe_vocab p)))).

Definition input_names (spec : ms.BertClassifierSpec) (key : string)
  : option string :=
  if String.eqb key "ids" then Some "serving_default_input_1:0"
  else if String.eqb key "mask" then Some "serving_default_input_3:0"
  else if String.eqb key "segment_ids" then Some "serving_default_input_2:0"
  else None.

#[export] Instance export_environment : ExportEnvironment :=
  {| QuantizationConfig := unit;
     path_join := join;
     temp_dir := fun k => ("/tmp/tmp" ++ NilZero.string_of_uint (Nat.to_uint k))%string;
     get_vocab := vocab_items;
     get_vocab_file := fun p => join (preprocessor.uri p) "vocab.txt";
     tflite_input_name := input_names |}.

(** An export environment whose encoder specifications name no mask
    input. *)
Definition export_environment_without_mask : ExportEnvironment :=
  {| QuantizationConfig := unit;
     path_join := join;
     temp_dir := fun k => ("/tmp/tmp" ++ NilZero.string_of_uint (Nat.to_uint k))%string;
     get_vocab := vocab_items;
     get_vocab_file := fun p => join (preprocessor.uri p) "vocab.txt";
     tflite_input_name :=
       fun spec key => if String.eqb key "mask" then None else input_names spec key |}.

(** Nothing called yet. *)
Definition start_world : @io.world export_environment :=
  {| io.calls := []; io.temp_dirs := 0 |}.

Definition start_world_without_mask : @io.world export_environment_without_mask :=
  {| io.calls := []; io.temp_dirs := 0 |}.

(** An embedding classifier as the builder leaves it. *)
Definition awe_preprocessor
  : preprocessor.AverageWordEmbeddingClassifierPreprocessor :=
  {| preprocessor.awe_seq_len := 6;
     preprocessor.awe_do_lower_case := true;
     preprocessor.awe_vocab := ["a"; "fine"; "film"] |}.

Definition awe_model : KerasModel :=
  Built (tf.Sequential [ tf.InputLayer [6] tf.int32 "input_ids";
                         tf.Dense 2 tf.softmax ]).

Definition awe_classifier : Classifier :=
  {| _model_spec := ms.AverageWordEmbedding awe_spec;
     _label_names := ["pos"; "neg"];
     _shuffle := false;
     _num_classes := 2;
     _hparams := hp.AverageWordEmbeddingHParams base_hparams;
     _model_options := Some (mo.AverageWordEmbedding awe_options);
     _callbacks := tf.default_callbacks "/tmp/export";
     _loss_function := tf.sparse_categorical_crossentropy;
     _metric_functions := [];
     _text_preprocessor := Some (preprocessor.AverageWordEmbedding awe_preprocessor);
     _model := Some awe_model;
     _optimizer := Some (tf.by_name "rmsprop") |}.

(** An encoder classifier as the builder leaves it, trained with the given
    tokenizer. *)
Definition bert_preprocessor_with (t : hp.SupportedBertTokenizers)
  : preprocessor.BertClassifierPreprocessor :=
  {| preprocessor.bert_seq_len := 8;
     preprocessor.bert_do_lower_case := true;
     preprocessor.uri := "/models/mobilebert";
     preprocessor.model_name := "MobileBert";
     preprocessor.tokenizer := t |}.

Definition bert_model : KerasModel :=
  Built (tf.EncoderClassifier 8 (tf.KerasLayer "/models/mobilebert" true)
                              lit_0_2 2 lit_0_02).

Definition bert_hparams_tokenizer (t : hp.SupportedBertTokenizers)
  : hp.BertHParams :=
  {| hp.base := base_hparams;
     hp.end_learning_rate := lit_0_0;
     hp.optimizer := hp.ADAMW;
     hp.weight_decay := lit_0_0;
     hp.desired_precisions := [];
     hp.desired_recalls := [];
     hp.gamma := lit_0_0;
     hp.tokenizer := t |}.

Definition bert_classifier (t : hp.SupportedBertTokenizers) : Classifier :=
  {| _model_spec := ms.Bert bert_spec;
     _label_names := ["pos"; "neg"];
     _shuffle := false;
     _num_classes := 2;
     _hparams := hp.Bert (bert_hparams_tokenizer t);
     _model_options := Some (mo.Bert bert_options);
     _callbacks := tf.default_callbacks "/tmp/export";
     _loss_function := tf.SparseFocalLoss lit_0_0 2;
     _metric_functions := [];
     _text_preprocessor := Some (preprocessor.Bert (bert_preprocessor_with t));
     _model := Some bert_model;
     _optimizer := None |}.

End Sample.

(* ===================================================================== *)
(** * Vocabulary of the statements *)
(* ===================================================================== *)

Unset Implicit Arguments.

(** The schedule an optimizer object was given; an optimizer selected by
    name carries none. *)
Definition optimizer_schedule (o : tf.Optimizer) : option tf.LearningRateSchedule :=
  match o with
  | tf.by_name _ => None
  | tf.AdamW sched _ _ _ _ => Some sched
  | tf.LAMB sched _ _ _ _ => Some sched
  end.

(** The preprocessor that a fit event constructs. *)
Definition fitted_by (e : event) : option preprocessor.TextClassifierPreprocessor :=
  match e with
  | EvNewAverageWordEmbeddingPreprocessor seq_len do_lower_case texts vocab_size =>
      Some (preprocessor.AverageWordEmbedding
              (preprocessor.new_AverageWordEmbeddingClassifierPreprocessor
                 seq_len do_lower_case texts vocab_size))
  | EvNewBertPreprocessor seq_len do_lower_case uri model_name tokenizer =>
      Some (preprocessor.Bert
              {| preprocessor.bert_seq_len := seq_len;
                 preprocessor.bert_do_lower_case := do_lower_case;
                 preprocessor.uri := uri;
                 preprocessor.model_name := model_name;
                 preprocessor.tokenizer := tokenizer |})
  | _ => None
  end.

(** No event of the list is a training step. *)
Definition no_training (t : list event) : Prop :=
  existsb is_training_event t = false.

(** No event of the list fits or runs a preprocessor. *)
Definition no_preprocessing (t : list event) : Prop :=
  existsb is_preprocessing_event t = false.

(** Both datasets have been through a preprocessor. *)
Definition preprocessing_completed (train_data validation_data : text_ds.Dataset)
           (t : list event) : Prop :=
  exists p, In (EvPreprocess p train_data) t /\ In (EvPreprocess p validation_data) t.

(** ** Tokens *)

Fixpoint all_chars (f : ascii -> bool) (s : string) : bool :=
  match s with
  | EmptyString => true
  | String c r => (f c && all_chars f r)%bool
  end.

Definition is_token (t : string) : Prop :=
  t <> EmptyString /\ all_chars preprocessor.is_token_char t = true.

Definition is_delimiter_run (d : string) : Prop :=
  all_chars (fun c => negb (preprocessor.is_token_char c)) d = true.

(** Nothing follows, or a delimiter does. *)
Definition at_boundary (rest : string) : Prop :=
  match rest with
  | EmptyString => True
  | String c _ => preprocessor.is_token_char c = false
  end.

(** [Tokenized text tokens]: [text] reads as a (possibly empty) run of
    delimiters, then, for each token in turn, the token followed by a rest
    that is empty or starts with a delimiter. *)
Inductive Tokenized : string -> list string -> Prop :=
| Tokenized_nil (d : string) :
    is_delimiter_run d -> Tokenized d []
| Tokenized_cons (d t rest : string) (tokens : list string) :
    is_delimiter_run d -> is_token t -> at_boundary rest ->
    Tokenized rest tokens ->
    Tokenized (d ++ t ++ rest) (t :: tokens).

(** The count a tally holds for [u] ([0] when absent). *)
Fixpoint recorded (u : string) (c : list (string * nat)) : nat :=
  match c with
  | [] => 0%nat
  | (v, n) :: r => if String.eqb v u then n else recorded u r
  end.

Definition by_count (x y : string * nat) : Prop := (snd y <= snd x)%nat.

(** ** Schedules *)

(** The mantissa of the double written [0.1]. *)
Definition tenth_mantissa : Z := 7205759403792794.

(** Modelled from the spec: what a polynomial decay of power 1 yields at a
    step, in exact arithmetic (the schedule classes are not under src/):
    the straight line from [initial] at step 0 to [final] at
    [decay_steps], constant afterwards. *)
Definition polynomial_decay_value (initial : Q) (decay_steps : Z) (final : Q)
           (step : Z) : Q :=
  let s := Z.min step decay_steps in
  ((initial - final) * (1 - inject_Z s / inject_Z decay_steps) + final)%Q.

(** Modelled from the spec: the warm-up ramp, the straight line from 0 at
    step 0 to [initial] at [warmup_steps]. *)
Definition warmup_value (initial : Q) (warmup_steps step : Z) : Q :=
  (initial * (inject_Z step / inject_Z warmup_steps))%Q.

(** Modelled from the spec: the learning rate a schedule object yields at
    a step; during the first [warmup_steps] steps of a wrapped schedule the
    ramp, from then on the wrapped schedule.  Only power 1.0 is given a
    value. *)
Fixpoint schedule_value (sched : tf.LearningRateSchedule) (step : Z) : option Q :=
  match sched with
  | tf.PolynomialDecay initial decay_steps final power =>
      if SFeqb power lit_1_0
      then Some (polynomial_decay_value (to_Q initial) decay_steps (to_Q final) step)
      else None
  | tf.WarmUp initial decay_schedule_fn warmup_steps =>
      if (step <? warmup_steps)%Z
      then Some (warmup_value (to_Q initial) warmup_steps step)
      else schedule_value decay_schedule_fn step
  end.

(** ** Expected objects of a run *)

Definition exclude_list : list string := ["LayerNorm"; "layer_norm"; "bias"].

Definition default_metrics : list tf.Metric :=
  [ tf.SparseCategoricalAccuracy "accuracy" tf.float32;
    tf.SparsePrecision "precision" tf.float32;
    tf.SparseRecall "recall" tf.float32 ].

Definition awe_metrics : list tf.Metric :=
  [ tf.accuracy; tf.SparsePrecision "precision" tf.float32;
    tf.SparseRecall "recall" tf.float32 ].

Definition binary_metrics_message (num_classes : Z) : string :=
  "desired_recalls and desired_precisions parameters are binary metrics and not supported for num_classes > 2. Found num_classes: "
    ++ str_int num_classes.

Definition optimizer_message (selector : string) : string :=
  "BertHParams.optimizer must be set to ADAM or LAMB. Got " ++ selector ++ ".".

Definition awe_architecture (o : mo.AverageWordEmbeddingModelOptions)
           (p : preprocessor.AverageWordEmbeddingClassifierPreprocessor)
           (num_classes : Z) : tf.Architecture :=
  tf.Sequential
    [ tf.InputLayer [mo.seq_len o] tf.int32 "input_ids";
      tf.Embedding (preprocessor.vocab_len p) (mo.wordvec_dim o) (mo.seq_len o);
      tf.GlobalAveragePooling1D;
      tf.Dense (mo.wordvec_dim o) tf.relu;
      tf.Dropout (mo.dropout_rate o);
      tf.Dense num_classes tf.softmax ].

Definition bert_preprocessor (spec : ms.BertClassifierSpec)
           (o : mo.BertModelOptions) (h : hp.BertHParams)
  : preprocessor.TextClassifierPreprocessor :=
  preprocessor.Bert
    {| preprocessor.bert_seq_len := mo.bert_seq_len o;
       preprocessor.bert_do_lower_case := ms.do_lower_case spec;
       preprocessor.uri := ms.path spec;
       preprocessor.model_name := ms.name spec;
       preprocessor.tokenizer := hp.tokenizer h |}.

Definition bert_architecture (spec : ms.BertClassifierSpec)
           (o : mo.BertModelOptions) (num_classes : Z) : tf.Architecture :=
  tf.EncoderClassifier
    (mo.bert_seq_len o)
    (if ms.is_tf2 spec
     then tf.KerasLayer (ms.path spec) (mo.do_fine_tuning o)
     else tf.HubKerasLayerV1V2 (ms.path spec) "tokens" "pooled_output"
                               (mo.do_fine_tuning o))
    (mo.bert_dropout_rate o) num_classes lit_0_02.

(** What the constructor of the encoder classifier calls. *)
Definition init_events (h : hp.BertHParams) : list event :=
  [ EvGetDefaultCallbacks (hp.export_dir (hp.base h));
    EvStrategyScopeEnter; EvStrategyScopeExit ].

(** What the encoder builder calls after the constructor and before the
    training loop. *)
Definition bert_prefix (spec : ms.BertClassifierSpec) (o : mo.BertModelOptions)
           (h : hp.BertHParams) (num_classes : Z)
           (train_data validation_data : text_ds.Dataset) : list event :=
  [ EvGetPath (ms.name spec);
    EvNewBertPreprocessor (mo.bert_seq_len o) (ms.do_lower_case spec)
                          (ms.path spec) (ms.name spec) (hp.tokenizer h);
    EvPreprocess (bert_preprocessor spec o h) train_data;
    EvPreprocess (bert_preprocessor spec o h) validation_data;
    EvStrategyScopeEnter;
    EvGetPath (ms.name spec);
    EvBuildModel (bert_architecture spec o num_classes);
    EvStrategyScopeExit ].

(** The encoder classifier as its constructor has it before the metrics
    are assigned. *)
Definition bert_self0 (spec : ms.ModelSpec)
           (mopts : option mo.TextClassifierModelOptions)
           (h : hp.BertHParams) (labels : list string) : Classifier :=
  {| _model_spec := spec;
     _label_names := labels;
     _shuffle := hp.shuffle (hp.base h);
     _num_classes := len_label_names labels;
     _hparams := hp.Bert h;
     _model_options := mopts;
     _callbacks := tf.default_callbacks (hp.export_dir (hp.base h));
     _loss_function := tf.SparseFocalLoss (hp.gamma h) (len_label_names labels);
     _metric_functions := [];
     _text_preprocessor := None;
     _model := None;
     _optimizer := None |}.

Definition lr_schedule_of (h : hp.BertHParams) (total_steps warmup_steps : Z)
  : tf.LearningRateSchedule :=
  let decay := tf.PolynomialDecay (hp.learning_rate (hp.base h)) total_steps
                                  (hp.end_learning_rate h) lit_1_0 in
  if (warmup_steps =? 0)%Z then decay
  else tf.WarmUp (hp.learning_rate (hp.base h)) decay warmup_steps.

(** The metric targets can be honoured: two classes, or no targets. *)
Definition metrics_admissible (h : hp.BertHParams) (num_classes : Z) : Prop :=
  num_classes = 2
  \/ (hp.desired_precisions h = [] /\ hp.desired_recalls h = []).

Section StatementVocabulary.
Context {env : Environment}.

(** [s] with the events [t] added. *)
Definition log (s : state) (t : list event) : state :=
  {| options := options s; trace := trace s ++ t |}.

(** The options after [create] has filled in the defaults of the family
    specification. *)
Definition with_defaults (o : TextClassifierOptions) : TextClassifierOptions :=
  {| supported_model := supported_model o;
     hparams :=
       match hparams o with
       | Some h => Some h
       | None => Some (ms.spec_hparams (value (supported_model o)))
       end;
     model_options :=
       match model_options o with
       | Some m => Some m
       | None => Some (ms.spec_model_options (value (supported_model o)))
       end |}.

(** The state in which [create] calls the family builder. *)
Definition after_defaults (s : state) : state :=
  {| options := with_defaults (options s); trace := trace s |}.

Definition bert_metrics (h : hp.BertHParams) (num_classes : Z) : list tf.Metric :=
  if (num_classes =? 2)%Z then
    default_metrics
      ++ map (fun p => tf.BinarySparseRecallAtPrecision
                         p ("recall_at_precision_" ++ str_float p) 1000)
             (hp.desired_precisions h)
      ++ map (fun r => tf.BinarySparseRecallAtPrecision
                         r ("precision_at_recall_" ++ str_float r) 1000)
             (hp.desired_recalls h)
  else default_metrics.

(** [steps_per_epoch * epochs] as [_create_optimizer] computes it. *)
Definition total_steps_of (h : hp.BertHParams)
           (train_data : preprocessor.ProcessedDataset) : Z :=
  get_steps_per_epoch (hp.steps_per_epoch (hp.base h))
                      (hp.batch_size (hp.base h)) train_data
  * hp.epochs (hp.base h).

(** The hyperparameters after [_create_optimizer] has stored the steps per
    epoch. *)
Definition with_steps (h : hp.BertHParams)
           (train_data : preprocessor.ProcessedDataset) : hp.BertHParams :=
  hp.set_base
    (hp.set_steps_per_epoch
       (Some (get_steps_per_epoch (hp.steps_per_epoch (hp.base h))
                                  (hp.batch_size (hp.base h)) train_data))
       (hp.base h)) h.

Definition optimizer_outcome (h : hp.BertHParams)
           (train_data : preprocessor.ProcessedDataset) (w : Z)
           (self : Classifier) : outcome Classifier :=
  let sched := lr_schedule_of h (total_steps_of h train_data) w in
  match hp.optimizer h with
  | hp.ADAMW =>
      Return (set_optimizer
                (Some (tf.AdamW sched (hp.weight_decay h) lit_1e_6 lit_1_0
                                exclude_list))
                (classifier.set_hparams (hp.Bert (with_steps h train_data)) self))
  | hp.LAMB =>
      Return (set_optimizer
                (Some (tf.LAMB sched (hp.weight_decay h) lit_1e_6
                               exclude_list lit_1_0))
                (classifier.set_hparams (hp.Bert (with_steps h train_data)) self))
  | hp.OtherOptimizer name => Raise (ValueError (optimizer_message name))
  end.

(** The options select the encoder family with specification [spec], and
    after defaults carry encoder model options [o] and encoder
    hyperparameters [h]. *)
Definition encoder_family (opts : TextClassifierOptions)
           (spec : ms.BertClassifierSpec) (o : mo.BertModelOptions)
           (h : hp.BertHParams) : Prop :=
  value (supported_model opts) = ms.Bert spec
  /\ model_options (with_defaults opts) = Some (mo.Bert o)
  /\ hparams (with_defaults opts) = Some (hp.Bert h).

(** The options select the embedding family, and after defaults carry
    embedding model options [o] and hyperparameters [h]. *)
Definition embedding_family (opts : TextClassifierOptions)
           (spec : ms.AverageWordEmbeddingClassifierSpec)
           (o : mo.AverageWordEmbeddingModelOptions) (h : hp.HParams) : Prop :=
  supported_model opts = AVERAGE_WORD_EMBEDDING_CLASSIFIER
  /\ value (supported_model opts) = ms.AverageWordEmbedding spec
  /\ model_options (with_defaults opts) = Some (mo.AverageWordEmbedding o)
  /\ hparams (with_defaults opts) = Some h.

End StatementVocabulary.

Arguments _BertClassifier.warmup_steps_of : simpl never.

(** ** Strategy scopes and the events of a run *)

(** The scope depth after the events [t], entered at depth [d]; [None] when
    a scope is left that was not entered. *)
Fixpoint scope_depth (t : list event) (d : nat) : option nat :=
  match t with
  | [] => Some d
  | EvStrategyScopeEnter :: r => scope_depth r (S d)
  | EvStrategyScopeExit :: r =>
      match d with
      | O => None
      | S d' => scope_depth r d'
      end
  | _ :: r => scope_depth r d
  end.

(** Every scope entered in [t] is left in [t], in nesting order. *)
Definition scopes_closed (t : list event) : Prop := scope_depth t 0 = Some 0%nat.

(** The events that neither build, fit nor train anything. *)
Definition is_read_only_event (e : event) : bool :=
  match e with
  | EvPreprocess _ _ | EvStrategyScopeEnter | EvStrategyScopeExit
  | EvEvaluate _ _ => true
  | _ => false
  end.

Definition read_only (t : list event) : Prop :=
  forallb is_read_only_event t = true.

(** ** Architectures *)

(** The architecture under the training records of a model. *)
Fixpoint architecture_of (m : KerasModel) : tf.Architecture :=
  match m with
  | Built a => a
  | Fitted m _ _ _ _ _ => architecture_of m
  end.

(** The width of the output layer. *)
Definition output_units (a : tf.Architecture) : option Z :=
  match a with
  | tf.Sequential layers =>
      match last layers tf.GlobalAveragePooling1D with
      | tf.Dense units _ => Some units
      | _ => None
      end
  | tf.EncoderClassifier _ _ _ num_classes _ => Some num_classes
  end.

(** A metric swept over 1000 thresholds. *)
Definition is_threshold_metric (m : tf.Metric) : bool :=
  match m with
  | tf.BinarySparseRecallAtPrecision _ _ n => (n =? 1000)%Z
  | _ => false
  end.



Section RunVocabulary.
Context {env : Environment}.

(** Whatever the outcome, [m] only adds events, and the events it adds
    leave every strategy scope they enter. *)
Definition closes_scopes {A : Type} (m : M A) : Prop :=
  forall s, exists t, trace (snd (m s)) = trace s ++ t /\ scopes_closed t.

(** Whatever the outcome, [m] only adds events, none of them a training
    call. *)
Definition never_trains {A : Type} (m : M A) : Prop :=
  forall s, exists t, trace (snd (m s)) = trace s ++ t /\ no_training t.

(** [m] only adds events; when it returns, the last of them is a training
    call and the only one; when it raises, none is. *)
Definition trains_last {A : Type} (m : M A) : Prop :=
  forall s,
    match m s with
    | (Return _, s') =>
        exists before e,
          trace s' = trace s ++ before ++ [e]
          /\ no_training before
          /\ is_training_event e = true
    | (Raise _, s') =>
        exists t, trace s' = trace s ++ t /\ no_training t
    end.

End RunVocabulary.

(** ** Files *)

Section ExportVocabulary.
Context {xenv : ExportEnvironment}.

(** What a path holds. *)
Inductive Stored :=
| SavedModel (m : KerasModel) (include_optimizer : bool) (save_format : string)
| SavedModelWithTokenizer (m : io.ModelWithTokenizer)
| TfliteFile (t : io.TfliteModel)
| TextFile (writes : list io.Written).

Definition store : Type := string -> option Stored.

Definition update (fs : store) (path : string) (x : Stored) : store :=
  fun q => if String.eqb q path then Some x else fs q.

(** The files after one call: a save or a write replaces what the path
    held, a [GFile] block that writes nothing leaves its path as it was
    (the file is opened by the first write), a copy gives the destination
    what the source holds, and the other calls write no file this
    development follows. *)
Definition after_call (fs : store) (c : io.call) : store :=
  match c with
  | io.ModelSave m path include_optimizer save_format =>
      update fs path (SavedModel m include_optimizer save_format)
  | io.ModelWithTokenizerSave m path =>
      update fs path (SavedModelWithTokenizer m)
  | io.GFileWrite path [] => fs
  | io.GFileWrite path writes => update fs path (TextFile writes)
  | io.Copy src dst _ =>
      match fs src with
      | Some x => update fs dst x
      | None => fs
      end
  | io.SaveTflite t path => update fs path (TfliteFile t)
  | _ => fs
  end.

(** The files after the calls [cs], made in order. *)
Definition files_after (fs : store) (cs : list io.call) : store :=
  fold_left after_call cs fs.

(** The calls [m] adds to a world. *)
Definition adds {A : Type} (m : io.IO A) (w : io.world) (r : io.result A)
           (cs : list io.call) : Prop :=
  exists n, m w = (r, {| io.calls := io.calls w ++ cs; io.temp_dirs := n |}).

(** A call that writes a file or saves a model. *)
Definition is_write (c : io.call) : bool :=
  match c with
  | io.ModelSave _ _ _ _ | io.ModelWithTokenizerSave _ _ | io.GFileWrite _ _
  | io.Copy _ _ _ | io.SaveTflite _ _ => true
  | _ => false
  end.

Definition is_print (c : io.call) : bool :=
  match c with io.Print _ => true | _ => false end.

(** The text of the string writes of a file, in order. *)
Fixpoint file_text (writes : list io.Written) : string :=
  match writes with
  | [] => EmptyString
  | io.Str s :: r => (s ++ file_text r)%string
  | io.MetadataJson _ :: r => file_text r
  end.

End ExportVocabulary.

(** The lines of a text, each ended by a line feed; what follows the last
    line feed is the last element. *)
Fixpoint lines_from (cur : string) (s : string) : list string :=
  match s with
  | EmptyString => [cur]
  | String c r =>
      if Ascii.eqb c (ascii_of_nat 10)
      then cur :: lines_from EmptyString r
      else lines_from (cur ++ String c EmptyString) r
  end.

Definition lines (s : string) : list string := lines_from EmptyString s.

Definition has_no_line_feed (s : string) : Prop :=
  all_chars (fun c => negb (Ascii.eqb c (ascii_of_nat 10))) s = true.

(* ===================================================================== *)
(** * Properties *)
(* ===================================================================== *)

Import preprocessor.

(** ** Binary64: the warm-up step count *)

Section Binary64Facts.
Local Open Scope Z_scope.

Lemma digits2_pos_size (p : positive) : digits2_pos p = Pos.size p.
Proof. induction p; simpl; congruence. Qed.

Lemma digits2_pos_bounds (p : positive) :
  2 ^ (Zpos (digits2_pos p) - 1) <= Zpos p < 2 ^ Zpos (digits2_pos p).
Proof.
  rewrite digits2_pos_size. split.
  - pose proof (Pos.size_le p) as H.
    assert (H' : 2 ^ Zpos (Pos.size p) <= 2 * Zpos p).
    { change 2 with (Zpos 2) at 1. rewrite <- Pos2Z.inj_pow.
      change (2 * Zpos p) with (Zpos (p~0)). apply Pos2Z.pos_le_pos. exact H. }
    replace (Zpos (Pos.size p)) with (Z.succ (Zpos (Pos.size p) - 1)) in H' by lia.
    rewrite Z.pow_succ_r in H' by lia. lia.
  - pose proof (Pos.size_gt p) as H.
    change 2 with (Zpos 2). rewrite <- Pos2Z.inj_pow.
    apply Pos2Z.pos_lt_pos. exact H.
Qed.

Lemma digits2_pos_unique (p : positive) (d : Z) :
  2 ^ (d - 1) <= Zpos p < 2 ^ d -> Zpos (digits2_pos p) = d.
Proof.
  intros [Hlo Hhi]. pose proof (digits2_pos_bounds p) as [Blo Bhi].
  set (d' := Zpos (digits2_pos p)) in *.
  assert (0 < d') by (subst d'; lia).
  destruct (Z.lt_trichotomy d' d) as [Hlt | [Heq | Hgt]]; [| exact Heq |].
  - assert (2 ^ d' <= 2 ^ (d - 1)) by (apply Z.pow_le_mono_r; lia). lia.
  - assert (d <= 0 \/ 0 < d) as [Hd | Hd] by lia.
    + assert (2 ^ d <= 2 ^ (d' - 1)) by (apply Z.pow_le_mono_r; lia).
      destruct (Z.eq_dec d 0) as [-> | Hn].
      * simpl in Hhi. lia.
      * rewrite (Z.pow_neg_r 2 d) in Hhi by lia. lia.
    + assert (2 ^ d <= 2 ^ (d' - 1)) by (apply Z.pow_le_mono_r; lia). lia.
Qed.

Lemma shr_1_m (mrs : shr_record) :
  0 <= shr_m mrs -> shr_m (shr_1 mrs) = shr_m mrs / 2 /\ 0 <= shr_m (shr_1 mrs).
Proof.
  destruct mrs as [m r s]. cbn [shr_m]. intros Hm.
  destruct m as [| [p | p |] | p]; cbn [shr_1 shr_m]; try lia.
  - split; [reflexivity | lia].
  - split; [| lia].
    apply Z.div_unique with (r := 1); lia.
  - split; [| lia].
    apply Z.div_unique with (r := 0); lia.
  - split; [reflexivity | lia].
Qed.

Lemma iter_shr_1_m (p : positive) : forall mrs : shr_record,
  0 <= shr_m mrs ->
  shr_m (iter_pos shr_1 p mrs) = shr_m mrs / 2 ^ Zpos p
  /\ 0 <= shr_m (iter_pos shr_1 p mrs).
Proof.
  induction p as [p IH | p IH |]; intros mrs Hm; simpl iter_pos.
  - destruct (shr_1_m mrs Hm) as [E1 P1].
    destruct (IH _ P1) as [E2 P2]. destruct (IH _ P2) as [E3 P3].
    split; [| exact P3]. rewrite E3, E2, E1.
    rewrite !Z.div_div by (try apply Z.pow_pos_nonneg; lia).
    f_equal. rewrite Pos2Z.inj_xI.
    replace (2 * Zpos p + 1) with (1 + Zpos p + Zpos p) by lia.
    rewrite !Z.pow_add_r by lia. simpl (2 ^ 1). lia.
  - destruct (IH _ Hm) as [E2 P2]. destruct (IH _ P2) as [E3 P3].
    split; [| exact P3]. rewrite E3, E2.
    rewrite !Z.div_div by (try apply Z.pow_pos_nonneg; lia).
    f_equal.
    replace (Zpos p~0) with (Zpos p + Zpos p) by lia.
    rewrite !Z.pow_add_r by lia. lia.
  - destruct (shr_1_m mrs Hm) as [E1 P1]. split; [| exact P1].
    rewrite E1. reflexivity.
Qed.

Lemma round_nearest_even_bounds (m : Z) (l : location) :
  m <= round_nearest_even m l <= m + 1.
Proof.
  destruct l as [| []]; simpl; try lia. destruct (Z.even m); lia.
Qed.

Lemma pos_iter_xO (m d : positive) :
  Zpos (Pos.iter xO m d) = Zpos m * 2 ^ Zpos d.
Proof.
  induction d as [| d IH] using Pos.peano_ind.
  - simpl. lia.
  - rewrite Pos.iter_succ, Pos2Z.inj_xO, IH, Pos2Z.inj_succ, Z.pow_succ_r by lia. lia.
Qed.

(** Rounding a mantissa that carries [k > 0] bits too many. *)
Lemma binary_round_aux_shift (P : positive) (E k : Z) :
  0 < k ->
  2 ^ (52 + k) <= Zpos P < 2 ^ (53 + k) ->
  -1074 <= E + k -> E + k + 1 <= 971 ->
  exists q',
    Zpos P / 2 ^ k <= q' <= Zpos P / 2 ^ k + 1
    /\ ((q' < 2 ^ 53
         /\ binary_round_aux 53 1024 false (Zpos P) E loc_Exact
            = S754_finite false (Z.to_pos q') (E + k))
        \/ (q' = 2 ^ 53
            /\ binary_round_aux 53 1024 false (Zpos P) E loc_Exact
               = S754_finite false (Z.to_pos (2 ^ 52)) (E + k + 1))).
Proof.
  intros Hk HP Hlo Hhi.
  assert (Hd : Zpos (digits2_pos P) = 53 + k).
  { apply digits2_pos_unique. replace (53 + k - 1) with (52 + k) by lia. exact HP. }
  destruct k as [| kp |]; try lia.
  set (mrs := iter_pos shr_1 kp {| shr_m := Zpos P; shr_r := false; shr_s := false |}).
  assert (H1 : shr_fexp 53 1024 (Zpos P) E loc_Exact = (mrs, E + Zpos kp)).
  { unfold shr_fexp, Zdigits2, fexp, emin. rewrite Hd.
    rewrite Z.max_l by lia.
    replace (53 + Zpos kp + E - 53 - E) with (Zpos kp) by lia.
    reflexivity. }
  destruct (iter_shr_1_m kp {| shr_m := Zpos P; shr_r := false; shr_s := false |})
    as [Em Pm]; [cbn; lia |].
  cbn [shr_m] in Em. fold mrs in Em, Pm.
  set (q := shr_m mrs) in *.
  pose proof (round_nearest_even_bounds q (loc_of_shr_record mrs)) as Hq'.
  set (q' := round_nearest_even q (loc_of_shr_record mrs)) in *.
  assert (Hq : 2 ^ 52 <= q < 2 ^ 53).
  { rewrite Em. split.
    - apply Z.div_le_lower_bound; [apply Z.pow_pos_nonneg; lia |].
      rewrite <- Z.pow_add_r by lia. replace (Zpos kp + 52) with (52 + Zpos kp) by lia. lia.
    - apply Z.div_lt_upper_bound; [apply Z.pow_pos_nonneg; lia |].
      rewrite <- Z.pow_add_r by lia. replace (Zpos kp + 53) with (53 + Zpos kp) by lia. lia. }
  assert (H2 : binary_round_aux 53 1024 false (Zpos P) E loc_Exact =
               let '(mrs'', e'') := shr_fexp 53 1024 q' (E + Zpos kp) loc_Exact in
               match shr_m mrs'' with
               | 0 => S754_zero false
               | Zpos m => if e'' <=? 1024 - 53 then S754_finite false m e''
                           else S754_infinity false
               | Zneg _ => S754_nan
               end).
  { unfold binary_round_aux. rewrite H1. reflexivity. }
  rewrite H2. clear H2 H1.
  exists q'. split; [rewrite <- Em; exact Hq' |].
  assert (Hcase : q' < 2 ^ 53 \/ q' = 2 ^ 53) by lia.
  clearbody q'.
  destruct Hcase as [Hlt | Heq].
  - left. split; [exact Hlt |].
    destruct q' as [| qp |]; try lia.
    assert (Hd' : Zpos (digits2_pos qp) = 53).
    { apply digits2_pos_unique. simpl (53 - 1). lia. }
    unfold shr_fexp, Zdigits2, fexp, emin. rewrite Hd'.
    rewrite Z.max_l by lia.
    replace (53 + (E + Zpos kp) - 53 - (E + Zpos kp)) with 0 by lia.
    cbn [shr shr_record_of_loc shr_m].
    destruct (Z.leb_spec (E + Zpos kp) (1024 - 53)); [reflexivity | lia].
  - right. split; [exact Heq |].
    subst q'.
    change (2 ^ 53) with (Zpos (Z.to_pos (2 ^ 53))).
    unfold shr_fexp, Zdigits2, fexp, emin.
    change (Zpos (digits2_pos (Z.to_pos (2 ^ 53)))) with 54.
    rewrite Z.max_l by lia.
    replace (54 + (E + Zpos kp) - 53 - (E + Zpos kp)) with 1 by lia.
    cbn [shr shr_record_of_loc iter_pos].
    change (shr_m (shr_1 {| shr_m := Zpos (Z.to_pos (2 ^ 53)); shr_r := false; shr_s := false |}))
      with (Zpos (Z.to_pos (2 ^ 52))).
    cbv iota beta.
    destruct (Z.leb_spec (E + Zpos kp + 1) (1024 - 53)); [reflexivity | lia].
Qed.

Lemma shr_fexp_normal (qp : positive) (E : Z) :
  Zpos (digits2_pos qp) = 53 -> -1074 <= E ->
  shr_fexp 53 1024 (Zpos qp) E loc_Exact
  = ({| shr_m := Zpos qp; shr_r := false; shr_s := false |}, E).
Proof.
  intros Hd HE. unfold shr_fexp, Zdigits2, fexp, emin. rewrite Hd.
  rewrite Z.max_l by lia.
  replace (53 + E - 53 - E) with 0 by lia. reflexivity.
Qed.

Lemma binary_round_aux_normal (qp : positive) (E : Z) :
  Zpos (digits2_pos qp) = 53 -> -1074 <= E <= 971 ->
  binary_round_aux 53 1024 false (Zpos qp) E loc_Exact = S754_finite false qp E.
Proof.
  intros Hd HE. unfold binary_round_aux.
  rewrite (shr_fexp_normal qp E Hd) by lia.
  cbn [shr_m loc_of_shr_record round_nearest_even].
  rewrite (shr_fexp_normal qp E Hd) by lia.
  cbn [shr_m].
  destruct (Z.leb_spec E (1024 - 53)); [reflexivity | lia].
Qed.

(** [float(n)] is exact below 2^52: the mantissa is [n] shifted to 53 bits. *)
Lemma of_int_small (n : positive) :
  Zpos n < 2 ^ 52 ->
  exists a mx,
    1 <= a <= 52
    /\ Zpos mx = Zpos n * 2 ^ a
    /\ 2 ^ 52 <= Zpos mx < 2 ^ 53
    /\ of_int (Zpos n) = Some (S754_finite false mx (- a)).
Proof.
  intros Hn.
  pose proof (digits2_pos_bounds n) as [Blo Bhi].
  set (dn := Zpos (digits2_pos n)) in *.
  assert (Hdn : 1 <= dn <= 52).
  { split; [subst dn; lia |].
    destruct (Z_le_gt_dec dn 52) as [H | H]; [exact H |].
    assert (2 ^ 52 <= 2 ^ (dn - 1)) by (apply Z.pow_le_mono_r; lia). lia. }
  set (ap := Z.to_pos (53 - dn)).
  assert (Hap : Zpos ap = 53 - dn) by (subst ap; rewrite Z2Pos.id; lia).
  exists (53 - dn), (Pos.iter xO n ap).
  assert (Hmx : Zpos (Pos.iter xO n ap) = Zpos n * 2 ^ (53 - dn)).
  { rewrite pos_iter_xO, Hap. reflexivity. }
  assert (Hrange : 2 ^ 52 <= Zpos (Pos.iter xO n ap) < 2 ^ 53).
  { rewrite Hmx. split.
    - replace 52 with ((dn - 1) + (53 - dn)) at 1 by lia.
      rewrite Z.pow_add_r by lia.
      apply Z.mul_le_mono_nonneg_r; [apply Z.pow_nonneg; lia | exact Blo].
    - replace 53 with (dn + (53 - dn)) at 2 by lia.
      rewrite Z.pow_add_r by lia.
      apply Z.mul_lt_mono_pos_r; [apply Z.pow_pos_nonneg; lia | exact Bhi]. }
  split; [lia |]. split; [exact Hmx |]. split; [exact Hrange |].
  unfold of_int, binary_normalize, binary_round, shl_align, fexp, emin.
  unfold PyFloat.prec, PyFloat.emax.
  fold dn. rewrite Z.max_l by lia.
  replace (dn + 0 - 53 - 0) with (Zneg ap) by lia.
  replace (dn + 0 - 53) with (- (53 - dn)) by lia.
  rewrite binary_round_aux_normal.
  - reflexivity.
  - apply digits2_pos_unique. simpl (53 - 1). exact Hrange.
  - lia.
Qed.

Lemma to_int_negative_exponent (m : positive) (e : Z) :
  e < 0 -> to_int (S754_finite false m e) = Some (Zpos m / 2 ^ (- e)).
Proof.
  intros He. destruct e as [| p | p]; try lia. reflexivity.
Qed.

Lemma lit_0_1_value :
  lit_0_1 = S754_finite false (Z.to_pos tenth_mantissa) (-56).
Proof. reflexivity. Qed.

(** A 53-bit rounding of [n * 0.1] cannot reach the next integer. *)
Lemma tenth_quotient (n a k q' : Z) :
  0 < n -> 1 <= a <= 52 -> (k = 52 \/ k = 53) ->
  2 ^ 52 <= n * 2 ^ a < 2 ^ 53 ->
  2 ^ (52 + k) <= n * 2 ^ a * tenth_mantissa < 2 ^ (53 + k) ->
  n * 2 ^ a * tenth_mantissa / 2 ^ k <= q' <= n * 2 ^ a * tenth_mantissa / 2 ^ k + 1 ->
  q' / 2 ^ (a + 56 - k) = n / 10.
Proof.
  intros Hn Ha Hk Hmx HP Hq.
  set (A := 2 ^ a) in *.
  assert (HA : 2 <= A).
  { subst A. change 2 with (2 ^ 1) at 1. apply Z.pow_le_mono_r; lia. }
  set (S := 2 ^ (a + 56 - k)).
  assert (HS : 0 < S) by (subst S; apply Z.pow_pos_nonneg; lia).
  assert (HSK : S * 2 ^ k = A * 2 ^ 56).
  { subst S A. rewrite <- !Z.pow_add_r by lia. f_equal. lia. }
  set (K := 2 ^ k) in *.
  assert (HK : 0 < K /\ K <= 2 ^ 53).
  { subst K. split; [apply Z.pow_pos_nonneg; lia |].
    apply Z.pow_le_mono_r; lia. }
  set (P := n * A * tenth_mantissa) in *.
  pose proof (Z.div_mod n 10 ltac:(lia)) as Hdm.
  pose proof (Z.mod_pos_bound n 10 ltac:(lia)) as Hmb.
  set (t := n / 10) in *.
  pose proof (Z.mul_div_le P K ltac:(lia)) as Hfl.
  pose proof (Z.mul_succ_div_gt P K ltac:(lia)) as Hfu.
  set (q := P / K) in *.
  symmetry. apply Z.div_unique with (r := q' - t * S).
  - left. split.
    + (* t * S <= q' *)
      assert (t * S * K <= P).
      { replace (t * S * K) with (t * (S * K)) by ring. rewrite HSK.
        subst P. unfold tenth_mantissa in *. change (2 ^ 56) with 72057594037927936.
        nia. }
      assert (t * S <= q) by nia. lia.
    + (* q' < (t + 1) * S *)
      assert (P + K < (t + 1) * S * K).
      { replace ((t + 1) * S * K) with ((t + 1) * (S * K)) by ring. rewrite HSK.
        subst P. unfold tenth_mantissa in *.
        change (2 ^ 56) with 72057594037927936.
        change (2 ^ 53) with 9007199254740992 in *.
        change (2 ^ 52) with 4503599627370496 in *.
        nia. }
      assert (q + 1 < (t + 1) * S) by nia. lia.
  - ring.
Qed.

Lemma tenth_mantissa_bounds : 2 ^ 52 <= tenth_mantissa < 2 ^ 53.
Proof. unfold tenth_mantissa. split; [apply Z.leb_le | apply Z.ltb_lt]; reflexivity. Qed.

Lemma warmup_steps_of_small (n : Z) :
  0 <= n < 2 ^ 52 -> _BertClassifier.warmup_steps_of n = Some (n / 10).
Proof.
  intros [Hn0 Hn]. unfold _BertClassifier.warmup_steps_of, int_mul.
  destruct n as [| n | n]; [reflexivity | | lia].
  destruct (of_int_small n Hn) as (a & mx & Ha & Hmx & Hrange & Hof).
  rewrite Hof, lit_0_1_value.
  unfold mul, SFmul. cbn [xorb].
  pose proof tenth_mantissa_bounds as HC.
  assert (HP : 2 ^ 104 <= Zpos (mx * Z.to_pos tenth_mantissa) < 2 ^ 106).
  { rewrite Pos2Z.inj_mul.
    change (Zpos (Z.to_pos tenth_mantissa)) with tenth_mantissa.
    change (2 ^ 104) with (2 ^ 52 * 2 ^ 52). change (2 ^ 106) with (2 ^ 53 * 2 ^ 53).
    split.
    - apply Z.mul_le_mono_nonneg; lia.
    - apply Z.mul_lt_mono_nonneg; lia. }
  assert (Hk : exists k, (k = 52 \/ k = 53)
                         /\ 2 ^ (52 + k) <= Zpos (mx * Z.to_pos tenth_mantissa) < 2 ^ (53 + k)).
  { destruct (Z_lt_le_dec (Zpos (mx * Z.to_pos tenth_mantissa)) (2 ^ 105)) as [H | H].
    - exists 52. split; [left; reflexivity |]. simpl (52 + 52). simpl (53 + 52). lia.
    - exists 53. split; [right; reflexivity |]. simpl (52 + 53). simpl (53 + 53). lia. }
  destruct Hk as (k & Hk & HPk).
  destruct (binary_round_aux_shift (mx * Z.to_pos tenth_mantissa) (- a + -56) k)
    as (q' & Hq' & Hres); [lia | exact HPk | lia | lia |].
  assert (Hquot : q' / 2 ^ (a + 56 - k) = Zpos n / 10).
  { pose proof HPk as HPk'. pose proof Hq' as Hq''.
    rewrite Pos2Z.inj_mul in HPk', Hq''.
    change (Zpos (Z.to_pos tenth_mantissa)) with tenth_mantissa in HPk', Hq''.
    rewrite Hmx in HPk', Hq''. rewrite Hmx in Hrange.
    apply tenth_quotient; solve [lia | assumption]. }
  assert (Hq'pos : 2 ^ 52 <= q').
  { destruct Hq' as [Hlo _]. eapply Z.le_trans; [| exact Hlo].
    apply Z.div_le_lower_bound; [apply Z.pow_pos_nonneg; lia |].
    rewrite <- Z.pow_add_r by lia. replace (k + 52) with (52 + k) by lia. lia. }
  unfold PyFloat.prec, PyFloat.emax.
  destruct Hres as [[Hlt Hres] | [Heq Hres]]; rewrite Hres.
  - rewrite to_int_negative_exponent by lia.
    rewrite Z2Pos.id by lia.
    replace (- (- a + -56 + k)) with (a + 56 - k) by lia.
    rewrite Hquot. reflexivity.
  - rewrite to_int_negative_exponent by lia.
    replace (- (- a + -56 + k + 1)) with (a + 56 - k - 1) by lia.
    rewrite <- Hquot. rewrite Heq. f_equal.
    change (Zpos (Z.to_pos (2 ^ 52))) with (2 ^ 52).
    assert (Hs : 0 <= a + 56 - k - 1) by lia.
    set (s' := a + 56 - k - 1) in *.
    replace (a + 56 - k) with (1 + s') by (subst s'; lia).
    rewrite Z.pow_add_r by lia.
    change (2 ^ 53) with (2 ^ 1 * 2 ^ 52).
    rewrite Z.div_mul_cancel_l; [reflexivity | | lia].
    apply Z.pow_nonzero; lia.
Qed.

(** The bound matters: close to 2^53 the rounded product reaches the next
    integer. *)
Lemma warmup_steps_of_large :
  _BertClassifier.warmup_steps_of 9007199254740989 = Some 900719925474099
  /\ 9007199254740989 / 10 = 900719925474098.
Proof. split; reflexivity. Qed.

End Binary64Facts.

(** ** The embedding-family preprocessor *)

Section VocabularyFacts.
Local Open Scope list_scope.

(** tally / count_tokens *)

Lemma tally_keys (t : string) (c : list (string * nat)) :
  forall u, In u (map fst (tally t c)) <-> u = t \/ In u (map fst c).
Proof.
  induction c as [| [v n] c IH]; intros u; simpl.
  - intuition congruence.
  - destruct (String.eqb_spec v t) as [-> | Hne]; simpl.
    + intuition.
    + rewrite IH. intuition.
Qed.

Lemma tally_nodup (t : string) (c : list (string * nat)) :
  NoDup (map fst c) -> NoDup (map fst (tally t c)).
Proof.
  induction c as [| [v n] c IH]; intros Hnd; simpl.
  - constructor; [intros [] | constructor].
  - inversion Hnd as [| ? ? Hnot Hnd']; subst.
    destruct (String.eqb_spec v t) as [-> | Hne]; simpl.
    + constructor; assumption.
    + constructor; [| apply IH; exact Hnd'].
      rewrite tally_keys. intros [-> | Hin]; [congruence | contradiction].
Qed.

Lemma recorded_tally (t u : string) (c : list (string * nat)) :
  recorded u (tally t c) = if String.eqb t u then S (recorded u c) else recorded u c.
Proof.
  induction c as [| [v n] c IH]; simpl.
  - destruct (String.eqb_spec t u); reflexivity.
  - destruct (String.eqb_spec v t) as [-> | Hne]; simpl.
    + destruct (String.eqb_spec t u); reflexivity.
    + destruct (String.eqb_spec v u) as [-> | Hne'].
      * destruct (String.eqb_spec t u); [congruence | reflexivity].
      * exact IH.
Qed.

Lemma recorded_in (u : string) (n : nat) (c : list (string * nat)) :
  NoDup (map fst c) -> In (u, n) c -> recorded u c = n.
Proof.
  induction c as [| [v m] c IH]; intros Hnd Hin; simpl; [destruct Hin |].
  inversion Hnd as [| ? ? Hnot Hnd']; subst.
  destruct Hin as [E | Hin].
  - inversion E; subst. rewrite String.eqb_refl. reflexivity.
  - destruct (String.eqb_spec v u) as [-> | Hne].
    + exfalso. apply Hnot. change u with (fst (u, n)). apply in_map. exact Hin.
    + apply IH; assumption.
Qed.

Lemma in_recorded (u : string) (c : list (string * nat)) :
  In u (map fst c) -> In (u, recorded u c) c.
Proof.
  induction c as [| [v m] c IH]; simpl; [intros [] |].
  intros [E | Hin].
  - subst v. rewrite String.eqb_refl. left. reflexivity.
  - destruct (String.eqb_spec v u) as [-> | Hne]; [left; reflexivity |].
    right. apply IH. exact Hin.
Qed.

Lemma count_tokens_spec (tokens : list string) :
  NoDup (map fst (count_tokens tokens))
  /\ (forall u, In u (map fst (count_tokens tokens)) <-> In u tokens)
  /\ (forall u, recorded u (count_tokens tokens) = count_occ string_dec tokens u).
Proof.
  unfold count_tokens.
  assert (G : forall c,
             NoDup (map fst c) ->
             NoDup (map fst (fold_left (fun c t => tally t c) tokens c))
             /\ (forall u, In u (map fst (fold_left (fun c t => tally t c) tokens c))
                           <-> In u (map fst c) \/ In u tokens)
             /\ (forall u, recorded u (fold_left (fun c t => tally t c) tokens c)
                           = (recorded u c + count_occ string_dec tokens u)%nat)).
  { induction tokens as [| t tokens IH]; intros c Hnd; simpl.
    - repeat split; auto; try tauto; intros; lia.
    - destruct (IH (tally t c) (tally_nodup t c Hnd)) as (H1 & H2 & H3).
      repeat split.
      + exact H1.
      + rewrite H2, tally_keys. intuition.
      + rewrite H2, tally_keys. intuition.
      + intros u. rewrite H3, recorded_tally.
        destruct (string_dec t u) as [-> | Hne].
        * rewrite String.eqb_refl. lia.
        * destruct (String.eqb_spec t u); [congruence | lia]. }
  destruct (G [] (NoDup_nil _)) as (H1 & H2 & H3).
  repeat split.
  - exact H1.
  - intros H. apply H2 in H. simpl in H. tauto.
  - intros H. apply H2. right. exact H.
  - intros u. rewrite H3. reflexivity.
Qed.

(** sorting by decreasing count *)

Lemma insert_by_count_perm (x : string * nat) (l : list (string * nat)) :
  Permutation (insert_by_count x l) (x :: l).
Proof.
  induction l as [| y l IH]; simpl; [reflexivity |].
  destruct (snd y <=? snd x)%nat; [reflexivity |].
  rewrite IH. apply perm_swap.
Qed.

Lemma sort_by_count_perm (l : list (string * nat)) :
  Permutation (sort_by_count l) l.
Proof.
  induction l as [| x l IH]; simpl; [reflexivity |].
  rewrite insert_by_count_perm. constructor. exact IH.
Qed.

Lemma insert_by_count_sorted (x : string * nat) (l : list (string * nat)) :
  StronglySorted by_count l -> StronglySorted by_count (insert_by_count x l).
Proof.
  induction l as [| y l IH]; intros Hs; simpl.
  - constructor; constructor.
  - inversion Hs as [| ? ? Hs' Hall]; subst.
    destruct (Nat.leb_spec (snd y) (snd x)) as [Hle | Hlt].
    + constructor; [exact Hs |].
      constructor; [exact Hle |].
      eapply Forall_impl; [| exact Hall]. unfold by_count. intros z Hz. lia.
    + constructor; [apply IH; exact Hs' |].
      eapply Permutation_Forall; [symmetry; apply insert_by_count_perm |].
      constructor; [unfold by_count; lia | exact Hall].
Qed.

Lemma sort_by_count_sorted (l : list (string * nat)) :
  StronglySorted by_count (sort_by_count l).
Proof.
  induction l as [| x l IH]; simpl; [constructor |].
  apply insert_by_count_sorted. exact IH.
Qed.

Lemma sorted_firstn_skipn (l : list (string * nat)) (k : nat) :
  StronglySorted by_count l ->
  forall x y, In x (firstn k l) -> In y (skipn k l) -> (snd y <= snd x)%nat.
Proof.
  intros Hs. revert k. induction Hs as [| a l Hs IH Hall]; intros k x y Hx Hy.
  - rewrite firstn_nil in Hx. destruct Hx.
  - destruct k as [| k]; simpl in Hx, Hy; [destruct Hx |].
    destruct Hx as [<- | Hx].
    + rewrite Forall_forall in Hall. apply (Hall y).
      rewrite <- (firstn_skipn k l). apply in_or_app. right. exact Hy.
    + eapply IH; eassumption.
Qed.

Lemma NoDup_firstn_of {A : Type} (n : nat) (l : list A) :
  NoDup l -> NoDup (firstn n l).
Proof.
  intros H. rewrite <- (firstn_skipn n l) in H.
  apply NoDup_app_remove_r in H. exact H.
Qed.

(** the vocabulary *)

Section Vocabulary.
Variable do_lower_case : bool.
Variable texts : list string.
Variable vocab_size : Z.

Let corpus : list string := flat_map (regex_split do_lower_case) texts.
Let vocab : list string := gen_vocab do_lower_case texts vocab_size.

Lemma gen_vocab_length : (List.length vocab <= Z.to_nat vocab_size)%nat.
Proof.
  subst vocab. unfold gen_vocab, most_common.
  rewrite length_map. apply firstn_le_length.
Qed.

Lemma gen_vocab_nodup : NoDup vocab.
Proof.
  subst vocab. unfold gen_vocab, most_common.
  rewrite <- firstn_map. apply NoDup_firstn_of.
  eapply Permutation_NoDup.
  - apply Permutation_map. symmetry. apply sort_by_count_perm.
  - apply count_tokens_spec.
Qed.

Lemma gen_vocab_tokens (t : string) : In t vocab -> In t corpus.
Proof.
  subst vocab. unfold gen_vocab, most_common. intros H.
  apply in_map_iff in H. destruct H as ([t' n] & <- & Hin).
  assert (Hin' : In (t', n) (sort_by_count (count_tokens corpus))).
  { rewrite <- (firstn_skipn (Z.to_nat vocab_size)). apply in_or_app. left. exact Hin. }
  apply (Permutation_in _ (sort_by_count_perm _)) in Hin'.
  destruct (count_tokens_spec corpus) as (_ & Hk & _).
  apply Hk. change t' with (fst (t', n)). apply in_map. exact Hin'.
Qed.

Lemma gen_vocab_most_frequent (t u : string) :
  In t vocab -> In u corpus -> ~ In u vocab ->
  (count_occ string_dec corpus u <= count_occ string_dec corpus t)%nat.
Proof.
  subst vocab. unfold gen_vocab, most_common. intros Ht Hu Hnu.
  destruct (count_tokens_spec corpus) as (Hnd & Hk & Hc).
  set (sorted := sort_by_count (count_tokens corpus)) in *.
  set (k := Z.to_nat vocab_size) in *.
  apply in_map_iff in Ht. destruct Ht as ([t' n] & Et & Hint). simpl in Et. subst t'.
  assert (Hins : In (t, n) (count_tokens corpus)).
  { apply (Permutation_in _ (sort_by_count_perm _)).
    fold sorted. rewrite <- (firstn_skipn k). apply in_or_app. left. exact Hint. }
  assert (Hu' : In (u, recorded u (count_tokens corpus)) sorted).
  { apply (Permutation_in _ (Permutation_sym (sort_by_count_perm _))).
    apply in_recorded. apply Hk. exact Hu. }
  rewrite <- (firstn_skipn k sorted) in Hu'. apply in_app_or in Hu'.
  destruct Hu' as [Hu' | Hu'].
  - exfalso. apply Hnu. change u with (fst (u, recorded u (count_tokens corpus))).
    apply in_map. exact Hu'.
  - pose proof (sorted_firstn_skipn sorted k (sort_by_count_sorted _) _ _ Hint Hu') as Hle.
    simpl in Hle. rewrite <- !Hc.
    rewrite (recorded_in t n (count_tokens corpus) Hnd Hins). exact Hle.
Qed.

End Vocabulary.

End VocabularyFacts.

(** ** Tokenization *)

Section TokenizationFacts.
Local Open Scope string_scope.

Lemma append_snoc (a : string) (c : ascii) (r : string) :
  (a ++ String c EmptyString) ++ r = a ++ String c r.
Proof. induction a as [| x a IH]; simpl; [reflexivity | rewrite IH; reflexivity]. Qed.

Lemma append_empty_r (a : string) : a ++ EmptyString = a.
Proof. induction a as [| x a IH]; simpl; [reflexivity | rewrite IH; reflexivity]. Qed.

Lemma all_chars_snoc (f : ascii -> bool) (a : string) (c : ascii) :
  all_chars f a = true -> f c = true -> all_chars f (a ++ String c EmptyString) = true.
Proof.
  induction a as [| x a IH]; simpl; intros Ha Hc.
  - rewrite Hc. reflexivity.
  - apply andb_true_iff in Ha. destruct Ha as [Hx Ha].
    rewrite Hx. simpl. apply IH; assumption.
Qed.

Lemma snoc_not_empty (a : string) (c : ascii) : a ++ String c EmptyString <> EmptyString.
Proof. destruct a; simpl; discriminate. Qed.

Lemma Tokenized_delimiter (c : ascii) (r : string) (l : list string) :
  is_token_char c = false -> Tokenized r l -> Tokenized (String c r) l.
Proof.
  intros Hc H. inversion H as [d Hd | d t rest tokens Hd Ht Hb Hr]; subst.
  - constructor. unfold is_delimiter_run in *. simpl. rewrite Hc. exact Hd.
  - change (String c (d ++ t ++ rest)) with (String c d ++ t ++ rest).
    constructor; try assumption.
    unfold is_delimiter_run in *. simpl. rewrite Hc. exact Hd.
Qed.

Lemma flush_nonempty (cur : string) : cur <> EmptyString -> flush cur = [cur].
Proof. destruct cur; [congruence | reflexivity]. Qed.

Lemma split_from_spec (s : string) : forall cur : string,
  all_chars is_token_char cur = true ->
  (cur = EmptyString -> Tokenized s (split_from cur s))
  /\ (cur <> EmptyString ->
      exists t rest tokens,
        split_from cur s = t :: tokens
        /\ cur ++ s = t ++ rest
        /\ is_token t /\ at_boundary rest /\ Tokenized rest tokens).
Proof.
  induction s as [| c r IH]; intros cur Hcur.
  - split.
    + intros ->. simpl. constructor. reflexivity.
    + intros Hne. exists cur, EmptyString, []. simpl.
      rewrite (flush_nonempty cur Hne).
      split; [reflexivity |]. split; [reflexivity |].
      split; [split; assumption |]. split; [exact I |].
      constructor. reflexivity.
  - simpl. destruct (is_token_char c) eqn:Hc.
    + destruct (IH (cur ++ String c EmptyString) (all_chars_snoc _ _ _ Hcur Hc))
        as [_ IH2].
      destruct (IH2 (snoc_not_empty cur c)) as (t & rest & tokens & E & Eq & Ht & Hb & Hr).
      rewrite append_snoc in Eq.
      split.
      * intros ->. rewrite E. simpl in Eq. rewrite Eq.
        change (t ++ rest) with (EmptyString ++ t ++ rest).
        constructor; try assumption; reflexivity.
      * intros Hne. exists t, rest, tokens.
        split; [exact E |]. split; [exact Eq |]. split; [exact Ht |].
        split; [exact Hb | exact Hr].
    + destruct (IH EmptyString eq_refl) as [IH1 _].
      pose proof (Tokenized_delimiter c r _ Hc (IH1 eq_refl)) as Hd.
      split.
      * intros ->. simpl. exact Hd.
      * intros Hne. exists cur, (String c r), (split_from EmptyString r).
        rewrite (flush_nonempty cur Hne).
        split; [reflexivity |]. split; [reflexivity |].
        split; [split; assumption |]. split; [exact Hc | exact Hd].
Qed.

Lemma regex_split_tokenized (do_lower_case : bool) (text : string) :
  Tokenized (if do_lower_case then lower text else text)
            (regex_split do_lower_case text).
Proof.
  unfold regex_split. apply (split_from_spec _ EmptyString eq_refl). reflexivity.
Qed.

Lemma Tokenized_tokens (s : string) (l : list string) :
  Tokenized s l -> Forall is_token l.
Proof. induction 1; constructor; assumption. Qed.

Lemma pad_or_truncate_length (seq_len : Z) (ids : list Z) :
  List.length (pad_or_truncate seq_len ids) = Z.to_nat seq_len.
Proof.
  unfold pad_or_truncate. rewrite length_firstn, length_app, repeat_length. lia.
Qed.

End TokenizationFacts.

(** ** Schedule values *)

Section ScheduleFacts.
Local Open Scope Z_scope.

Lemma polynomial_decay_start (initial final : Q) (decay_steps : Z) :
  0 < decay_steps ->
  (polynomial_decay_value initial decay_steps final 0 == initial)%Q.
Proof.
  intros H. unfold polynomial_decay_value.
  rewrite Z.min_l by lia.
  change (inject_Z 0) with 0%Q. field.
  intros E.
  unfold Qeq in E. simpl in E. lia.
Qed.

Lemma polynomial_decay_end (initial final : Q) (decay_steps step : Z) :
  0 < decay_steps -> decay_steps <= step ->
  (polynomial_decay_value initial decay_steps final step == final)%Q.
Proof.
  intros H Hs. unfold polynomial_decay_value.
  rewrite Z.min_r by lia. field.
  intros E. unfold Qeq in E. simpl in E. lia.
Qed.

Lemma polynomial_decay_linear (initial final : Q) (decay_steps step : Z) :
  0 < decay_steps -> 0 <= step <= decay_steps ->
  (polynomial_decay_value initial decay_steps final step
   == initial - (initial - final) * (inject_Z step / inject_Z decay_steps))%Q.
Proof.
  intros H Hs. unfold polynomial_decay_value.
  rewrite Z.min_l by lia. field.
  intros E. unfold Qeq in E. simpl in E. lia.
Qed.

Lemma warmup_value_start (initial : Q) (warmup_steps : Z) :
  (warmup_value initial warmup_steps 0 == 0)%Q.
Proof. unfold warmup_value. change (inject_Z 0) with 0%Q. unfold Qdiv. ring. Qed.

Lemma warmup_value_end (initial : Q) (warmup_steps : Z) :
  0 < warmup_steps ->
  (warmup_value initial warmup_steps warmup_steps == initial)%Q.
Proof.
  intros H. unfold warmup_value. field.
  intros E. unfold Qeq in E. simpl in E. lia.
Qed.

End ScheduleFacts.

(** ** Runs *)

Section RunFacts.
Context {env : Environment}.

Lemma labels_differ_true (a b : list string) :
  a <> b -> TextClassifier.labels_differ a b = true.
Proof.
  intros H. unfold TextClassifier.labels_differ.
  destruct (list_eq_dec string_dec a b); [contradiction | reflexivity].
Qed.

Lemma labels_differ_false (a b : list string) :
  a = b -> TextClassifier.labels_differ a b = false.
Proof.
  intros H. unfold TextClassifier.labels_differ.
  destruct (list_eq_dec string_dec a b); [reflexivity | contradiction].
Qed.

Lemma log_log (s : state) (t u : list event) : log (log s t) u = log s (t ++ u).
Proof. unfold log. cbn. rewrite <- app_assoc. reflexivity. Qed.

Lemma log_nil (s : state) : log s [] = s.
Proof. destruct s. unfold log. cbn. rewrite app_nil_r. reflexivity. Qed.

Lemma validate_pure (opts : TextClassifierOptions) (s : state) :
  snd (_validate opts s) = s.
Proof.
  unfold _validate, bind, ret, raise.
  destruct (model_options opts) as [[o | o] |]; simpl;
    repeat match goal with
      | |- context [SupportedModels_eq_dec ?a ?b] =>
          destruct (SupportedModels_eq_dec a b); simpl
      | |- context [ms.is_BertClassifierSpec ?x] =>
          destruct (ms.is_BertClassifierSpec x); simpl
      end; reflexivity.
Qed.

(** Once the labels agree and validation passes, [create] fills in the
    defaults and hands over to the builder of the selected family. *)
Lemma create_dispatch (train_data validation_data : text_ds.Dataset) (s : state) :
  text_ds.label_names train_data = text_ds.label_names validation_data ->
  _validate (options s) s = (Return tt, s) ->
  TextClassifier.create train_data validation_data s =
    match value (supported_model (options s)) with
    | ms.Bert _ =>
        _BertClassifier.create_bert_classifier
          train_data validation_data (with_defaults (options s)) (after_defaults s)
    | ms.AverageWordEmbedding _ =>
        _AverageWordEmbeddingClassifier.create_average_word_embedding_classifier
          train_data validation_data (with_defaults (options s)) (after_defaults s)
    | ms.Other _ _ =>
        (Raise (ValueError ("Unknown model "
                              ++ str_SupportedModels (supported_model (options s)))),
         after_defaults s)
    end.
Proof.
  intros Hl Hv. unfold TextClassifier.create.
  rewrite (labels_differ_false _ _ Hl).
  unfold bind at 1. unfold get_options at 1.
  unfold bind at 1. rewrite Hv.
  destruct s as [[sm h m] tr]. unfold after_defaults, with_defaults. simpl.
  destruct m, h; cbn; destruct (value sm); reflexivity.
Qed.

Lemma validate_encoder_family (opts : TextClassifierOptions)
      (spec : ms.BertClassifierSpec) (o : mo.BertModelOptions)
      (h : hp.BertHParams) (s : state) :
  encoder_family opts spec o h -> _validate opts s = (Return tt, s).
Proof.
  intros (Hv & Hm & _). unfold _validate, bind, ret, raise.
  unfold with_defaults in Hm. cbn in Hm.
  destruct (model_options opts) as [[a | b] |]; [discriminate | | reflexivity].
  simpl. rewrite Hv. reflexivity.
Qed.

Lemma validate_embedding_family (opts : TextClassifierOptions)
      (spec : ms.AverageWordEmbeddingClassifierSpec)
      (o : mo.AverageWordEmbeddingModelOptions) (h : hp.HParams) (s : state) :
  embedding_family opts spec o h -> _validate opts s = (Return tt, s).
Proof.
  intros (Hsel & Hv & Hm & _). unfold _validate, bind, ret, raise.
  unfold with_defaults in Hm. cbn in Hm.
  destruct (model_options opts) as [[a | b] |]; [| discriminate | reflexivity].
  simpl. destruct (SupportedModels_eq_dec _ _); [reflexivity | contradiction].
Qed.

(** *** The embedding family *)

Lemma awe_factory_run (train_data validation_data : text_ds.Dataset)
      (opts : TextClassifierOptions) (o : mo.AverageWordEmbeddingModelOptions)
      (h : hp.HParams) (s : state) :
  model_options opts = Some (mo.AverageWordEmbedding o) ->
  hparams opts = Some h ->
  let texts := text_ds.texts train_data ++ text_ds.texts validation_data in
  let p := preprocessor.new_AverageWordEmbeddingClassifierPreprocessor
             (mo.seq_len o) (mo.do_lower_case o) texts (mo.vocab_size o) in
  let pp := preprocessor.AverageWordEmbedding p in
  let a := awe_architecture o p (len_label_names (text_ds.label_names train_data)) in
  let ptrain := preprocessor.preprocess pp train_data in
  let pval := preprocessor.preprocess pp validation_data in
  let cb := tf.default_callbacks (hp.export_dir (hp.base_of h)) in
  exists c,
    _AverageWordEmbeddingClassifier.create_average_word_embedding_classifier
      train_data validation_data opts s
    = (Return c,
       log s
         [ EvGetDefaultCallbacks (hp.export_dir (hp.base_of h));
           EvNewAverageWordEmbeddingPreprocessor
             (mo.seq_len o) (mo.do_lower_case o) texts (mo.vocab_size o);
           EvPreprocess pp train_data;
           EvPreprocess pp validation_data;
           EvBuildModel a;
           EvTrain (Built a) (tf.by_name "rmsprop")
                   tf.sparse_categorical_crossentropy awe_metrics cb h
                   ptrain pval ])
    /\ _text_preprocessor c = Some pp
    /\ _optimizer c = Some (tf.by_name "rmsprop")
    /\ _model c = Some (Fitted (Built a) (tf.by_name "rmsprop")
                               tf.sparse_categorical_crossentropy awe_metrics
                               ptrain pval)
    /\ _label_names c = text_ds.label_names train_data
    /\ _hparams c = h.
Proof.
  intros Hm Hh. cbv zeta.
  unfold _AverageWordEmbeddingClassifier.create_average_word_embedding_classifier.
  rewrite Hh, Hm.
  eexists. split.
  - cbv [bind _AverageWordEmbeddingClassifier.__init__ get_default_callbacks emit ret
         _AverageWordEmbeddingClassifier._create_and_train_model
         _AverageWordEmbeddingClassifier._load_and_run_preprocessor
         _AverageWordEmbeddingClassifier._create_model
         _train_model run_preprocess set_text_preprocessor set_model set_optimizer
         _model_options _text_preprocessor _model _optimizer options trace log].
    cbn. rewrite <- !app_assoc. cbn. reflexivity.
  - cbn. repeat split; reflexivity.
Qed.

(** *** The encoder family *)

Lemma create_metrics_binary (self : Classifier) (h : hp.BertHParams) (s : state) :
  _hparams self = hp.Bert h ->
  _num_classes self = 2 ->
  _BertClassifier._create_metrics self s = (Return (bert_metrics h 2), s).
Proof.
  intros Hh Hn. unfold _BertClassifier._create_metrics, bert_metrics.
  rewrite Hh, Hn.
  change (2 =? 2)%Z with true. cbv iota.
  destruct (hp.desired_precisions h), (hp.desired_recalls h);
    unfold ret, default_metrics; simpl; rewrite ?app_nil_r;
    try rewrite <- app_assoc; reflexivity.
Qed.

Lemma create_metrics_rejects (self : Classifier) (h : hp.BertHParams) (s : state) :
  _hparams self = hp.Bert h ->
  _num_classes self <> 2 ->
  (truthy (hp.desired_precisions h) || truthy (hp.desired_recalls h))%bool = true ->
  _BertClassifier._create_metrics self s =
    (Raise (ValueError (binary_metrics_message (_num_classes self))), s).
Proof.
  intros Hh Hn Ht. unfold _BertClassifier._create_metrics. rewrite Hh.
  destruct (Z.eqb_spec (_num_classes self) 2) as [E | _]; [contradiction |].
  rewrite Ht. reflexivity.
Qed.

Lemma create_metrics_plain (self : Classifier) (h : hp.BertHParams) (s : state) :
  _hparams self = hp.Bert h ->
  _num_classes self <> 2 ->
  hp.desired_precisions h = [] -> hp.desired_recalls h = [] ->
  _BertClassifier._create_metrics self s = (Return default_metrics, s).
Proof.
  intros Hh Hn Hp Hr. unfold _BertClassifier._create_metrics. rewrite Hh.
  destruct (Z.eqb_spec (_num_classes self) 2) as [E | _]; [contradiction |].
  rewrite Hp, Hr. reflexivity.
Qed.

Lemma bert_init_rejects (spec : ms.ModelSpec)
      (mopts : option mo.TextClassifierModelOptions)
      (h : hp.BertHParams) (labels : list string) (s : state) :
  len_label_names labels <> 2 ->
  (truthy (hp.desired_precisions h) || truthy (hp.desired_recalls h))%bool = true ->
  _BertClassifier.__init__ spec mopts (hp.Bert h) labels s =
    (Raise (ValueError (binary_metrics_message (len_label_names labels))),
     log s (init_events h)).
Proof.
  intros Hn Ht.
  cbv [_BertClassifier.__init__ with_strategy_scope bind get_default_callbacks
       emit ret hp.base_of].
  erewrite create_metrics_rejects; [| reflexivity | exact Hn | exact Ht].
  unfold log, init_events. cbn. rewrite <- !app_assoc. reflexivity.
Qed.

Lemma bert_init_accepts (spec : ms.ModelSpec)
      (mopts : option mo.TextClassifierModelOptions)
      (h : hp.BertHParams) (labels : list string) (s : state) :
  metrics_admissible h (len_label_names labels) ->
  _BertClassifier.__init__ spec mopts (hp.Bert h) labels s =
    (Return (set_metric_functions (bert_metrics h (len_label_names labels))
                                  (bert_self0 spec mopts h labels)),
     log s (init_events h)).
Proof.
  intros Hadm.
  cbv [_BertClassifier.__init__ with_strategy_scope bind get_default_callbacks
       emit ret hp.base_of].
  fold (bert_self0 spec mopts h labels).
  destruct (Z.eq_dec (len_label_names labels) 2) as [E | NE].
  - erewrite create_metrics_binary; [| reflexivity | exact E].
    rewrite E. unfold log, init_events. cbn. rewrite <- !app_assoc. reflexivity.
  - destruct Hadm as [E | [Hp Hr]]; [contradiction |].
    erewrite create_metrics_plain; [| reflexivity | exact NE | exact Hp | exact Hr].
    unfold bert_metrics.
    destruct (Z.eqb_spec (len_label_names labels) 2) as [E | _]; [contradiction |].
    unfold log, init_events. cbn. rewrite <- !app_assoc. reflexivity.
Qed.

Lemma create_optimizer_run (self : Classifier) (h : hp.BertHParams)
      (train_data : preprocessor.ProcessedDataset) (w : Z) (s : state) :
  _hparams self = hp.Bert h ->
  _BertClassifier.warmup_steps_of (total_steps_of h train_data) = Some w ->
  _BertClassifier._create_optimizer self train_data s =
    (optimizer_outcome h train_data w self, s).
Proof.
  intros Hh Hw. unfold _BertClassifier._create_optimizer.
  rewrite Hh. unfold total_steps_of in Hw.
  cbn [hp.set_base hp.set_steps_per_epoch hp.base hp.epochs hp.steps_per_epoch
       hp.batch_size hp.learning_rate hp.end_learning_rate hp.optimizer
       hp.weight_decay].
  rewrite Hw.
  unfold optimizer_outcome, lr_schedule_of, total_steps_of, with_steps,
    optimizer_message, exclude_list.
  destruct (hp.optimizer h); reflexivity.
Qed.

Lemma create_optimizer_overflow (self : Classifier) (h : hp.BertHParams)
      (train_data : preprocessor.ProcessedDataset) (s : state) :
  _hparams self = hp.Bert h ->
  _BertClassifier.warmup_steps_of (total_steps_of h train_data) = None ->
  _BertClassifier._create_optimizer self train_data s =
    (Raise (OverflowError "int too large to convert to float"), s).
Proof.
  intros Hh Hw. unfold _BertClassifier._create_optimizer.
  rewrite Hh. unfold total_steps_of in Hw.
  cbn [hp.set_base hp.set_steps_per_epoch hp.base hp.epochs hp.steps_per_epoch
       hp.batch_size].
  rewrite Hw. reflexivity.
Qed.

(** The encoder builder up to the optimizer: preprocessing and the model
    graph do not depend on how [_create_optimizer] answers. *)
Lemma bert_train_unfold (self : Classifier) (spec : ms.BertClassifierSpec)
      (o : mo.BertModelOptions) (h : hp.BertHParams)
      (train_data validation_data : text_ds.Dataset)
      (r : Classifier -> outcome Classifier) (s : state) :
  _model_spec self = ms.Bert spec ->
  _model_options self = Some (mo.Bert o) ->
  _hparams self = hp.Bert h ->
  let pp := bert_preprocessor spec o h in
  let ptrain := preprocessor.preprocess pp train_data in
  let pval := preprocessor.preprocess pp validation_data in
  let prefix := bert_prefix spec o h (_num_classes self) train_data validation_data in
  (forall self' s', _hparams self' = hp.Bert h ->
     _BertClassifier._create_optimizer self' ptrain s' = (r self', s')) ->
  exists self',
    _hparams self' = hp.Bert h
    /\ _model self' = Some (Built (bert_architecture spec o (_num_classes self)))
    /\ _text_preprocessor self' = Some pp
    /\ _loss_function self' = _loss_function self
    /\ _metric_functions self' = _metric_functions self
    /\ _callbacks self' = _callbacks self
    /\ _label_names self' = _label_names self
    /\ _BertClassifier._create_and_train_model self train_data validation_data s
       = match r self' with
         | Return c => _train_model c ptrain pval (log s prefix)
         | Raise e => (Raise e, log s prefix)
         end.
Proof.
  intros Hs Ho Hh. cbv zeta. intros Hr.
  destruct self as [sp ln sh nc hps mops cbs lf mf tp md op].
  cbn in Hs, Ho, Hh. subst sp mops hps.
  cbn [_num_classes _loss_function _metric_functions _callbacks _label_names].
  exists (set_model (Some (Built (bert_architecture spec o nc)))
            (set_text_preprocessor (Some (bert_preprocessor spec o h))
               {| _model_spec := ms.Bert spec; _label_names := ln; _shuffle := sh;
                  _num_classes := nc; _hparams := hp.Bert h;
                  _model_options := Some (mo.Bert o); _callbacks := cbs;
                  _loss_function := lf; _metric_functions := mf;
                  _text_preprocessor := tp; _model := md; _optimizer := op |})).
  repeat split.
  unfold _BertClassifier._create_and_train_model,
    _BertClassifier._load_and_run_preprocessor, _BertClassifier._create_model,
    _BertClassifier.get_path, with_strategy_scope, run_preprocess.
  cbn -[_BertClassifier._create_optimizer _train_model].
  unfold bind at 1. cbn -[_BertClassifier._create_optimizer _train_model].
  rewrite Hr by reflexivity.
  unfold log, bert_prefix. cbn -[_train_model].
  rewrite <- !app_assoc. cbn [app].
  reflexivity.
Qed.

End RunFacts.

Section FactoryFacts.
Context {env : Environment}.

Lemma bert_factory_rejects (train_data validation_data : text_ds.Dataset)
      (opts : TextClassifierOptions) (h : hp.BertHParams) (s : state) :
  hparams opts = Some (hp.Bert h) ->
  len_label_names (text_ds.label_names train_data) <> 2 ->
  (truthy (hp.desired_precisions h) || truthy (hp.desired_recalls h))%bool = true ->
  _BertClassifier.create_bert_classifier train_data validation_data opts s =
    (Raise (ValueError
              (binary_metrics_message
                 (len_label_names (text_ds.label_names train_data)))),
     log s (init_events h)).
Proof.
  intros Hh Hn Ht. unfold _BertClassifier.create_bert_classifier.
  rewrite Hh. unfold bind.
  rewrite (bert_init_rejects _ _ _ _ _ Hn Ht). reflexivity.
Qed.

Lemma bert_factory_run (train_data validation_data : text_ds.Dataset)
      (opts : TextClassifierOptions) (spec : ms.BertClassifierSpec)
      (o : mo.BertModelOptions) (h : hp.BertHParams) (w : Z) (s : state) :
  value (supported_model opts) = ms.Bert spec ->
  model_options opts = Some (mo.Bert o) ->
  hparams opts = Some (hp.Bert h) ->
  let n := len_label_names (text_ds.label_names train_data) in
  let pp := bert_preprocessor spec o h in
  let ptrain := preprocessor.preprocess pp train_data in
  let pval := preprocessor.preprocess pp validation_data in
  let a := bert_architecture spec o n in
  let sched := lr_schedule_of h (total_steps_of h ptrain) w in
  let before := init_events h ++ bert_prefix spec o h n train_data validation_data in
  metrics_admissible h n ->
  _BertClassifier.warmup_steps_of (total_steps_of h ptrain) = Some w ->
  match hp.optimizer h with
  | hp.OtherOptimizer name =>
      _BertClassifier.create_bert_classifier train_data validation_data opts s =
        (Raise (ValueError (optimizer_message name)), log s before)
  | _ =>
      exists c opt,
        _BertClassifier.create_bert_classifier train_data validation_data opts s =
          (Return c,
           log s (before ++
                    [EvTrain (Built a) opt
                             (tf.SparseFocalLoss (hp.gamma h) n)
                             (bert_metrics h n)
                             (tf.default_callbacks (hp.export_dir (hp.base h)))
                             (hp.Bert (with_steps h ptrain)) ptrain pval]))
        /\ _optimizer c = Some opt
        /\ optimizer_schedule opt = Some sched
        /\ _text_preprocessor c = Some pp
        /\ _model c = Some (Fitted (Built a) opt
                                   (tf.SparseFocalLoss (hp.gamma h) n)
                                   (bert_metrics h n) ptrain pval)
        /\ _label_names c = text_ds.label_names train_data
  end.
Proof.
  intros Hv Hm Hh. cbv zeta. intros Hadm Hw.
  set (n := len_label_names (text_ds.label_names train_data)) in *.
  set (self := set_metric_functions (bert_metrics h n)
                 (bert_self0 (ms.Bert spec) (Some (mo.Bert o)) h
                             (text_ds.label_names train_data))).
  assert (Hrun :
    _BertClassifier.create_bert_classifier train_data validation_data opts s =
    _BertClassifier._create_and_train_model self train_data validation_data
                                            (log s (init_events h))).
  { unfold _BertClassifier.create_bert_classifier.
    rewrite Hh, Hv, Hm. unfold bind.
    rewrite (bert_init_accepts _ _ _ _ _ Hadm). reflexivity. }
  destruct (bert_train_unfold self spec o h train_data validation_data
              (optimizer_outcome h
                 (preprocessor.preprocess (bert_preprocessor spec o h) train_data) w)
              (log s (init_events h)) eq_refl eq_refl eq_refl
              (fun self' s' Hself => create_optimizer_run self' h _ w s' Hself Hw))
    as (self' & Hh' & Hm' & Hp' & Hl' & Hmf' & Hcb' & Hln' & Hrun').
  rewrite Hrun' in Hrun. clear Hrun'. rewrite log_log in Hrun.
  cbn [_num_classes self set_metric_functions bert_self0] in *.
  fold n in Hm', Hrun.
  unfold optimizer_outcome in Hrun.
  destruct (hp.optimizer h) eqn:Hopt; rewrite Hrun; clear Hrun.
  - eexists _, _. split.
    { unfold _train_model. cbn. rewrite Hm'. cbn. rewrite Hl', Hmf', Hcb'.
      unfold bind, emit, ret. cbn. unfold log. cbn.
      rewrite <- !app_assoc. reflexivity. }
    cbn. rewrite ?Hp', ?Hm', ?Hl', ?Hmf', ?Hln'. repeat split; reflexivity.
  - eexists _, _. split.
    { unfold _train_model. cbn. rewrite Hm'. cbn. rewrite Hl', Hmf', Hcb'.
      unfold bind, emit, ret. cbn. unfold log. cbn.
      rewrite <- !app_assoc. reflexivity. }
    cbn. rewrite ?Hp', ?Hm', ?Hl', ?Hmf', ?Hln'. repeat split; reflexivity.
  - reflexivity.
Qed.

End FactoryFacts.

Section EncoderChecks.
Context {env : Environment}.

Lemma create_encoder (train_data validation_data : text_ds.Dataset) (s : state)
      (spec : ms.BertClassifierSpec) (o : mo.BertModelOptions) (h : hp.BertHParams) :
  text_ds.label_names train_data = text_ds.label_names validation_data ->
  encoder_family (options s) spec o h ->
  TextClassifier.create train_data validation_data s =
    _BertClassifier.create_bert_classifier
      train_data validation_data (with_defaults (options s)) (after_defaults s).
Proof.
  intros Hl Hf.
  rewrite (create_dispatch _ _ _ Hl (validate_encoder_family _ _ _ _ s Hf)).
  destruct Hf as (Hv & _). rewrite Hv. reflexivity.
Qed.

Lemma create_embedding (train_data validation_data : text_ds.Dataset) (s : state)
      (spec : ms.AverageWordEmbeddingClassifierSpec)
      (o : mo.AverageWordEmbeddingModelOptions) (h : hp.HParams) :
  text_ds.label_names train_data = text_ds.label_names validation_data ->
  embedding_family (options s) spec o h ->
  TextClassifier.create train_data validation_data s =
    _AverageWordEmbeddingClassifier.create_average_word_embedding_classifier
      train_data validation_data (with_defaults (options s)) (after_defaults s).
Proof.
  intros Hl Hf.
  rewrite (create_dispatch _ _ _ Hl (validate_embedding_family _ _ _ _ s Hf)).
  destruct Hf as (_ & Hv & _). rewrite Hv. reflexivity.
Qed.

Lemma truthy_nonempty {A : Type} (l : list A) : l <> [] -> truthy l = true.
Proof. destruct l; [congruence | reflexivity]. Qed.

Lemma truthy_false {A : Type} (l : list A) : truthy l = false -> l = [].
Proof. destruct l; [reflexivity | discriminate]. Qed.

(** C3 (amended).  For every encoder-family configuration with a non-empty
    [desired_precisions] or [desired_recalls] and a class count other than
    two, [create] raises the binary-metrics [ValueError] from the metric
    construction inside the classifier constructor: by then only the default
    callbacks were requested and the strategy scope entered and left, so the
    error comes before any preprocessing and before any training step. *)
Theorem binary_metric_check_in_constructor
        (train_data validation_data : text_ds.Dataset) (s : state)
        (spec : ms.BertClassifierSpec) (o : mo.BertModelOptions)
        (h : hp.BertHParams) :
  text_ds.label_names train_data = text_ds.label_names validation_data ->
  encoder_family (options s) spec o h ->
  len_label_names (text_ds.label_names train_data) <> 2 ->
  hp.desired_precisions h <> [] \/ hp.desired_recalls h <> [] ->
  TextClassifier.create train_data validation_data s =
    (Raise (ValueError
              (binary_metrics_message
                 (len_label_names (text_ds.label_names train_data)))),
     log (after_defaults s)
         [ EvGetDefaultCallbacks (hp.export_dir (hp.base h));
           EvStrategyScopeEnter; EvStrategyScopeExit ])
  /\ no_preprocessing [ EvGetDefaultCallbacks (hp.export_dir (hp.base h));
                        EvStrategyScopeEnter; EvStrategyScopeExit ]
  /\ no_training [ EvGetDefaultCallbacks (hp.export_dir (hp.base h));
                   EvStrategyScopeEnter; EvStrategyScopeExit ].
Proof.
  intros Hl Hf Hn Ht. split; [| split; reflexivity].
  rewrite (create_encoder _ _ _ _ _ _ Hl Hf).
  destruct Hf as (_ & _ & Hh).
  apply (bert_factory_rejects _ _ _ _ _ Hh Hn).
  destruct Ht as [Ht | Ht]; rewrite (truthy_nonempty _ Ht);
    [reflexivity | apply orb_true_r].
Qed.

(** C6.  For every encoder-family run whose optimizer selector is neither
    [ADAMW] nor [LAMB] (and whose metric targets and step count are in
    order), [create] raises the [ValueError] that names the selector.  It is
    raised by [_create_optimizer], after the constructor, preprocessing and
    model construction, and none of the events up to there is a training
    step. *)
Theorem unrecognized_optimizer_is_rejected
        (train_data validation_data : text_ds.Dataset) (s : state)
        (spec : ms.BertClassifierSpec) (o : mo.BertModelOptions)
        (h : hp.BertHParams) (selector : string) :
  text_ds.label_names train_data = text_ds.label_names validation_data ->
  encoder_family (options s) spec o h ->
  metrics_admissible h (len_label_names (text_ds.label_names train_data)) ->
  hp.optimizer h = hp.OtherOptimizer selector ->
  0 <= total_steps_of h (preprocessor.preprocess (bert_preprocessor spec o h) train_data)
    < 2 ^ 52 ->
  let before :=
    init_events h
      ++ bert_prefix spec o h (len_label_names (text_ds.label_names train_data))
                     train_data validation_data in
  TextClassifier.create train_data validation_data s =
    (Raise (ValueError
              ("BertHParams.optimizer must be set to ADAM or LAMB. Got "
                 ++ selector ++ ".")),
     log (after_defaults s) before)
  /\ no_training before.
Proof.
  intros Hl Hf Hadm Hopt Hrange. cbv zeta. split; [| reflexivity].
  rewrite (create_encoder _ _ _ _ _ _ Hl Hf).
  destruct Hf as (Hv & Hm & Hh).
  pose proof (bert_factory_run train_data validation_data (with_defaults (options s))
                spec o h _ (after_defaults s) Hv Hm Hh Hadm
                (warmup_steps_of_small _ Hrange)) as Hrun.
  rewrite Hopt in Hrun. exact Hrun.
Qed.

End EncoderChecks.

Section Optimizers.
Context {env : Environment}.

Lemma schedule_value_lr_schedule_of (h : hp.BertHParams) (total w : Z) :
  (forall step, 0 <= step < w ->
     schedule_value (lr_schedule_of h total w) step
     = Some (warmup_value (to_Q (hp.learning_rate (hp.base h))) w step))
  /\ (forall step, w <= step ->
        schedule_value (lr_schedule_of h total w) step
        = Some (polynomial_decay_value (to_Q (hp.learning_rate (hp.base h))) total
                                       (to_Q (hp.end_learning_rate h)) step)).
Proof.
  unfold lr_schedule_of. split; intros step Hstep.
  - destruct (Z.eqb_spec w 0) as [E | NE]; [lia |].
    cbn [schedule_value].
    destruct (Z.ltb_spec step w); [reflexivity | lia].
  - destruct (Z.eqb_spec w 0) as [E | NE].
    + reflexivity.
    + cbn [schedule_value].
      destruct (Z.ltb_spec step w); [lia | reflexivity].
Qed.

(** C5.  For every encoder-family training run (valid optimizer selector,
    metric targets in order, a total of fewer than 2^52 steps) the optimizer
    handed to the training loop carries this schedule: a [PolynomialDecay]
    of power 1.0 from [learning_rate] to [end_learning_rate] over
    [total_steps = steps_per_epoch * epochs] steps; the warm-up step count
    [int(total_steps * 0.1)], computed in binary64, is [total_steps / 10]
    rounded down; when it is zero the decay is used as it is, otherwise it
    is wrapped in a [WarmUp] of that many steps.  In exact arithmetic the
    resulting schedule yields the straight line from 0 towards
    [learning_rate] during the warm-up steps and the value of the decay
    (which starts at [learning_rate] and ends at [end_learning_rate]) from
    then on. *)
Theorem encoder_learning_rate_schedule
        (train_data validation_data : text_ds.Dataset) (s : state)
        (spec : ms.BertClassifierSpec) (o : mo.BertModelOptions)
        (h : hp.BertHParams) :
  text_ds.label_names train_data = text_ds.label_names validation_data ->
  encoder_family (options s) spec o h ->
  metrics_admissible h (len_label_names (text_ds.label_names train_data)) ->
  hp.optimizer h = hp.ADAMW \/ hp.optimizer h = hp.LAMB ->
  let ptrain := preprocessor.preprocess (bert_preprocessor spec o h) train_data in
  let total_steps :=
    get_steps_per_epoch (hp.steps_per_epoch (hp.base h))
                        (hp.batch_size (hp.base h)) ptrain
    * hp.epochs (hp.base h) in
  0 <= total_steps < 2 ^ 52 ->
  let warmup_steps := total_steps / 10 in
  let lr := hp.learning_rate (hp.base h) in
  let end_lr := hp.end_learning_rate h in
  let decay := tf.PolynomialDecay lr total_steps end_lr lit_1_0 in
  exists c s1 opt sched before m l mf cb hps pval,
    TextClassifier.create train_data validation_data s = (Return c, s1)
    /\ trace s1 = trace s ++ before ++ [EvTrain m opt l mf cb hps ptrain pval]
    /\ no_training before
    /\ _optimizer c = Some opt
    /\ optimizer_schedule opt = Some sched
    /\ _BertClassifier.warmup_steps_of total_steps = Some warmup_steps
    /\ (warmup_steps = 0 -> sched = decay)
    /\ (warmup_steps <> 0 -> sched = tf.WarmUp lr decay warmup_steps)
    /\ (forall step, 0 <= step < warmup_steps ->
          schedule_value sched step
          = Some (warmup_value (to_Q lr) warmup_steps step))
    /\ (forall step, warmup_steps <= step ->
          schedule_value sched step
          = Some (polynomial_decay_value (to_Q lr) total_steps (to_Q end_lr) step))
    /\ (0 < warmup_steps ->
          (warmup_value (to_Q lr) warmup_steps 0 == 0)%Q
          /\ (warmup_value (to_Q lr) warmup_steps warmup_steps == to_Q lr)%Q)
    /\ (0 < total_steps ->
          (polynomial_decay_value (to_Q lr) total_steps (to_Q end_lr) 0 == to_Q lr)%Q
          /\ forall step, total_steps <= step ->
               (polynomial_decay_value (to_Q lr) total_steps (to_Q end_lr) step
                == to_Q end_lr)%Q).
Proof.
  intros Hl Hf Hadm Hopt. cbv zeta. intros Hrange.
  rewrite (create_encoder _ _ _ _ _ _ Hl Hf).
  destruct Hf as (Hv & Hm & Hh).
  pose proof (warmup_steps_of_small _ Hrange) as Hw.
  pose proof (bert_factory_run train_data validation_data (with_defaults (options s))
                spec o h _ (after_defaults s) Hv Hm Hh Hadm Hw) as Hrun.
  cbv zeta in Hrun.
  fold (total_steps_of h (preprocessor.preprocess (bert_preprocessor spec o h) train_data))
    in Hw |- *.
  set (total := total_steps_of h _) in *.
  assert (Hvalid :
    exists c opt,
      _BertClassifier.create_bert_classifier train_data validation_data
        (with_defaults (options s)) (after_defaults s) =
      (Return c,
       log (after_defaults s)
         ((init_events h
             ++ bert_prefix spec o h (len_label_names (text_ds.label_names train_data))
                            train_data validation_data)
            ++ [EvTrain
                  (Built (bert_architecture spec o
                            (len_label_names (text_ds.label_names train_data))))
                  opt
                  (tf.SparseFocalLoss (hp.gamma h)
                     (len_label_names (text_ds.label_names train_data)))
                  (bert_metrics h (len_label_names (text_ds.label_names train_data)))
                  (tf.default_callbacks (hp.export_dir (hp.base h)))
                  (hp.Bert (with_steps h
                              (preprocessor.preprocess (bert_preprocessor spec o h)
                                                       train_data)))
                  (preprocessor.preprocess (bert_preprocessor spec o h) train_data)
                  (preprocessor.preprocess (bert_preprocessor spec o h)
                                           validation_data)]))
      /\ _optimizer c = Some opt
      /\ optimizer_schedule opt = Some (lr_schedule_of h total (total / 10))).
  { destruct Hopt as [Hopt | Hopt]; rewrite Hopt in Hrun;
      destruct Hrun as (c & opt & H1 & H2 & H3 & _);
      exists c, opt; repeat split; assumption. }
  destruct Hvalid as (c & opt & Hrun' & Hoptc & Hsched).
  destruct (schedule_value_lr_schedule_of h total (total / 10)) as [Hramp Hdecay].
  eexists c, _, opt, (lr_schedule_of h total (total / 10)), _, _, _, _, _, _, _.
  split; [exact Hrun' |].
  split; [unfold log, after_defaults; cbn [trace]; reflexivity |].
  split; [reflexivity |].
  split; [exact Hoptc |].
  split; [exact Hsched |].
  split; [exact Hw |].
  split; [intros E; unfold lr_schedule_of; rewrite E; reflexivity |].
  split; [intros NE; unfold lr_schedule_of;
          destruct (Z.eqb_spec (total / 10) 0); [contradiction | reflexivity] |].
  split; [exact Hramp |].
  split; [exact Hdecay |].
  split.
  - intros Hpos. split; [apply warmup_value_start | apply warmup_value_end; exact Hpos].
  - intros Hpos. split; [apply polynomial_decay_start; exact Hpos |].
    intros step Hstep. apply polynomial_decay_end; assumption.
Qed.

(** C4.  For every embedding-family training run the optimizer is the one
    the framework knows by the name "rmsprop" (per-parameter adaptive steps
    from a running second-moment estimate of the gradient, with the
    framework's constant default learning rate): it is set after the model
    is built, whatever the hyperparameters say, it carries no learning-rate
    schedule, and it is the optimizer of the single training call. *)
Theorem embedding_optimizer_is_fixed
        (train_data validation_data : text_ds.Dataset) (s : state)
        (spec : ms.AverageWordEmbeddingClassifierSpec)
        (o : mo.AverageWordEmbeddingModelOptions) (h : hp.HParams) :
  text_ds.label_names train_data = text_ds.label_names validation_data ->
  embedding_family (options s) spec o h ->
  exists c s1 before m l mf cb ptrain pval,
    TextClassifier.create train_data validation_data s = (Return c, s1)
    /\ trace s1 = trace s ++ before
                    ++ [EvTrain m (tf.by_name "rmsprop") l mf cb h ptrain pval]
    /\ no_training before
    /\ _optimizer c = Some (tf.by_name "rmsprop")
    /\ optimizer_schedule (tf.by_name "rmsprop") = None.
Proof.
  intros Hl Hf.
  rewrite (create_embedding _ _ _ _ _ _ Hl Hf).
  destruct Hf as (_ & _ & Hm & Hh).
  destruct (awe_factory_run train_data validation_data (with_defaults (options s))
              o h (after_defaults s) Hm Hh) as (c & Hrun & _ & Hopt & _).
  eexists c, _, _, _, _, _, _, _, _.
  split; [exact Hrun |].
  split; [unfold log, after_defaults; cbn [trace];
          match goal with
          | |- _ ++ [?a; ?b; ?c; ?d; ?e; ?f] = _ =>
              change [a; b; c; d; e; f] with ([a; b; c; d; e] ++ [f])
          end; reflexivity |].
  split; [reflexivity |].
  split; [exact Hopt | reflexivity].
Qed.

End Optimizers.

Section EmbeddingVocabulary.
Context {env : Environment}.

(** C9.  For every embedding-family training run the preprocessor is
    constructed exactly once, on the train texts followed by the validation
    texts, with the sequence length, lower-casing flag and vocabulary cap of
    the model options.  The fitted vocabulary (modelled from the spec) has at
    most [vocab_size] distinct entries, all of them tokens of those texts,
    and no token left out occurs more often than a token kept; tokens are
    the maximal runs of word characters and apostrophes, everything between
    them being delimiters; and every encoded text, hence every sequence of
    the training and validation data given to the training loop, has
    exactly [seq_len] ids. *)
Theorem embedding_vocabulary_built_once
        (train_data validation_data : text_ds.Dataset) (s : state)
        (spec : ms.AverageWordEmbeddingClassifierSpec)
        (o : mo.AverageWordEmbeddingModelOptions) (h : hp.HParams) :
  text_ds.label_names train_data = text_ds.label_names validation_data ->
  embedding_family (options s) spec o h ->
  let texts := text_ds.texts train_data ++ text_ds.texts validation_data in
  let corpus := flat_map (preprocessor.regex_split (mo.do_lower_case o)) texts in
  exists c s1 t p,
    TextClassifier.create train_data validation_data s = (Return c, s1)
    /\ trace s1 = trace s ++ t
    /\ filter is_preprocessor_fit_event t
       = [ EvNewAverageWordEmbeddingPreprocessor
             (mo.seq_len o) (mo.do_lower_case o) texts (mo.vocab_size o) ]
    /\ _text_preprocessor c = Some (preprocessor.AverageWordEmbedding p)
    /\ preprocessor.awe_seq_len p = mo.seq_len o
    /\ preprocessor.awe_do_lower_case p = mo.do_lower_case o
    /\ preprocessor.awe_vocab p
       = preprocessor.gen_vocab (mo.do_lower_case o) texts (mo.vocab_size o)
    /\ (List.length (preprocessor.awe_vocab p) <= Z.to_nat (mo.vocab_size o))%nat
    /\ NoDup (preprocessor.awe_vocab p)
    /\ (forall token, In token (preprocessor.awe_vocab p) -> In token corpus)
    /\ (forall kept dropped,
          In kept (preprocessor.awe_vocab p) ->
          In dropped corpus -> ~ In dropped (preprocessor.awe_vocab p) ->
          (count_occ string_dec corpus dropped
           <= count_occ string_dec corpus kept)%nat)
    /\ (forall text,
          Tokenized (if mo.do_lower_case o then preprocessor.lower text else text)
                    (preprocessor.regex_split (mo.do_lower_case o) text))
    /\ (forall text,
          List.length (preprocessor.encode p text) = Z.to_nat (mo.seq_len o))
    /\ (exists m opt l mf cb,
          In (EvTrain m opt l mf cb h
                      (preprocessor.preprocess
                         (preprocessor.AverageWordEmbedding p) train_data)
                      (preprocessor.preprocess
                         (preprocessor.AverageWordEmbedding p) validation_data))
             t).
Proof.
  intros Hl Hf. cbv zeta.
  rewrite (create_embedding _ _ _ _ _ _ Hl Hf).
  destruct Hf as (_ & _ & Hm & Hh).
  destruct (awe_factory_run train_data validation_data (with_defaults (options s))
              o h (after_defaults s) Hm Hh) as (c & Hrun & Hp & _).
  eexists c, _, _, _.
  split; [exact Hrun |].
  split; [reflexivity |].
  split; [reflexivity |].
  split; [exact Hp |].
  split; [reflexivity |].
  split; [reflexivity |].
  split; [reflexivity |].
  split; [apply gen_vocab_length |].
  split; [apply gen_vocab_nodup |].
  split; [apply gen_vocab_tokens |].
  split; [apply gen_vocab_most_frequent |].
  split; [intros text; apply regex_split_tokenized |].
  split; [intros text; apply pad_or_truncate_length |].
  eexists _, _, _, _, _. cbn. do 5 right. left. reflexivity.
Qed.

End EmbeddingVocabulary.

Section CreateInversion.
Context {env : Environment}.

Lemma metrics_cases (h : hp.BertHParams) (n : Z) :
  metrics_admissible h n
  \/ (n <> 2
      /\ (truthy (hp.desired_precisions h) || truthy (hp.desired_recalls h))%bool
         = true).
Proof.
  unfold metrics_admissible.
  destruct (Z.eq_dec n 2) as [E | NE]; [left; left; exact E |].
  destruct (truthy (hp.desired_precisions h)) eqn:Hp.
  - right. split; [exact NE | reflexivity].
  - destruct (truthy (hp.desired_recalls h)) eqn:Hr.
    + right. split; [exact NE | reflexivity].
    + left. right. split; apply truthy_false; assumption.
Qed.

Lemma with_defaults_some (opts : TextClassifierOptions) :
  (exists h, hparams (with_defaults opts) = Some h)
  /\ (exists m, model_options (with_defaults opts) = Some m).
Proof.
  unfold with_defaults. cbn.
  destruct (hparams opts), (model_options opts); split; eexists; reflexivity.
Qed.

Lemma create_validate_fails (train_data validation_data : text_ds.Dataset)
      (s : state) (e : exn) :
  text_ds.label_names train_data = text_ds.label_names validation_data ->
  _validate (options s) s = (Raise e, s) ->
  TextClassifier.create train_data validation_data s = (Raise e, s).
Proof.
  intros Hl Hv. unfold TextClassifier.create.
  rewrite (labels_differ_false _ _ Hl).
  unfold bind at 1. unfold get_options at 1.
  unfold bind at 1. rewrite Hv. reflexivity.
Qed.

Lemma awe_factory_wrong_options (train_data validation_data : text_ds.Dataset)
      (opts : TextClassifierOptions) (b : mo.BertModelOptions) (h : hp.HParams)
      (s : state) :
  model_options opts = Some (mo.Bert b) ->
  hparams opts = Some h ->
  exists e s',
    _AverageWordEmbeddingClassifier.create_average_word_embedding_classifier
      train_data validation_data opts s = (Raise e, s').
Proof.
  intros Hm Hh.
  unfold _AverageWordEmbeddingClassifier.create_average_word_embedding_classifier.
  rewrite Hh, Hm. eexists _, _. reflexivity.
Qed.

Lemma bert_factory_wrong_hparams (train_data validation_data : text_ds.Dataset)
      (opts : TextClassifierOptions) (b : hp.BaseHParams) (s : state) :
  hparams opts = Some (hp.AverageWordEmbeddingHParams b) ->
  exists e s',
    _BertClassifier.create_bert_classifier train_data validation_data opts s
    = (Raise e, s').
Proof.
  intros Hh. unfold _BertClassifier.create_bert_classifier.
  rewrite Hh. eexists _, _. reflexivity.
Qed.

Lemma bert_factory_wrong_options (train_data validation_data : text_ds.Dataset)
      (opts : TextClassifierOptions) (spec : ms.BertClassifierSpec)
      (a : mo.AverageWordEmbeddingModelOptions) (h : hp.BertHParams) (s : state) :
  value (supported_model opts) = ms.Bert spec ->
  model_options opts = Some (mo.AverageWordEmbedding a) ->
  hparams opts = Some (hp.Bert h) ->
  exists e s',
    _BertClassifier.create_bert_classifier train_data validation_data opts s
    = (Raise e, s').
Proof.
  intros Hv Hm Hh.
  destruct (metrics_cases h (len_label_names (text_ds.label_names train_data)))
    as [Hadm | [Hn Ht]].
  - unfold _BertClassifier.create_bert_classifier.
    rewrite Hh, Hv, Hm. unfold bind at 1.
    rewrite (bert_init_accepts _ _ _ _ _ Hadm).
    eexists _, _. reflexivity.
  - eexists _, _. apply (bert_factory_rejects _ _ _ _ _ Hh Hn Ht).
Qed.

Lemma bert_factory_overflow (train_data validation_data : text_ds.Dataset)
      (opts : TextClassifierOptions) (spec : ms.BertClassifierSpec)
      (o : mo.BertModelOptions) (h : hp.BertHParams) (s : state) :
  value (supported_model opts) = ms.Bert spec ->
  model_options opts = Some (mo.Bert o) ->
  hparams opts = Some (hp.Bert h) ->
  _BertClassifier.warmup_steps_of
    (total_steps_of h (preprocessor.preprocess (bert_preprocessor spec o h) train_data))
  = None ->
  exists e s',
    _BertClassifier.create_bert_classifier train_data validation_data opts s
    = (Raise e, s').
Proof.
  intros Hv Hm Hh Hw.
  destruct (metrics_cases h (len_label_names (text_ds.label_names train_data)))
    as [Hadm | [Hn Ht]].
  - unfold _BertClassifier.create_bert_classifier.
    rewrite Hh, Hv, Hm. unfold bind at 1.
    rewrite (bert_init_accepts _ _ _ _ _ Hadm).
    destruct (bert_train_unfold
                (set_metric_functions
                   (bert_metrics h (len_label_names (text_ds.label_names train_data)))
                   (bert_self0 (ms.Bert spec) (Some (mo.Bert o)) h
                               (text_ds.label_names train_data)))
                spec o h train_data validation_data
                (fun _ => Raise (OverflowError "int too large to convert to float"))
                (log s (init_events h)) eq_refl eq_refl eq_refl
                (fun self' s' Hself => create_optimizer_overflow self' h _ s' Hself Hw))
      as (self' & _ & _ & _ & _ & _ & _ & _ & Hrun).
    rewrite Hrun. eexists _, _. reflexivity.
  - eexists _, _. apply (bert_factory_rejects _ _ _ _ _ Hh Hn Ht).
Qed.

(** Whenever [create] returns a classifier, the classifier holds a
    preprocessor and a model, and the run fitted exactly one preprocessor:
    the one it holds. *)
Lemma create_returns_trained (train_data validation_data : text_ds.Dataset)
      (s0 s1 : state) (c : Classifier) :
  TextClassifier.create train_data validation_data s0 = (Return c, s1) ->
  exists p m t e,
    _text_preprocessor c = Some p
    /\ _model c = Some m
    /\ trace s1 = trace s0 ++ t
    /\ filter is_preprocessor_fit_event t = [e]
    /\ fitted_by e = Some p.
Proof.
  intros Hrun.
  destruct (list_eq_dec string_dec (text_ds.label_names train_data)
                        (text_ds.label_names validation_data)) as [Hl | Hne].
  2: { unfold TextClassifier.create in Hrun.
       rewrite (labels_differ_true _ _ Hne) in Hrun. discriminate Hrun. }
  pose proof (validate_pure (options s0) s0) as Hpure.
  destruct (_validate (options s0) s0) as [[[] | e] s'] eqn:Hv; cbn in Hpure; subst s'.
  2: { rewrite (create_validate_fails _ _ _ _ Hl Hv) in Hrun. discriminate Hrun. }
  rewrite (create_dispatch _ _ _ Hl Hv) in Hrun.
  destruct (with_defaults_some (options s0)) as [[hx Hh] [mx Hm]].
  destruct (value (supported_model (options s0))) as [aspec | bspec | ? ?] eqn:Hval.
  - (* embedding family *)
    destruct mx as [o | b].
    + destruct (awe_factory_run train_data validation_data _ o hx (after_defaults s0)
                  Hm Hh) as (c' & Hrun' & Hp & _ & Hmod & _).
      rewrite Hrun' in Hrun. inversion Hrun; subst c' s1.
      eexists _, _, _, _.
      split; [exact Hp |]. split; [exact Hmod |].
      split; [reflexivity |]. split; reflexivity.
    + destruct (awe_factory_wrong_options train_data validation_data _ b hx
                  (after_defaults s0) Hm Hh) as (e & s' & Hrun').
      rewrite Hrun' in Hrun. discriminate Hrun.
  - (* encoder family *)
    destruct hx as [b | h].
    + destruct (bert_factory_wrong_hparams train_data validation_data _ b
                  (after_defaults s0) Hh) as (e & s' & Hrun').
      rewrite Hrun' in Hrun. discriminate Hrun.
    + destruct mx as [a | o].
      * destruct (bert_factory_wrong_options train_data validation_data
                    (with_defaults (options s0)) bspec a h
                    (after_defaults s0) Hval Hm Hh) as (e & s' & Hrun').
        rewrite Hrun' in Hrun. discriminate Hrun.
      * destruct (metrics_cases h (len_label_names (text_ds.label_names train_data)))
          as [Hadm | [Hn Ht]].
        2: { rewrite (bert_factory_rejects _ _ _ _ _ Hh Hn Ht) in Hrun.
             discriminate Hrun. }
        destruct (_BertClassifier.warmup_steps_of
                    (total_steps_of h
                       (preprocessor.preprocess (bert_preprocessor bspec o h)
                                                train_data))) as [w |] eqn:Hw.
        2: { destruct (bert_factory_overflow train_data validation_data
                         (with_defaults (options s0)) bspec o h
                         (after_defaults s0) Hval Hm Hh Hw) as (e & s' & Hrun').
             rewrite Hrun' in Hrun. discriminate Hrun. }
        pose proof (bert_factory_run train_data validation_data
                      (with_defaults (options s0)) bspec o h w
                      (after_defaults s0) Hval Hm Hh Hadm Hw) as Hrun'.
        cbv zeta in Hrun'.
        destruct (hp.optimizer h);
          try (rewrite Hrun' in Hrun; discriminate Hrun);
          destruct Hrun' as (c' & opt & Hrun' & _ & _ & Hp & Hmod & _);
          rewrite Hrun' in Hrun; inversion Hrun; subst c' s1;
          (eexists _, _, _, _;
           split; [exact Hp |]; split; [exact Hmod |];
           split; [reflexivity |]; split; reflexivity).
  - discriminate Hrun.
Qed.

End CreateInversion.

Section Evaluation.
Context {env : Environment}.

(** C8.  Let [c] be a classifier returned by [create].  [evaluate] on data
    that is not a text-classifier dataset raises the [ValueError] "Need a
    TextClassifier Dataset." and leaves the state as it was (nothing
    preprocessed).  On a text-classifier dataset it runs the preprocessor
    the classifier holds, which is the one preprocessor fitted during
    [create], fits none, and returns what the model's [evaluate] yields on
    the batched preprocessed data (the loss and metric values), inside the
    strategy scope. *)
Theorem evaluate_checks_type_and_reuses_preprocessor
        (train_data validation_data : text_ds.Dataset) (s0 s1 : state)
        (c : Classifier) (data : ds.Dataset) (batch_size : Z)
        (desired_precisions desired_recalls : option (list pyfloat))
        (s : state) :
  TextClassifier.create train_data validation_data s0 = (Return c, s1) ->
  match data with
  | ds.CoreDataset _ =>
      TextClassifier.evaluate c data batch_size desired_precisions desired_recalls s
      = (Raise (ValueError "Need a TextClassifier Dataset."), s)
  | ds.TextDataset d =>
      exists p m t e,
        trace s1 = trace s0 ++ t
        /\ filter is_preprocessor_fit_event t = [e]
        /\ fitted_by e = Some p
        /\ _text_preprocessor c = Some p
        /\ _model c = Some m
        /\ TextClassifier.evaluate c data batch_size
                                   desired_precisions desired_recalls s
           = (Return (keras_evaluate
                        m (gen_tf_dataset (preprocessor.preprocess p d)
                                          batch_size false)),
              log s [ EvPreprocess p d;
                      EvStrategyScopeEnter;
                      EvEvaluate m (gen_tf_dataset (preprocessor.preprocess p d)
                                                   batch_size false);
                      EvStrategyScopeExit ])
        /\ filter is_preprocessor_fit_event
                  [ EvPreprocess p d;
                    EvStrategyScopeEnter;
                    EvEvaluate m (gen_tf_dataset (preprocessor.preprocess p d)
                                                 batch_size false);
                    EvStrategyScopeExit ] = []
  end.
Proof.
  intros Hrun. destruct data as [d | size]; [| reflexivity].
  destruct (create_returns_trained _ _ _ _ _ Hrun) as (p & m & t & e & Hp & Hm & Ht & Hf & He).
  exists p, m, t, e.
  split; [exact Ht |]. split; [exact Hf |]. split; [exact He |].
  split; [exact Hp |]. split; [exact Hm |].
  split; [| reflexivity].
  unfold TextClassifier.evaluate. rewrite Hp, Hm.
  unfold log. cbn. rewrite <- !app_assoc. reflexivity.
Qed.

End Evaluation.

(** ** Label and option checks *)

Section LabelAndOptionChecks.
Context {env : Environment}.

(** C1.  Whenever the label-name lists of the training and validation data
    differ (as lists of strings, so a different order counts), [create]
    raises the label-mismatch [ValueError] and hands back the state it was
    given: the options object is untouched and no collaborator has been
    called, so no preprocessing, no training and no file output happened. *)
Theorem create_rejects_label_mismatch
        (train_data validation_data : text_ds.Dataset) (s : state) :
  text_ds.label_names train_data <> text_ds.label_names validation_data ->
  TextClassifier.create train_data validation_data s =
    (Raise (ValueError
              ("Training data label names "
                 ++ str_list (text_ds.label_names train_data)
                 ++ " not equal to validation data label names "
                 ++ str_list (text_ds.label_names validation_data))),
     s).
Proof.
  intros Hne. unfold TextClassifier.create.
  rewrite (labels_differ_true _ _ Hne). reflexivity.
Qed.

(** C7.  [_validate] passes every options object whose model options are
    absent; it raises the expected-embedding [ValueError] for embedding
    options under any selector other than the embedding one, and the
    expected-encoder [ValueError] for encoder options under a selector whose
    specification is not an encoder specification.  Whatever it answers, the
    state is the one it was given (no collaborator called, options not
    written), and in [create] a rejection comes back with that same state:
    nothing has been allocated by then. *)
Theorem validate_rejects_family_mismatch (opts : TextClassifierOptions) (s : state) :
  (model_options opts = None -> _validate opts s = (Return tt, s))
  /\ (forall o,
        model_options opts = Some (mo.AverageWordEmbedding o) ->
        supported_model opts <> AVERAGE_WORD_EMBEDDING_CLASSIFIER ->
        _validate opts s =
          (Raise (ValueError
                    ("Expected AVERAGE_WORD_EMBEDDING_CLASSIFIER, got "
                       ++ str_SupportedModels (supported_model opts))), s))
  /\ (forall o,
        model_options opts = Some (mo.Bert o) ->
        ms.is_BertClassifierSpec (value (supported_model opts)) = false ->
        _validate opts s =
          (Raise (ValueError
                    ("Expected a Bert Classifier, got "
                       ++ str_SupportedModels (supported_model opts))), s))
  /\ (forall r s', _validate opts s = (r, s') -> s' = s)
  /\ (forall train_data validation_data e,
        opts = options s ->
        text_ds.label_names train_data = text_ds.label_names validation_data ->
        _validate opts s = (Raise e, s) ->
        TextClassifier.create train_data validation_data s = (Raise e, s)).
Proof.
  repeat split.
  - intros H. unfold _validate. rewrite H. reflexivity.
  - intros o H Hne. unfold _validate, bind, raise. rewrite H. simpl.
    destruct (SupportedModels_eq_dec _ _); [contradiction | reflexivity].
  - intros o H Hb. unfold _validate, bind, raise, ret. rewrite H, Hb. reflexivity.
  - intros r s' H. pose proof (validate_pure opts s) as P.
    rewrite H in P. exact P.
  - intros train_data validation_data e -> Hl Hv.
    unfold TextClassifier.create. rewrite (labels_differ_false _ _ Hl).
    unfold bind at 1. unfold get_options at 1.
    unfold bind at 1. rewrite Hv. reflexivity.
Qed.

(** C10.  [evaluate] never reads [desired_precisions] or [desired_recalls]:
    two calls that differ only there give the same outcome and the same
    final state. *)
Theorem evaluate_ignores_desired_precisions_and_recalls
        (self : Classifier) (data : ds.Dataset) (batch_size : Z)
        (desired_precisions desired_recalls
           desired_precisions' desired_recalls' : option (list pyfloat))
        (s : state) :
  TextClassifier.evaluate self data batch_size
                          desired_precisions desired_recalls s
  = TextClassifier.evaluate self data batch_size
                            desired_precisions' desired_recalls' s.
Proof. reflexivity. Qed.

End LabelAndOptionChecks.

(** ** Concrete runs *)

(** C2.  With two classes and [desired_recalls = [0.9]] the constructor of
    the encoder classifier builds, besides accuracy, precision and recall, a
    metric that is named [precision_at_recall_0.9] but is an instance of
    [BinarySparseRecallAtPrecision]: the recall-at-precision class, not the
    precision-at-recall class the docstrings promise. *)
Theorem precision_at_recall_metric_is_recall_at_precision :
  exists c s1,
    _BertClassifier.__init__
      (ms.Bert Sample.bert_spec) (Some (mo.Bert Sample.bert_options))
      (hp.Bert (Sample.bert_hparams_with [] [Sample.lit_0_9] hp.ADAMW))
      ["pos"; "neg"]
      (Sample.start (Sample.encoder_options
                       (Sample.bert_hparams_with [] [Sample.lit_0_9] hp.ADAMW)))
    = (Return c, s1)
    /\ _num_classes c = 2
    /\ _metric_functions c
       = [ tf.SparseCategoricalAccuracy "accuracy" tf.float32;
           tf.SparsePrecision "precision" tf.float32;
           tf.SparseRecall "recall" tf.float32;
           tf.BinarySparseRecallAtPrecision Sample.lit_0_9
                                            "precision_at_recall_0.9" 1000 ].
Proof. eexists _, _. split; [reflexivity | split; reflexivity]. Qed.

(** ** Concrete inputs *)

Lemma create_rejects_label_mismatch_witness :
  text_ds.label_names Sample.train <> text_ds.label_names Sample.validation_swapped
  /\ TextClassifier.create Sample.train Sample.validation_swapped
                           (Sample.start Sample.embedding_options)
     = (Raise (ValueError
                 "Training data label names ['pos', 'neg'] not equal to validation data label names ['neg', 'pos']"),
        Sample.start Sample.embedding_options).
Proof.
  assert (H : text_ds.label_names Sample.train
              <> text_ds.label_names Sample.validation_swapped) by discriminate.
  split; [exact H |].
  exact (create_rejects_label_mismatch Sample.train Sample.validation_swapped
           (Sample.start Sample.embedding_options) H).
Defined.

Lemma binary_metric_check_precedes_preprocessing :
  exists s1,
    TextClassifier.create
      Sample.three_classes Sample.three_classes
      (Sample.start (Sample.encoder_options
                       (Sample.bert_hparams_with [Sample.lit_0_9] [] hp.ADAMW)))
    = (Raise (ValueError
                "desired_recalls and desired_precisions parameters are binary metrics and not supported for num_classes > 2. Found num_classes: 3"),
       s1)
    /\ trace s1 = [ EvGetDefaultCallbacks "/tmp/export";
                    EvStrategyScopeEnter; EvStrategyScopeExit ]
    /\ (preprocessing_completed Sample.three_classes Sample.three_classes (trace s1)
        -> False).
Proof.
  eexists. split; [reflexivity |]. split; [reflexivity |].
  intros (p & H & _). cbn in H.
  destruct H as [H | [H | [H | []]]]; discriminate H.
Qed.

Lemma binary_metric_check_in_constructor_witness :
  len_label_names (text_ds.label_names Sample.three_classes) <> 2
  /\ TextClassifier.create
       Sample.three_classes Sample.three_classes
       (Sample.start (Sample.encoder_options
                        (Sample.bert_hparams_with [] [Sample.lit_0_9] hp.LAMB)))
     = (Raise (ValueError (binary_metrics_message 3)),
        log (after_defaults
               (Sample.start (Sample.encoder_options
                                (Sample.bert_hparams_with [] [Sample.lit_0_9] hp.LAMB))))
            [ EvGetDefaultCallbacks "/tmp/export";
              EvStrategyScopeEnter; EvStrategyScopeExit ]).
Proof.
  assert (Hn : len_label_names (text_ds.label_names Sample.three_classes) <> 2)
    by discriminate.
  split; [exact Hn |].
  refine (proj1 (binary_metric_check_in_constructor
                   Sample.three_classes Sample.three_classes
                   (Sample.start (Sample.encoder_options
                                    (Sample.bert_hparams_with [] [Sample.lit_0_9] hp.LAMB)))
                   Sample.bert_spec Sample.bert_options
                   (Sample.bert_hparams_with [] [Sample.lit_0_9] hp.LAMB)
                   eq_refl _ Hn _)).
  - repeat split.
  - right. discriminate.
Defined.

Lemma unrecognized_optimizer_is_rejected_witness :
  hp.optimizer (Sample.bert_hparams_with [] [] (hp.OtherOptimizer "sgd"))
  = hp.OtherOptimizer "sgd"
  /\ exists s1,
       TextClassifier.create
         Sample.train Sample.validation
         (Sample.start (Sample.encoder_options
                          (Sample.bert_hparams_with [] [] (hp.OtherOptimizer "sgd"))))
       = (Raise (ValueError
                   "BertHParams.optimizer must be set to ADAM or LAMB. Got sgd."),
          s1)
       /\ no_training (trace s1).
Proof.
  split; [reflexivity |].
  eexists. split.
  - refine (proj1 (unrecognized_optimizer_is_rejected
                     Sample.train Sample.validation
                     (Sample.start
                        (Sample.encoder_options
                           (Sample.bert_hparams_with [] [] (hp.OtherOptimizer "sgd"))))
                     Sample.bert_spec Sample.bert_options
                     (Sample.bert_hparams_with [] [] (hp.OtherOptimizer "sgd"))
                     "sgd" eq_refl _ _ eq_refl _)).
    + repeat split.
    + left. reflexivity.
    + change (0 <= 20 < 2 ^ 52). lia.
  - reflexivity.
Defined.

Lemma embedding_optimizer_is_fixed_witness :
  embedding_family (options (Sample.start Sample.embedding_options))
                   Sample.awe_spec Sample.awe_options
                   (hp.AverageWordEmbeddingHParams Sample.base_hparams)
  /\ exists c s1,
       TextClassifier.create Sample.train Sample.validation
                             (Sample.start Sample.embedding_options)
       = (Return c, s1)
       /\ _optimizer c = Some (tf.by_name "rmsprop").
Proof.
  assert (Hf : embedding_family (options (Sample.start Sample.embedding_options))
                                Sample.awe_spec Sample.awe_options
                                (hp.AverageWordEmbeddingHParams Sample.base_hparams))
    by (repeat split).
  split; [exact Hf |].
  destruct (embedding_optimizer_is_fixed
              Sample.train Sample.validation (Sample.start Sample.embedding_options)
              Sample.awe_spec Sample.awe_options
              (hp.AverageWordEmbeddingHParams Sample.base_hparams) eq_refl Hf)
    as (c & s1 & before & m & l & mf & cb & ptrain & pval & Hrun & _ & _ & Hopt & _).
  exists c, s1. split; [exact Hrun | exact Hopt].
Defined.

Lemma encoder_learning_rate_schedule_witness :
  encoder_family
    (options (Sample.start (Sample.encoder_options
                              (Sample.bert_hparams_with [] [] hp.ADAMW))))
    Sample.bert_spec Sample.bert_options (Sample.bert_hparams_with [] [] hp.ADAMW)
  /\ exists c s1 opt,
       TextClassifier.create
         Sample.train Sample.validation
         (Sample.start (Sample.encoder_options
                          (Sample.bert_hparams_with [] [] hp.ADAMW)))
       = (Return c, s1)
       /\ _optimizer c = Some opt
       /\ optimizer_schedule opt
          = Some (tf.WarmUp Sample.lit_3e_5
                            (tf.PolynomialDecay Sample.lit_3e_5 20
                                                Sample.lit_0_0 lit_1_0)
                            2).
Proof.
  assert (Hf : encoder_family
                 (options (Sample.start (Sample.encoder_options
                                           (Sample.bert_hparams_with [] [] hp.ADAMW))))
                 Sample.bert_spec Sample.bert_options
                 (Sample.bert_hparams_with [] [] hp.ADAMW))
    by (repeat split).
  split; [exact Hf |].
  assert (Hrange : 0 <= 20 < 2 ^ 52) by lia.
  destruct (encoder_learning_rate_schedule
              Sample.train Sample.validation
              (Sample.start (Sample.encoder_options
                               (Sample.bert_hparams_with [] [] hp.ADAMW)))
              Sample.bert_spec Sample.bert_options
              (Sample.bert_hparams_with [] [] hp.ADAMW)
              eq_refl Hf (or_introl eq_refl) (or_introl eq_refl) Hrange)
    as (c & s1 & opt & sched & before & m & l & mf & cb & hps & pval
        & Hrun & _ & _ & Hopt & Hsched & _ & _ & Hwarm & _).
  exists c, s1, opt. split; [exact Hrun |]. split; [exact Hopt |].
  rewrite Hsched. f_equal. apply Hwarm. discriminate.
Defined.

Lemma evaluate_checks_type_and_reuses_preprocessor_witness :
  exists c s1,
    TextClassifier.create Sample.train Sample.validation
                          (Sample.start Sample.embedding_options)
    = (Return c, s1)
    /\ TextClassifier.evaluate c (ds.CoreDataset 3) 32 None None s1
       = (Raise (ValueError "Need a TextClassifier Dataset."), s1).
Proof.
  assert (Hrun : exists c s1,
             TextClassifier.create Sample.train Sample.validation
                                   (Sample.start Sample.embedding_options)
             = (Return c, s1)).
  { eexists. eexists. vm_compute. reflexivity. }
  destruct Hrun as (c & s1 & Hrun).
  exists c, s1. split; [exact Hrun |].
  exact (evaluate_checks_type_and_reuses_preprocessor
           Sample.train Sample.validation
           (Sample.start Sample.embedding_options) s1 c
           (ds.CoreDataset 3) 32 None None s1 Hrun).
Defined.

Lemma embedding_vocabulary_built_once_witness :
  embedding_family (options (Sample.start Sample.embedding_options))
                   Sample.awe_spec Sample.awe_options
                   (hp.AverageWordEmbeddingHParams Sample.base_hparams)
  /\ exists c s1 p,
       TextClassifier.create Sample.train Sample.validation
                             (Sample.start Sample.embedding_options)
       = (Return c, s1)
       /\ _text_preprocessor c = Some (preprocessor.AverageWordEmbedding p)
       /\ preprocessor.awe_vocab p = ["a"; "fine"; "film"].
Proof.
  assert (Hf : embedding_family (options (Sample.start Sample.embedding_options))
                                Sample.awe_spec Sample.awe_options
                                (hp.AverageWordEmbeddingHParams Sample.base_hparams))
    by (repeat split).
  split; [exact Hf |].
  destruct (embedding_vocabulary_built_once
              Sample.train Sample.validation (Sample.start Sample.embedding_options)
              Sample.awe_spec Sample.awe_options
              (hp.AverageWordEmbeddingHParams Sample.base_hparams) eq_refl Hf)
    as (c & s1 & t & p & Hrun & _ & _ & Hp & _ & _ & Hvocab & _).
  exists c, s1, p. split; [exact Hrun |]. split; [exact Hp |].
  rewrite Hvocab. reflexivity.
Defined.

(** Option validation on concrete options. *)
Example validate_examples :
  _validate Sample.embedding_options (Sample.start Sample.embedding_options)
  = (Return tt, Sample.start Sample.embedding_options)
  /\ _validate (Sample.options_for Sample.MOBILEBERT_CLASSIFIER None
                  (Some (mo.AverageWordEmbedding Sample.awe_options)))
               (Sample.start Sample.embedding_options)
     = (Raise (ValueError
                 "Expected AVERAGE_WORD_EMBEDDING_CLASSIFIER, got SupportedModels.MOBILEBERT_CLASSIFIER"),
        Sample.start Sample.embedding_options)
  /\ _validate (Sample.options_for Sample.AWE_CLASSIFIER None
                  (Some (mo.Bert Sample.bert_options)))
               (Sample.start Sample.embedding_options)
     = (Raise (ValueError
                 "Expected a Bert Classifier, got SupportedModels.AVERAGE_WORD_EMBEDDING_CLASSIFIER"),
        Sample.start Sample.embedding_options).
Proof. repeat split. Qed.

(* ===================================================================== *)
(** * Further properties of the code *)
(* ===================================================================== *)

(** ** Strategy scopes *)

Section ScopeFacts.
Context {env : Environment}.
Local Open Scope Z_scope.

Lemma scope_depth_app (t u : list event) : forall d,
  scope_depth (t ++ u) d
  = match scope_depth t d with
    | Some k => scope_depth u k
    | None => None
    end.
Proof.
  induction t as [| e t IH]; intros d; [reflexivity |].
  destruct e; cbn; try apply IH.
  destruct d; [reflexivity | apply IH].
Qed.

Lemma scope_depth_shift (t : list event) : forall d k n,
  scope_depth t d = Some k -> scope_depth t (d + n) = Some (k + n)%nat.
Proof.
  induction t as [| e t IH]; intros d k n H.
  - cbn in *. injection H as <-. reflexivity.
  - destruct e; cbn in *; try (apply IH; exact H).
    + apply (IH (S d) k n H).
    + destruct d as [| d]; [discriminate H |]. cbn. apply IH. exact H.
Qed.

Lemma scopes_closed_nil : scopes_closed [].
Proof. reflexivity. Qed.

Lemma scopes_closed_app (t u : list event) :
  scopes_closed t -> scopes_closed u -> scopes_closed (t ++ u).
Proof.
  unfold scopes_closed. intros Ht Hu. rewrite scope_depth_app, Ht. exact Hu.
Qed.

Lemma scopes_closed_scope (t : list event) :
  scopes_closed t ->
  scopes_closed (EvStrategyScopeEnter :: t ++ [EvStrategyScopeExit]).
Proof.
  unfold scopes_closed. intros Ht. cbn.
  rewrite scope_depth_app.
  pose proof (scope_depth_shift t 0 0 1 Ht) as H1. cbn in H1.
  rewrite H1. reflexivity.
Qed.

Lemma closes_scopes_ret {A : Type} (a : A) : closes_scopes (ret a).
Proof.
  intros s. exists []. split; [cbn; rewrite app_nil_r; reflexivity | reflexivity].
Qed.

Lemma closes_scopes_raise {A : Type} (e : exn) : closes_scopes (@raise env A e).
Proof.
  intros s. exists []. split; [cbn; rewrite app_nil_r; reflexivity | reflexivity].
Qed.

Lemma closes_scopes_get_options : closes_scopes get_options.
Proof.
  intros s. exists []. split; [cbn; rewrite app_nil_r; reflexivity | reflexivity].
Qed.

Lemma closes_scopes_put_options (o : TextClassifierOptions) :
  closes_scopes (put_options o).
Proof.
  intros s. exists []. split; [cbn; rewrite app_nil_r; reflexivity | reflexivity].
Qed.

Lemma closes_scopes_emit (e : event) :
  scopes_closed [e] -> closes_scopes (emit e).
Proof. intros He s. exists [e]. split; [reflexivity | exact He]. Qed.

Lemma closes_scopes_bind {A B : Type} (m : M A) (k : A -> M B) :
  closes_scopes m -> (forall a, closes_scopes (k a)) -> closes_scopes (bind m k).
Proof.
  intros Hm Hk s. unfold bind.
  destruct (Hm s) as (t & Ht & Pt).
  destruct (m s) as [[a | e] s']; cbn in Ht.
  - destruct (Hk a s') as (u & Hu & Pu).
    exists (t ++ u). split; [rewrite Hu, Ht, app_assoc; reflexivity |].
    apply scopes_closed_app; assumption.
  - exists t. split; [exact Ht | exact Pt].
Qed.

Lemma closes_scopes_with_strategy_scope {A : Type} (body : M A) :
  closes_scopes body -> closes_scopes (with_strategy_scope body).
Proof.
  intros Hb s. unfold with_strategy_scope, bind, emit.
  destruct (Hb {| options := options s;
                  trace := trace s ++ [EvStrategyScopeEnter] |})
    as (t & Ht & Pt).
  destruct (body _) as [r s']; cbn in Ht.
  exists (EvStrategyScopeEnter :: t ++ [EvStrategyScopeExit]).
  split; [| apply scopes_closed_scope; exact Pt].
  destruct r; cbn; rewrite Ht, <- !app_assoc; reflexivity.
Qed.

End ScopeFacts.

Ltac closes_scopes_step :=
  lazymatch goal with
  | |- closes_scopes (bind _ _) => apply closes_scopes_bind; [| intros ?]
  | |- closes_scopes (ret _) => apply closes_scopes_ret
  | |- closes_scopes (raise _) => apply closes_scopes_raise
  | |- closes_scopes (emit _) => apply closes_scopes_emit; reflexivity
  | |- closes_scopes get_options => apply closes_scopes_get_options
  | |- closes_scopes (put_options _) => apply closes_scopes_put_options
  | |- closes_scopes (with_strategy_scope _) =>
      apply closes_scopes_with_strategy_scope
  | |- closes_scopes (match ?x with _ => _ end) => destruct x
  end.

Section ScopeInvariant.
Context {env : Environment}.
Local Open Scope Z_scope.

Lemma closes_scopes_validate (opts : TextClassifierOptions) :
  closes_scopes (_validate opts).
Proof. unfold _validate. repeat closes_scopes_step. Qed.

Lemma closes_scopes_get_default_callbacks (export_dir : string) :
  closes_scopes (get_default_callbacks export_dir).
Proof. unfold get_default_callbacks. repeat closes_scopes_step. Qed.

Lemma closes_scopes_run_preprocess
      (p : option preprocessor.TextClassifierPreprocessor) (d : text_ds.Dataset) :
  closes_scopes (run_preprocess p d).
Proof. unfold run_preprocess. repeat closes_scopes_step. Qed.

Lemma closes_scopes_train_model (self : Classifier)
      (train_data validation_data : preprocessor.ProcessedDataset) :
  closes_scopes (_train_model self train_data validation_data).
Proof. unfold _train_model. repeat closes_scopes_step. Qed.

Lemma closes_scopes_awe_factory (train_data validation_data : text_ds.Dataset)
      (opts : TextClassifierOptions) :
  closes_scopes
    (_AverageWordEmbeddingClassifier.create_average_word_embedding_classifier
       train_data validation_data opts).
Proof.
  unfold _AverageWordEmbeddingClassifier.create_average_word_embedding_classifier,
    _AverageWordEmbeddingClassifier.__init__,
    _AverageWordEmbeddingClassifier._create_and_train_model,
    _AverageWordEmbeddingClassifier._load_and_run_preprocessor,
    _AverageWordEmbeddingClassifier._create_model.
  repeat first
    [ apply closes_scopes_get_default_callbacks
    | apply closes_scopes_run_preprocess
    | apply closes_scopes_train_model
    | closes_scopes_step ].
Qed.

Lemma closes_scopes_bert_factory (train_data validation_data : text_ds.Dataset)
      (opts : TextClassifierOptions) :
  closes_scopes
    (_BertClassifier.create_bert_classifier train_data validation_data opts).
Proof.
  unfold _BertClassifier.create_bert_classifier, _BertClassifier.__init__,
    _BertClassifier._create_and_train_model,
    _BertClassifier._load_and_run_preprocessor, _BertClassifier._create_model,
    _BertClassifier._create_optimizer, _BertClassifier._create_metrics,
    _BertClassifier.get_path.
  repeat first
    [ apply closes_scopes_get_default_callbacks
    | apply closes_scopes_run_preprocess
    | apply closes_scopes_train_model
    | closes_scopes_step ].
Qed.

(** X1.  Whatever its arguments and whatever its outcome, a returned
    classifier or any of its errors, [create] only adds events to the run,
    and among the events it adds every strategy scope that is entered is
    left again, in nesting order: no scope stays open after [create]. *)
Theorem create_closes_every_strategy_scope
        (train_data validation_data : text_ds.Dataset) (s : state) :
  exists t,
    trace (snd (TextClassifier.create train_data validation_data s))
    = trace s ++ t
    /\ scopes_closed t.
Proof.
  revert s. change (closes_scopes (TextClassifier.create train_data validation_data)).
  unfold TextClassifier.create.
  repeat first
    [ apply closes_scopes_validate
    | apply closes_scopes_awe_factory
    | apply closes_scopes_bert_factory
    | closes_scopes_step ].
Qed.

End ScopeInvariant.

(** ** Evaluation *)

Section EvaluationFacts.
Context {env : Environment}.
Local Open Scope Z_scope.

(** X2.  For every classifier, trained or not, every dataset and every
    outcome, [evaluate] leaves the caller's options untouched and only adds
    events that preprocess, enter or leave a strategy scope, or evaluate:
    it never requests callbacks, resolves a model path, fits a preprocessor,
    builds a model or trains; and it leaves every scope it enters. *)
Theorem evaluate_is_read_only
        (self : Classifier) (data : ds.Dataset) (batch_size : Z)
        (desired_precisions desired_recalls : option (list pyfloat)) (s : state) :
  let s' := snd (TextClassifier.evaluate self data batch_size
                                         desired_precisions desired_recalls s) in
  options s' = options s
  /\ exists t,
       trace s' = trace s ++ t
       /\ read_only t
       /\ no_training t
       /\ filter is_preprocessor_fit_event t = []
       /\ scopes_closed t.
Proof.
  unfold TextClassifier.evaluate, run_preprocess, TextClassifier.model_evaluate,
    with_strategy_scope, bind, emit, ret, raise.
  destruct data as [d | n]; cbn.
  - destruct (_text_preprocessor self) as [p |]; cbn.
    + destruct (_model self) as [m |]; cbn.
      * split; [reflexivity |].
        eexists. split; [rewrite <- !app_assoc; reflexivity |].
        repeat split.
      * split; [reflexivity |].
        eexists. split; [rewrite <- !app_assoc; reflexivity |].
        repeat split.
    + split; [reflexivity |].
      exists []. split; [rewrite app_nil_r; reflexivity |]. repeat split.
  - split; [reflexivity |].
    exists []. split; [rewrite app_nil_r; reflexivity |]. repeat split.
Qed.

(** X3.  A classifier that comes straight from either constructor holds no
    preprocessor, so [evaluate] on a text dataset before training raises an
    [AttributeError] at [self._text_preprocessor.preprocess] and calls
    nothing: the state stays as the constructor left it. *)
Theorem evaluate_before_training_fails
        (model_spec : ms.ModelSpec)
        (model_options : option mo.TextClassifierModelOptions)
        (hparams : hp.HParams) (label_names : list string)
        (s s1 : state) (c : Classifier)
        (data : text_ds.Dataset) (batch_size : Z)
        (desired_precisions desired_recalls : option (list pyfloat)) :
  _AverageWordEmbeddingClassifier.__init__
    model_spec model_options hparams label_names s = (Return c, s1)
  \/ _BertClassifier.__init__
       model_spec model_options hparams label_names s = (Return c, s1) ->
  _text_preprocessor c = None
  /\ TextClassifier.evaluate c (ds.TextDataset data) batch_size
                             desired_precisions desired_recalls s1
     = (Raise (AttributeError "'NoneType' object has no attribute 'preprocess'"),
        s1).
Proof.
  intros H.
  assert (Hp : _text_preprocessor c = None).
  { destruct H as [H | H].
    - unfold _AverageWordEmbeddingClassifier.__init__, get_default_callbacks,
        bind, emit, ret in H.
      cbn in H. injection H as <- _. reflexivity.
    - destruct hparams as [b | h]; [discriminate H |].
      destruct (metrics_cases h (len_label_names label_names)) as [Hadm | [Hn Ht]].
      + rewrite (bert_init_accepts _ _ _ _ _ Hadm) in H.
        injection H as <- _. reflexivity.
      + rewrite (bert_init_rejects _ _ _ _ _ Hn Ht) in H. discriminate H. }
  split; [exact Hp |].
  unfold TextClassifier.evaluate, run_preprocess, bind. rewrite Hp. reflexivity.
Qed.

End EvaluationFacts.

(** ** The factory *)

Section FactoryEdgeFacts.
Context {env : Environment}.
Local Open Scope Z_scope.

(** X4.  When the labels agree and the options pass [_validate] but the
    selected specification belongs to neither family, [create] raises
    [ValueError] "Unknown model ...".  By then it has filled the missing
    fields of the caller's options object with the defaults of that
    specification (fields that were given are kept), and it has called
    nothing else: no event is added. *)
Theorem unknown_model_is_rejected
        (train_data validation_data : text_ds.Dataset) (s : state)
        (default_hparams : hp.HParams)
        (default_model_options : mo.TextClassifierModelOptions) :
  text_ds.label_names train_data = text_ds.label_names validation_data ->
  _validate (options s) s = (Return tt, s) ->
  value (supported_model (options s))
  = ms.Other default_hparams default_model_options ->
  exists s1,
    TextClassifier.create train_data validation_data s
    = (Raise (ValueError
                ("Unknown model "
                   ++ str_SupportedModels (supported_model (options s)))),
       s1)
    /\ trace s1 = trace s
    /\ supported_model (options s1) = supported_model (options s)
    /\ hparams (options s1)
       = Some (match hparams (options s) with
               | Some h => h
               | None => default_hparams
               end)
    /\ model_options (options s1)
       = Some (match model_options (options s) with
               | Some m => m
               | None => default_model_options
               end).
Proof.
  intros Hl Hv Hval.
  exists (after_defaults s).
  rewrite (create_dispatch _ _ _ Hl Hv), Hval.
  split; [reflexivity |]. split; [reflexivity |]. split; [reflexivity |].
  unfold after_defaults, with_defaults. cbn. rewrite Hval. cbn.
  destruct (hparams (options s)), (model_options (options s)); split; reflexivity.
Qed.

(** X5.  The metric list of the encoder constructor.  The constructor
    raises exactly when the class count is not two and a precision or
    recall target is configured.  Otherwise the classifier's metric list
    starts with accuracy, precision and recall, holds one further metric
    per configured target when there are two classes and none otherwise,
    and every further metric is a [BinarySparseRecallAtPrecision] over
    1000 thresholds. *)
Theorem encoder_metrics_shape
        (model_spec : ms.ModelSpec)
        (model_options : option mo.TextClassifierModelOptions)
        (h : hp.BertHParams) (label_names : list string) (s : state) :
  let n := len_label_names label_names in
  let targets :=
    (List.length (hp.desired_precisions h)
     + List.length (hp.desired_recalls h))%nat in
  match fst (_BertClassifier.__init__ model_spec model_options (hp.Bert h)
                                      label_names s) with
  | Raise e =>
      n <> 2 /\ targets <> 0%nat
      /\ e = ValueError (binary_metrics_message n)
  | Return c =>
      (n = 2 \/ targets = 0%nat)
      /\ List.length (_metric_functions c)
         = (3 + (if (n =? 2)%Z then targets else 0))%nat
      /\ firstn 3 (_metric_functions c) = default_metrics
      /\ forallb is_threshold_metric (skipn 3 (_metric_functions c)) = true
  end.
Proof.
  intros n targets.
  destruct (metrics_cases h n) as [Hadm | [Hn Ht]].
  - rewrite (bert_init_accepts model_spec model_options h label_names s Hadm).
    cbn [fst set_metric_functions _metric_functions]. fold n.
    unfold bert_metrics.
    destruct Hadm as [H2 | [Hp Hr]].
    + fold n in H2. rewrite H2. cbn [Z.eqb Pos.eqb].
      split; [left; reflexivity |].
      split; [| split].
      * rewrite !length_app, !length_map. reflexivity.
      * reflexivity.
      * cbn [default_metrics app skipn].
        rewrite forallb_app.
        apply andb_true_iff. split; apply forallb_forall;
          intros m Hm; apply in_map_iff in Hm; destruct Hm as (x & <- & _);
          reflexivity.
    + subst targets. rewrite Hp, Hr. cbn [List.length Nat.add map app].
      split; [right; reflexivity |].
      destruct (n =? 2); repeat split.
  - rewrite (bert_init_rejects model_spec model_options h label_names s Hn Ht).
    cbn [fst]. split; [exact Hn |]. split; [| reflexivity].
    subst targets.
    destruct (hp.desired_precisions h), (hp.desired_recalls h);
      cbn in *; try discriminate; lia.
Qed.

End FactoryEdgeFacts.

(** ** The warm-up step count, for totals of either sign *)

Section WarmupFacts.
Local Open Scope Z_scope.

Lemma SFopp_involutive (x : spec_float) : SFopp (SFopp x) = x.
Proof. destruct x as [s | s | | s m e]; cbn; rewrite ?negb_involutive; reflexivity. Qed.

Lemma binary_round_aux_sign (m e : Z) (l : location) :
  binary_round_aux 53 1024 true m e l
  = SFopp (binary_round_aux 53 1024 false m e l).
Proof.
  unfold binary_round_aux.
  destruct (shr_fexp 53 1024 m e l) as [mrs' e'].
  destruct (shr_fexp 53 1024 _ e' loc_Exact) as [mrs'' e''].
  destruct (shr_m mrs'') as [| p | p]; [reflexivity | | reflexivity].
  destruct (e'' <=? 1024 - 53); reflexivity.
Qed.

Lemma binary_round_aux_opp (sx : bool) (m e : Z) (l : location) :
  binary_round_aux 53 1024 (negb sx) m e l
  = SFopp (binary_round_aux 53 1024 sx m e l).
Proof.
  destruct sx; cbn [negb].
  - rewrite (binary_round_aux_sign m e l), SFopp_involutive. reflexivity.
  - apply binary_round_aux_sign.
Qed.

Lemma is_finite_opp (x : pyfloat) : is_finite (SFopp x) = is_finite x.
Proof. destruct x; reflexivity. Qed.

Lemma of_int_opp (n : Z) :
  n <> 0 -> of_int (- n) = option_map SFopp (of_int n).
Proof.
  intros Hn. unfold of_int.
  assert (H : binary_normalize prec emax (- n) 0 false
              = SFopp (binary_normalize prec emax n 0 false)).
  { destruct n as [| p | p]; [contradiction | |];
      unfold binary_normalize, binary_round; cbn [Z.opp];
      destruct (shl_align p 0 _) as [mz ez].
    - apply binary_round_aux_sign.
    - unfold PyFloat.prec, PyFloat.emax.
      rewrite (binary_round_aux_sign (Zpos mz) ez loc_Exact), SFopp_involutive.
      reflexivity. }
  rewrite H, is_finite_opp.
  destruct (is_finite (binary_normalize prec emax n 0 false)); reflexivity.
Qed.

Lemma mul_opp_tenth (x : pyfloat) :
  mul (SFopp x) lit_0_1 = SFopp (mul x lit_0_1).
Proof.
  rewrite lit_0_1_value. unfold mul, SFmul.
  destruct x as [s | s | | s m e]; cbn [SFopp]; try reflexivity.
  - rewrite !xorb_false_r. reflexivity.
  - rewrite !xorb_false_r. reflexivity.
  - rewrite !xorb_false_r. apply binary_round_aux_opp.
Qed.

Lemma to_int_opp (x : pyfloat) :
  to_int (SFopp x) = option_map Z.opp (to_int x).
Proof.
  destruct x as [s | s | | s m e]; cbn; try reflexivity.
  destruct s; cbn; f_equal; lia.
Qed.

(** [int(total_steps * 0.1)] is an odd function of [total_steps]. *)
Lemma warmup_steps_of_opp (n : Z) :
  _BertClassifier.warmup_steps_of (- n)
  = option_map Z.opp (_BertClassifier.warmup_steps_of n).
Proof.
  destruct (Z.eq_dec n 0) as [-> | Hn]; [reflexivity |].
  unfold _BertClassifier.warmup_steps_of, int_mul.
  rewrite (of_int_opp n Hn).
  destruct (of_int n) as [x |]; cbn [option_map]; [| reflexivity].
  rewrite mul_opp_tenth. apply to_int_opp.
Qed.

(** Below 2^52 in magnitude, the rounded product truncates to the quotient
    by ten, rounded toward zero. *)
Lemma warmup_steps_of_quot (n : Z) :
  Z.abs n < 2 ^ 52 -> _BertClassifier.warmup_steps_of n = Some (n ÷ 10).
Proof.
  intros H.
  destruct (Z_le_gt_dec 0 n) as [Hpos | Hneg].
  - rewrite warmup_steps_of_small by lia.
    rewrite Z.quot_div_nonneg by lia. reflexivity.
  - replace n with (- (- n)) by lia.
    rewrite warmup_steps_of_opp, warmup_steps_of_small by lia.
    cbn [option_map]. rewrite Z.quot_opp_l by lia.
    rewrite Z.quot_div_nonneg by lia. reflexivity.
Qed.

(** X6.  [warmup_steps = int(total_steps * 0.1)] in binary64: for every
    total of magnitude below 2^52, of either sign, the product rounded to a
    double and truncated by [int] is exactly the integer quotient of
    [total_steps] by ten, rounded toward zero; so the warm-up never has
    more than a tenth of the steps, and it has the sign of the total. *)
Theorem warmup_steps_truncate_toward_zero (total_steps : Z) :
  Z.abs total_steps < 2 ^ 52 ->
  exists warmup_steps,
    _BertClassifier.warmup_steps_of total_steps = Some warmup_steps
    /\ warmup_steps = total_steps ÷ 10
    /\ 10 * Z.abs warmup_steps <= Z.abs total_steps < 10 * Z.abs warmup_steps + 10
    /\ 0 <= warmup_steps * total_steps.
Proof.
  intros H. exists (total_steps ÷ 10).
  split; [apply warmup_steps_of_quot; exact H |].
  split; [reflexivity |].
  pose proof (Z.quot_rem' total_steps 10) as Hqr.
  destruct (Z_le_gt_dec 0 total_steps) as [Hpos | Hneg].
  - pose proof (Z.rem_bound_pos total_steps 10 Hpos ltac:(lia)) as Hr.
    assert (0 <= total_steps ÷ 10) by (apply Z.quot_pos; lia).
    split; [lia | nia].
  - pose proof (Z.rem_bound_pos_neg total_steps 10 ltac:(lia) ltac:(lia)) as Hr.
    assert (total_steps ÷ 10 <= 0).
    { rewrite <- (Z.opp_involutive total_steps), Z.quot_opp_l by lia.
      assert (0 <= (- total_steps) ÷ 10) by (apply Z.quot_pos; lia). lia. }
    split; [lia | nia].
Qed.

Lemma quot_ten_zero (n : Z) : (n ÷ 10 =? 0) = (Z.abs n <? 10).
Proof.
  destruct (Z.ltb_spec (Z.abs n) 10) as [H | H].
  - apply Z.eqb_eq. apply Z.quot_small_iff; lia.
  - apply Z.eqb_neq. intros E. apply Z.quot_small_iff in E; lia.
Qed.

End WarmupFacts.

Section OptimizerFacts.
Context {env : Environment}.
Local Open Scope Z_scope.

(** X7.  When the selector is [ADAMW] or [LAMB] and the total step count
    [steps_per_epoch * epochs] has magnitude below 2^52, [_create_optimizer]
    succeeds without touching the state, and the optimizer's schedule is
    the bare polynomial decay when the magnitude of the total is below ten
    (so [warmup_steps] is zero) and the decay wrapped in [WarmUp] with
    [total / 10] warm-up steps (rounded toward zero) from ten on. *)
Theorem warmup_wraps_schedule_from_ten_steps
        (self : Classifier) (h : hp.BertHParams)
        (train_data : preprocessor.ProcessedDataset) (s : state) :
  _hparams self = hp.Bert h ->
  hp.optimizer h = hp.ADAMW \/ hp.optimizer h = hp.LAMB ->
  Z.abs (total_steps_of h train_data) < 2 ^ 52 ->
  let total_steps := total_steps_of h train_data in
  let lr := hp.learning_rate (hp.base h) in
  let decay :=
    tf.PolynomialDecay lr total_steps (hp.end_learning_rate h) lit_1_0 in
  exists c opt,
    _BertClassifier._create_optimizer self train_data s = (Return c, s)
    /\ _optimizer c = Some opt
    /\ optimizer_schedule opt
       = Some (if Z.abs total_steps <? 10 then decay
               else tf.WarmUp lr decay (total_steps ÷ 10)).
Proof.
  intros Hh Hopt Hrange total_steps lr decay.
  rewrite (create_optimizer_run self h train_data (total_steps ÷ 10) s Hh
             (warmup_steps_of_quot _ Hrange)).
  unfold optimizer_outcome, lr_schedule_of. fold total_steps.
  rewrite quot_ten_zero.
  destruct Hopt as [-> | ->]; eexists _, _;
    (split; [reflexivity |]); (split; [reflexivity |]); reflexivity.
Qed.


End OptimizerFacts.

(** ** What a returned classifier looks like *)

Section ReturnedClassifier.
Context {env : Environment}.
Local Open Scope Z_scope.

(** Whenever [create] returns a classifier, the labels agree and one of the
    two family builders returned it, from the options with the defaults
    filled in. *)
Lemma create_returns_cases (train_data validation_data : text_ds.Dataset)
      (s0 s1 : state) (c : Classifier) :
  TextClassifier.create train_data validation_data s0 = (Return c, s1) ->
  text_ds.label_names train_data = text_ds.label_names validation_data
  /\ ((exists spec o h,
         value (supported_model (options s0)) = ms.AverageWordEmbedding spec
         /\ model_options (with_defaults (options s0))
            = Some (mo.AverageWordEmbedding o)
         /\ hparams (with_defaults (options s0)) = Some h
         /\ _AverageWordEmbeddingClassifier.create_average_word_embedding_classifier
              train_data validation_data (with_defaults (options s0))
              (after_defaults s0)
            = (Return c, s1))
      \/ (exists spec o h w,
            value (supported_model (options s0)) = ms.Bert spec
            /\ model_options (with_defaults (options s0)) = Some (mo.Bert o)
            /\ hparams (with_defaults (options s0)) = Some (hp.Bert h)
            /\ metrics_admissible
                 h (len_label_names (text_ds.label_names train_data))
            /\ _BertClassifier.warmup_steps_of
                 (total_steps_of
                    h (preprocessor.preprocess (bert_preprocessor spec o h)
                                               train_data))
               = Some w
            /\ (hp.optimizer h = hp.ADAMW \/ hp.optimizer h = hp.LAMB)
            /\ _BertClassifier.create_bert_classifier
                 train_data validation_data (with_defaults (options s0))
                 (after_defaults s0)
               = (Return c, s1))).
Proof.
  intros Hrun.
  destruct (list_eq_dec string_dec (text_ds.label_names train_data)
                        (text_ds.label_names validation_data)) as [Hl | Hne].
  2: { unfold TextClassifier.create in Hrun.
       rewrite (labels_differ_true _ _ Hne) in Hrun. discriminate Hrun. }
  split; [exact Hl |].
  pose proof (validate_pure (options s0) s0) as Hpure.
  destruct (_validate (options s0) s0) as [[[] | e] s'] eqn:Hv; cbn in Hpure; subst s'.
  2: { rewrite (create_validate_fails _ _ _ _ Hl Hv) in Hrun. discriminate Hrun. }
  rewrite (create_dispatch _ _ _ Hl Hv) in Hrun.
  destruct (with_defaults_some (options s0)) as [[hx Hh] [mx Hm]].
  destruct (value (supported_model (options s0))) as [aspec | bspec | ? ?] eqn:Hval.
  - left. destruct mx as [o | b].
    + exists aspec, o, hx. split; [reflexivity |].
      split; [exact Hm |]. split; [exact Hh | exact Hrun].
    + destruct (awe_factory_wrong_options train_data validation_data _ b hx
                  (after_defaults s0) Hm Hh) as (e & s' & Hrun').
      rewrite Hrun' in Hrun. discriminate Hrun.
  - right. destruct hx as [b | h].
    + destruct (bert_factory_wrong_hparams train_data validation_data _ b
                  (after_defaults s0) Hh) as (e & s' & Hrun').
      rewrite Hrun' in Hrun. discriminate Hrun.
    + destruct mx as [a | o].
      * destruct (bert_factory_wrong_options train_data validation_data
                    (with_defaults (options s0)) bspec a h
                    (after_defaults s0) Hval Hm Hh) as (e & s' & Hrun').
        rewrite Hrun' in Hrun. discriminate Hrun.
      * destruct (metrics_cases h (len_label_names (text_ds.label_names train_data)))
          as [Hadm | [Hn Ht]].
        2: { rewrite (bert_factory_rejects _ _ _ _ _ Hh Hn Ht) in Hrun.
             discriminate Hrun. }
        destruct (_BertClassifier.warmup_steps_of
                    (total_steps_of h
                       (preprocessor.preprocess (bert_preprocessor bspec o h)
                                                train_data))) as [w |] eqn:Hw.
        2: { destruct (bert_factory_overflow train_data validation_data
                         (with_defaults (options s0)) bspec o h
                         (after_defaults s0) Hval Hm Hh Hw) as (e & s' & Hrun').
             rewrite Hrun' in Hrun. discriminate Hrun. }
        exists bspec, o, h, w.
        split; [reflexivity |]. split; [exact Hm |]. split; [exact Hh |].
        split; [exact Hadm |]. split; [exact Hw |]. split; [| exact Hrun].
        pose proof (bert_factory_run train_data validation_data
                      (with_defaults (options s0)) bspec o h w
                      (after_defaults s0) Hval Hm Hh Hadm Hw) as Hrun'.
        cbv zeta in Hrun'.
        destruct (hp.optimizer h);
          [left; reflexivity | right; reflexivity |].
        rewrite Hrun' in Hrun. discriminate Hrun.
  - discriminate Hrun.
Qed.

(** X9.  Whenever [create] returns a classifier, of either family, the
    classifier carries the label names of the training data, and the output
    layer of its model has exactly one unit per label name. *)
Theorem output_layer_has_one_unit_per_label
        (train_data validation_data : text_ds.Dataset)
        (s0 s1 : state) (c : Classifier) :
  TextClassifier.create train_data validation_data s0 = (Return c, s1) ->
  _label_names c = text_ds.label_names train_data
  /\ exists m,
       _model c = Some m
       /\ output_units (architecture_of m)
          = Some (Z.of_nat (List.length (text_ds.label_names train_data))).
Proof.
  intros Hrun.
  destruct (create_returns_cases _ _ _ _ _ Hrun) as [_ [Hawe | Hbert]].
  - destruct Hawe as (aspec & o & h & _ & Hm & Hh & Hrun').
    destruct (awe_factory_run train_data validation_data _ o h (after_defaults s0)
                Hm Hh) as (c' & Hrun'' & _ & _ & Hmod & Hlab & _).
    rewrite Hrun'' in Hrun'. injection Hrun' as <- _.
    split; [exact Hlab |].
    eexists. split; [exact Hmod | reflexivity].
  - destruct Hbert as (spec & o & h & w & Hval & Hm & Hh & Hadm & Hw & Hopt & Hrun').
    pose proof (bert_factory_run train_data validation_data
                  (with_defaults (options s0)) spec o h w
                  (after_defaults s0) Hval Hm Hh Hadm Hw) as Hrun''.
    cbv zeta in Hrun''.
    destruct (hp.optimizer h);
      [| | destruct Hopt; discriminate];
      destruct Hrun'' as (c' & opt & Hrun'' & _ & _ & _ & Hmod & Hlab);
      rewrite Hrun'' in Hrun'; injection Hrun' as <- _;
      (split; [exact Hlab |]);
      eexists; (split; [exact Hmod | reflexivity]).
Qed.

End ReturnedClassifier.

(** ** Training comes last *)

Section TrainingOrder.
Context {env : Environment}.
Local Open Scope Z_scope.

Lemma no_training_app (t u : list event) :
  no_training t -> no_training u -> no_training (t ++ u).
Proof.
  unfold no_training. intros Ht Hu. rewrite existsb_app, Ht, Hu. reflexivity.
Qed.

Lemma never_trains_ret {A : Type} (a : A) : never_trains (ret a).
Proof.
  intros s. exists []. split; [cbn; rewrite app_nil_r; reflexivity | reflexivity].
Qed.

Lemma never_trains_raise {A : Type} (e : exn) : never_trains (@raise env A e).
Proof.
  intros s. exists []. split; [cbn; rewrite app_nil_r; reflexivity | reflexivity].
Qed.

Lemma never_trains_get_options : never_trains get_options.
Proof.
  intros s. exists []. split; [cbn; rewrite app_nil_r; reflexivity | reflexivity].
Qed.

Lemma never_trains_put_options (o : TextClassifierOptions) :
  never_trains (put_options o).
Proof.
  intros s. exists []. split; [cbn; rewrite app_nil_r; reflexivity | reflexivity].
Qed.

Lemma never_trains_emit (e : event) :
  is_training_event e = false -> never_trains (emit e).
Proof.
  intros He s. exists [e]. split; [reflexivity |].
  unfold no_training. cbn. rewrite He. reflexivity.
Qed.

Lemma never_trains_bind {A B : Type} (m : M A) (k : A -> M B) :
  never_trains m -> (forall a, never_trains (k a)) -> never_trains (bind m k).
Proof.
  intros Hm Hk s. unfold bind.
  destruct (Hm s) as (t & Ht & Pt).
  destruct (m s) as [[a | e] s']; cbn in Ht.
  - destruct (Hk a s') as (u & Hu & Pu).
    exists (t ++ u). split; [rewrite Hu, Ht, app_assoc; reflexivity |].
    apply no_training_app; assumption.
  - exists t. split; [exact Ht | exact Pt].
Qed.

Lemma never_trains_with_strategy_scope {A : Type} (body : M A) :
  never_trains body -> never_trains (with_strategy_scope body).
Proof.
  intros Hb s. unfold with_strategy_scope, bind, emit.
  destruct (Hb {| options := options s;
                  trace := trace s ++ [EvStrategyScopeEnter] |})
    as (t & Ht & Pt).
  destruct (body _) as [r s']; cbn in Ht.
  exists (EvStrategyScopeEnter :: t ++ [EvStrategyScopeExit]).
  split.
  - destruct r; cbn; rewrite Ht, <- !app_assoc; reflexivity.
  - change (no_training ([EvStrategyScopeEnter] ++ t ++ [EvStrategyScopeExit])).
    apply no_training_app; [reflexivity |].
    apply no_training_app; [exact Pt | reflexivity].
Qed.

Lemma trains_last_raise {A : Type} (e : exn) : trains_last (@raise env A e).
Proof.
  intros s. cbn. exists []. split; [rewrite app_nil_r; reflexivity | reflexivity].
Qed.

Lemma trains_last_bind {A B : Type} (m : M A) (k : A -> M B) :
  never_trains m -> (forall a, trains_last (k a)) -> trains_last (bind m k).
Proof.
  intros Hm Hk s. unfold bind.
  destruct (Hm s) as (t & Ht & Pt).
  destruct (m s) as [[a | e] s']; cbn in Ht.
  - specialize (Hk a s').
    destruct (k a s') as [[b | e] s''].
    + destruct Hk as (before & ev & Hu & Pb & Pe).
      exists (t ++ before), ev.
      split; [rewrite Hu, Ht, <- !app_assoc; reflexivity |].
      split; [apply no_training_app; assumption | exact Pe].
    + destruct Hk as (u & Hu & Pu).
      exists (t ++ u). split; [rewrite Hu, Ht, app_assoc; reflexivity |].
      apply no_training_app; assumption.
  - exists t. split; [exact Ht | exact Pt].
Qed.

End TrainingOrder.

Ltac never_trains_step :=
  lazymatch goal with
  | |- never_trains (bind _ _) => apply never_trains_bind; [| intros ?]
  | |- never_trains (ret _) => apply never_trains_ret
  | |- never_trains (raise _) => apply never_trains_raise
  | |- never_trains (emit _) => apply never_trains_emit; reflexivity
  | |- never_trains get_options => apply never_trains_get_options
  | |- never_trains (put_options _) => apply never_trains_put_options
  | |- never_trains (with_strategy_scope _) =>
      apply never_trains_with_strategy_scope
  | |- never_trains (match ?x with _ => _ end) => destruct x
  end.

Section TrainingLast.
Context {env : Environment}.
Local Open Scope Z_scope.

Lemma never_trains_validate (opts : TextClassifierOptions) :
  never_trains (_validate opts).
Proof. unfold _validate. repeat never_trains_step. Qed.

Lemma never_trains_run_preprocess
      (p : option preprocessor.TextClassifierPreprocessor) (d : text_ds.Dataset) :
  never_trains (run_preprocess p d).
Proof. unfold run_preprocess. repeat never_trains_step. Qed.

Lemma never_trains_awe_init (spec : ms.ModelSpec)
      (mopts : option mo.TextClassifierModelOptions) (h : hp.HParams)
      (labels : list string) :
  never_trains (_AverageWordEmbeddingClassifier.__init__ spec mopts h labels).
Proof.
  unfold _AverageWordEmbeddingClassifier.__init__, get_default_callbacks.
  repeat never_trains_step.
Qed.

Lemma never_trains_bert_init (spec : ms.ModelSpec)
      (mopts : option mo.TextClassifierModelOptions) (h : hp.HParams)
      (labels : list string) :
  never_trains (_BertClassifier.__init__ spec mopts h labels).
Proof.
  unfold _BertClassifier.__init__, _BertClassifier._create_metrics,
    get_default_callbacks.
  repeat never_trains_step.
Qed.

Lemma never_trains_awe_preprocessing (self : Classifier)
      (train_data validation_data : text_ds.Dataset) :
  never_trains (_AverageWordEmbeddingClassifier._load_and_run_preprocessor
                  self train_data validation_data).
Proof.
  unfold _AverageWordEmbeddingClassifier._load_and_run_preprocessor.
  repeat first [apply never_trains_run_preprocess | never_trains_step].
Qed.

Lemma never_trains_bert_preprocessing (self : Classifier)
      (train_data validation_data : text_ds.Dataset) :
  never_trains (_BertClassifier._load_and_run_preprocessor
                  self train_data validation_data).
Proof.
  unfold _BertClassifier._load_and_run_preprocessor, _BertClassifier.get_path.
  repeat first [apply never_trains_run_preprocess | never_trains_step].
Qed.

Lemma never_trains_awe_create_model (self : Classifier) :
  never_trains (_AverageWordEmbeddingClassifier._create_model self).
Proof.
  unfold _AverageWordEmbeddingClassifier._create_model.
  repeat never_trains_step.
Qed.

Lemma never_trains_bert_create_model (self : Classifier) :
  never_trains (_BertClassifier._create_model self).
Proof.
  unfold _BertClassifier._create_model, _BertClassifier.get_path.
  repeat never_trains_step.
Qed.

Lemma never_trains_create_optimizer (self : Classifier)
      (train_data : preprocessor.ProcessedDataset) :
  never_trains (_BertClassifier._create_optimizer self train_data).
Proof.
  unfold _BertClassifier._create_optimizer.
  repeat never_trains_step.
Qed.

Lemma trains_last_train_model (self : Classifier)
      (train_data validation_data : preprocessor.ProcessedDataset) :
  trains_last (_train_model self train_data validation_data).
Proof.
  intros s. unfold _train_model.
  destruct (_model self) as [m |]; [destruct (_optimizer self) as [o |] |]; cbn.
  - eexists [], _. split; [reflexivity |]. split; reflexivity.
  - exists []. split; [rewrite app_nil_r; reflexivity | reflexivity].
  - exists []. split; [rewrite app_nil_r; reflexivity | reflexivity].
Qed.

Lemma trains_last_awe_factory (train_data validation_data : text_ds.Dataset)
      (opts : TextClassifierOptions) :
  trains_last
    (_AverageWordEmbeddingClassifier.create_average_word_embedding_classifier
       train_data validation_data opts).
Proof.
  unfold _AverageWordEmbeddingClassifier.create_average_word_embedding_classifier,
    _AverageWordEmbeddingClassifier._create_and_train_model.
  destruct (hparams opts) as [h |]; [| apply trains_last_raise].
  apply trains_last_bind; [apply never_trains_awe_init | intros c].
  apply trains_last_bind; [apply never_trains_awe_preprocessing | intros r].
  destruct r as [self [ptrain pval]].
  apply trains_last_bind; [apply never_trains_awe_create_model | intros c'].
  apply trains_last_train_model.
Qed.

Lemma trains_last_bert_factory (train_data validation_data : text_ds.Dataset)
      (opts : TextClassifierOptions) :
  trains_last
    (_BertClassifier.create_bert_classifier train_data validation_data opts).
Proof.
  unfold _BertClassifier.create_bert_classifier,
    _BertClassifier._create_and_train_model.
  destruct (hparams opts) as [h |]; [| apply trains_last_raise].
  apply trains_last_bind; [apply never_trains_bert_init | intros c].
  apply trains_last_bind; [apply never_trains_bert_preprocessing | intros r].
  destruct r as [self [ptrain pval]].
  apply trains_last_bind; [| intros c'; apply trains_last_train_model].
  apply never_trains_with_strategy_scope.
  apply never_trains_bind; [apply never_trains_bert_create_model | intros c'].
  apply never_trains_create_optimizer.
Qed.

(** X20.  [create] trains at most once, and only as its very last step.  A
    run that returns a classifier has made exactly one training call, and
    that call is its last event; a run that raises, whatever the error, has
    made none: every error of this file is raised before the training loop
    is entered. *)
Theorem create_trains_last_or_not_at_all
        (train_data validation_data : text_ds.Dataset) (s : state) :
  match TextClassifier.create train_data validation_data s with
  | (Return _, s1) =>
      exists before e,
        trace s1 = trace s ++ before ++ [e]
        /\ no_training before
        /\ is_training_event e = true
  | (Raise _, s1) =>
      exists t, trace s1 = trace s ++ t /\ no_training t
  end.
Proof.
  revert s. change (trains_last (TextClassifier.create train_data validation_data)).
  unfold TextClassifier.create.
  destruct (TextClassifier.labels_differ _ _); [apply trains_last_raise |].
  apply trains_last_bind; [apply never_trains_get_options | intros o1].
  apply trains_last_bind; [apply never_trains_validate | intros []].
  apply trains_last_bind; [repeat never_trains_step | intros []].
  apply trains_last_bind; [apply never_trains_get_options | intros o2].
  apply trains_last_bind; [repeat never_trains_step | intros []].
  apply trains_last_bind; [apply never_trains_get_options | intros o3].
  destruct (value (supported_model o3)).
  - apply trains_last_awe_factory.
  - apply trains_last_bert_factory.
  - apply trains_last_raise.
Qed.

End TrainingLast.

(** ** The caller's options *)

Section CallersOptions.
Context {env : Environment}.
Local Open Scope Z_scope.

Lemma awe_factory_options (train_data validation_data : text_ds.Dataset)
      (opts : TextClassifierOptions) (o : mo.AverageWordEmbeddingModelOptions)
      (h : hp.HParams) (s s1 : state) (c : Classifier) :
  model_options opts = Some (mo.AverageWordEmbedding o) ->
  hparams opts = Some h ->
  _AverageWordEmbeddingClassifier.create_average_word_embedding_classifier
    train_data validation_data opts s = (Return c, s1) ->
  _model_options c = Some (mo.AverageWordEmbedding o)
  /\ _model_spec c = value (supported_model opts)
  /\ options s1 = options s.
Proof.
  intros Hm Hh Hrun.
  unfold _AverageWordEmbeddingClassifier.create_average_word_embedding_classifier
    in Hrun.
  rewrite Hh, Hm in Hrun.
  cbv [bind _AverageWordEmbeddingClassifier.__init__ get_default_callbacks emit ret
       _AverageWordEmbeddingClassifier._create_and_train_model
       _AverageWordEmbeddingClassifier._load_and_run_preprocessor
       _AverageWordEmbeddingClassifier._create_model
       _train_model run_preprocess set_text_preprocessor set_model set_optimizer
       _model_options _text_preprocessor _model _optimizer options trace log]
    in Hrun.
  cbn in Hrun. injection Hrun as <- <-. repeat split.
Qed.

Lemma bert_factory_options (train_data validation_data : text_ds.Dataset)
      (opts : TextClassifierOptions) (spec : ms.BertClassifierSpec)
      (o : mo.BertModelOptions) (h : hp.BertHParams) (w : Z)
      (s s1 : state) (c : Classifier) :
  value (supported_model opts) = ms.Bert spec ->
  model_options opts = Some (mo.Bert o) ->
  hparams opts = Some (hp.Bert h) ->
  metrics_admissible h (len_label_names (text_ds.label_names train_data)) ->
  _BertClassifier.warmup_steps_of
    (total_steps_of h (preprocessor.preprocess (bert_preprocessor spec o h)
                                               train_data)) = Some w ->
  _BertClassifier.create_bert_classifier train_data validation_data opts s
  = (Return c, s1) ->
  options s1 = options s.
Proof.
  intros Hv Hm Hh Hadm Hw Hrun.
  pose proof (bert_factory_run train_data validation_data opts spec o h w s
                Hv Hm Hh Hadm Hw) as Hrun'.
  cbv zeta in Hrun'.
  destruct (hp.optimizer h);
    try (rewrite Hrun' in Hrun; discriminate Hrun);
    destruct Hrun' as (c' & opt & Hrun' & _);
    rewrite Hrun' in Hrun; injection Hrun as _ <-; reflexivity.
Qed.

(** X21.  [create] fills in the caller's options object in place.  After
    every run that returns a classifier, the options object names the same
    model as before, its [model_options] and [hparams] are both set, a
    [model_options] the caller gave is the one it still holds (otherwise it
    holds the default of the selected specification), and the classifier
    was built from exactly that object: it holds the same model options and
    the specification of the selected model. *)
Theorem create_fills_in_the_callers_options
        (train_data validation_data : text_ds.Dataset)
        (s0 s1 : state) (c : Classifier) :
  TextClassifier.create train_data validation_data s0 = (Return c, s1) ->
  supported_model (options s1) = supported_model (options s0)
  /\ model_options (options s1)
     = Some (match model_options (options s0) with
             | Some given => given
             | None => ms.spec_model_options (value (supported_model (options s0)))
             end)
  /\ hparams (options s1) <> None
  /\ _model_options c = model_options (options s1)
  /\ _model_spec c = value (supported_model (options s1)).
Proof.
  intros Hrun.
  assert (Hmo : model_options (with_defaults (options s0))
                = Some (match model_options (options s0) with
                        | Some given => given
                        | None => ms.spec_model_options
                                    (value (supported_model (options s0)))
                        end)).
  { unfold with_defaults. cbn. destruct (model_options (options s0)); reflexivity. }
  assert (Hhp : hparams (with_defaults (options s0)) <> None).
  { unfold with_defaults. cbn. destruct (hparams (options s0)); discriminate. }
  destruct (create_returns_cases _ _ _ _ _ Hrun) as [_ [Hawe | Hbert]].
  - destruct Hawe as (aspec & o & h & Hval & Hm & Hh & Hrun').
    destruct (awe_factory_options _ _ _ _ _ _ _ _ Hm Hh Hrun') as (Ho & Hs & Hopt).
    rewrite Hopt. cbn [after_defaults options].
    split; [reflexivity |]. split; [exact Hmo |]. split; [exact Hhp |].
    split; [rewrite Ho, Hm; reflexivity | exact Hs].
  - destruct Hbert as (spec & o & h & w & Hval & Hm & Hh & Hadm & Hw & _ & Hrun').
    pose proof (bert_factory_options train_data validation_data
                  (with_defaults (options s0)) spec o h w (after_defaults s0) s1 c
                  Hval Hm Hh Hadm Hw Hrun') as Hopt.
    rewrite Hopt. cbn [after_defaults options].
    split; [reflexivity |]. split; [exact Hmo |]. split; [exact Hhp |].
    unfold _BertClassifier.create_bert_classifier in Hrun'.
    rewrite Hh in Hrun'. unfold bind in Hrun'.
    rewrite (bert_init_accepts _ _ _ _ _ Hadm) in Hrun'.
    unfold _BertClassifier._create_and_train_model,
      _BertClassifier._load_and_run_preprocessor, _BertClassifier._create_model,
      _BertClassifier.get_path, with_strategy_scope, run_preprocess in Hrun'.
    cbn -[_BertClassifier._create_optimizer _train_model with_defaults] in Hrun'.
    rewrite Hm in Hrun'.
    change (value (supported_model (with_defaults (options s0))))
      with (value (supported_model (options s0))) in Hrun'.
    rewrite Hval in Hrun'.
    cbn -[_BertClassifier._create_optimizer _train_model with_defaults] in Hrun'.
    unfold bind at 1 in Hrun'.
    cbn -[_BertClassifier._create_optimizer _train_model with_defaults] in Hrun'.
    match type of Hrun' with
    | context [_BertClassifier._create_optimizer ?self ?td ?st] =>
        rewrite (create_optimizer_run self h td w st eq_refl Hw) in Hrun'
    end.
    unfold optimizer_outcome in Hrun'.
    destruct (hp.optimizer h); cbn -[with_defaults] in Hrun';
      [| | discriminate Hrun'];
      injection Hrun' as <- _; cbn -[with_defaults];
      (split; [rewrite Hm; reflexivity | symmetry; exact Hval]).
Qed.

End CallersOptions.

(** ** Saving and exporting *)

Section ExportFacts.
Context {xenv : ExportEnvironment}.
Local Open Scope Z_scope.

Lemma files_after_app (fs : store) (cs ds : list io.call) :
  files_after fs (cs ++ ds) = files_after (files_after fs cs) ds.
Proof. apply fold_left_app. Qed.

(** The metadata writer [export_model] makes for an embedding classifier. *)
Lemma export_model_embedding_run
      (self : Classifier) (m : KerasModel)
      (p : preprocessor.AverageWordEmbeddingClassifierPreprocessor)
      (model_name : string) (quantization_config : option QuantizationConfig)
      (w : io.world) :
  _model self = Some m ->
  _text_preprocessor self = Some (preprocessor.AverageWordEmbedding p) ->
  let d := export_dir_of self in
  let saved_model_file := path_join d "saved_model" in
  let vocab_filepath := path_join (temp_dir (io.temp_dirs w)) "vocab.txt" in
  let writer :=
    io.create_for_regex_model
      (io.Converted saved_model_file quantization_config None)
      (io.RegexTokenizer "[^\w\']+" vocab_filepath)
      [_label_names self] in
  TextClassifier.export_model _AverageWordEmbeddingClassifier.methods
                              self model_name quantization_config w
  = (io.Ok tt,
     {| io.calls :=
          io.calls w ++
            [ io.Makedirs d;
              io.Makedirs d;
              io.ModelSave m saved_model_file false "tf";
              io.ConvertToTflite saved_model_file quantization_config None;
              io.Mkdtemp (temp_dir (io.temp_dirs w));
              io.GFileWrite vocab_filepath
                            (map _AverageWordEmbeddingClassifier.vocab_line
                                 (get_vocab p));
              io.Populate writer;
              io.SaveTflite (io.Populated writer) (path_join d model_name);
              io.GFileWrite (path_join d "metadata.json")
                            [io.MetadataJson writer] ];
        io.temp_dirs := S (io.temp_dirs w) |}).
Proof.
  intros Hm Hp d saved_model_file vocab_filepath writer.
  unfold TextClassifier.export_model, TextClassifier.save_model, io.model_save,
    io.makedirs, io.convert_to_tflite_from_file, io.mkdtemp, io.populate,
    io.save_tflite.
  cbn [io._save_vocab io._get_metadata_writer
       _AverageWordEmbeddingClassifier.methods].
  unfold _AverageWordEmbeddingClassifier._save_vocab,
    _AverageWordEmbeddingClassifier._get_metadata_writer.
  rewrite Hm, Hp.
  unfold io.bind, io.emit, io.ret. cbn.
  rewrite <- !app_assoc. reflexivity.
Qed.

Lemma NoDup_four (a b c d : string) :
  NoDup [a; b; c; d] ->
  a <> b /\ a <> c /\ a <> d /\ b <> c /\ b <> d /\ c <> d.
Proof.
  intros H.
  inversion H as [| ? ? Ha H1]; subst.
  inversion H1 as [| ? ? Hb H2]; subst.
  inversion H2 as [| ? ? Hc H3]; subst.
  cbn in Ha, Hb, Hc. intuition congruence.
Qed.

End ExportFacts.

(** Decides the path comparisons of a goal, using the distinctness facts
    at hand. *)
Ltac path_cases :=
  repeat match goal with
         | |- context [String.eqb ?a ?b] =>
             destruct (String.eqb_spec a b); try congruence
         end.

Section ExportTheorems.
Context {xenv : ExportEnvironment}.
Local Open Scope Z_scope.

(** X10.  [export_model] on an embedding classifier that holds a model and
    a preprocessor with a non-empty vocabulary succeeds.  If the saved-model
    directory, the temporary vocabulary file, the TFLite file and the
    metadata file are four different paths, then afterwards: the
    saved-model path holds the
    classifier's model, saved without its optimizer in the "tf" format; the
    vocabulary file holds one write per vocabulary entry; the TFLite file
    holds the converted model with the metadata populated; the metadata
    file holds the metadata JSON of the same writer; and every other path
    holds what it held before. *)
Theorem export_model_writes_four_files
        (self : Classifier) (m : KerasModel)
        (p : preprocessor.AverageWordEmbeddingClassifierPreprocessor)
        (model_name : string) (quantization_config : option QuantizationConfig)
        (w : io.world) :
  _model self = Some m ->
  _text_preprocessor self = Some (preprocessor.AverageWordEmbedding p) ->
  get_vocab p <> [] ->
  let d := export_dir_of self in
  let saved_model_file := path_join d "saved_model" in
  let vocab_filepath := path_join (temp_dir (io.temp_dirs w)) "vocab.txt" in
  let tflite_file := path_join d model_name in
  let metadata_file := path_join d "metadata.json" in
  NoDup [saved_model_file; vocab_filepath; tflite_file; metadata_file] ->
  exists cs writer,
    adds (TextClassifier.export_model _AverageWordEmbeddingClassifier.methods
                                      self model_name quantization_config)
         w (io.Ok tt) cs
    /\ writer
       = io.create_for_regex_model
           (io.Converted saved_model_file quantization_config None)
           (io.RegexTokenizer _AverageWordEmbeddingClassifier._DELIM_REGEX_PATTERN
                              vocab_filepath)
           [_label_names self]
    /\ forall fs : store,
         files_after fs cs saved_model_file = Some (SavedModel m false "tf")
         /\ files_after fs cs vocab_filepath
            = Some (TextFile (map _AverageWordEmbeddingClassifier.vocab_line
                                  (get_vocab p)))
         /\ files_after fs cs tflite_file
            = Some (TfliteFile (io.Populated writer))
         /\ files_after fs cs metadata_file
            = Some (TextFile [io.MetadataJson writer])
         /\ forall q,
              ~ In q [saved_model_file; vocab_filepath; tflite_file;
                      metadata_file] ->
              files_after fs cs q = fs q.
Proof.
  intros Hm Hp Hv d saved_model_file vocab_filepath tflite_file metadata_file Hnd.
  destruct (NoDup_four _ _ _ _ Hnd) as (H1 & H2 & H3 & H4 & H5 & H6).
  eexists _, _. split.
  - exists (S (io.temp_dirs w)).
    apply (export_model_embedding_run self m p model_name quantization_config w
             Hm Hp).
  - split; [reflexivity |].
    intros fs. fold d saved_model_file vocab_filepath tflite_file metadata_file.
    destruct (get_vocab p) as [| item items]; [contradiction |].
    cbn [files_after fold_left after_call map]. unfold update.
    repeat split; try (intros q Hq; cbn in Hq); path_cases; try reflexivity;
      exfalso; apply Hq; auto 6.
Qed.



(** X13.  [export_model] on an encoder classifier whose specification
    names the three inputs "ids", "mask" and "segment_ids" succeeds: the
    vocabulary file of the preprocessor is copied, overwriting, to
    "vocab.txt" in a new temporary directory; the metadata writer is made
    for a BERT model, over the conversion of the saved model, with a
    [BertTokenizer] on that copy, the classifier's label names, and the
    three input names of the specification. *)
Theorem export_model_of_an_encoder_classifier
        (self : Classifier) (m : KerasModel) (spec : ms.BertClassifierSpec)
        (p : preprocessor.BertClassifierPreprocessor)
        (ids_name mask_name segment_name : string)
        (model_name : string) (quantization_config : option QuantizationConfig)
        (w : io.world) :
  _model self = Some m ->
  _text_preprocessor self = Some (preprocessor.Bert p) ->
  _model_spec self = ms.Bert spec ->
  tflite_input_name spec "ids" = Some ids_name ->
  tflite_input_name spec "mask" = Some mask_name ->
  tflite_input_name spec "segment_ids" = Some segment_name ->
  let d := export_dir_of self in
  let saved_model_file := path_join d "saved_model" in
  let vocab_filepath := path_join (temp_dir (io.temp_dirs w)) "vocab.txt" in
  let writer :=
    io.create_for_bert_model
      (io.Converted saved_model_file quantization_config None)
      (io.BertTokenizer vocab_filepath)
      [_label_names self] ids_name mask_name segment_name in
  adds (TextClassifier.export_model _BertClassifier.methods
                                    self model_name quantization_config)
       w (io.Ok tt)
       [ io.Makedirs d;
         io.Makedirs d;
         io.ModelSave m saved_model_file false "tf";
         io.ConvertToTflite saved_model_file quantization_config None;
         io.Mkdtemp (temp_dir (io.temp_dirs w));
         io.Copy (get_vocab_file p) vocab_filepath true;
         io.Populate writer;
         io.SaveTflite (io.Populated writer) (path_join d model_name);
         io.GFileWrite (path_join d "metadata.json") [io.MetadataJson writer] ].
Proof.
  intros Hm Hp Hs Hi Hk Hg d saved_model_file vocab_filepath writer.
  exists (S (io.temp_dirs w)).
  unfold TextClassifier.export_model, TextClassifier.save_model, io.model_save,
    io.makedirs, io.convert_to_tflite_from_file, io.mkdtemp, io.populate,
    io.save_tflite.
  cbn [io._save_vocab io._get_metadata_writer _BertClassifier.methods].
  unfold _BertClassifier._save_vocab, _BertClassifier._get_metadata_writer,
    _BertClassifier.preprocessor_vocab_file, _BertClassifier.input_name.
  rewrite Hm, Hp, Hs, Hi, Hk, Hg.
  unfold io.bind, io.emit, io.ret. cbn.
  rewrite <- !app_assoc. reflexivity.
Qed.

(** X14.  When the specification of an encoder classifier lacks one of the
    input names, [export_model] fails with the [KeyError] of the first
    missing key, in the order "ids", "mask", "segment_ids".  It fails late:
    the directory was made, the model saved and converted and the
    vocabulary copied, but no metadata is populated, and neither the TFLite
    file nor the metadata file is written. *)
Theorem export_model_fails_late_on_a_missing_input_name
        (self : Classifier) (m : KerasModel) (spec : ms.BertClassifierSpec)
        (p : preprocessor.BertClassifierPreprocessor) (key : string)
        (model_name : string) (quantization_config : option QuantizationConfig)
        (w : io.world) :
  _model self = Some m ->
  _text_preprocessor self = Some (preprocessor.Bert p) ->
  _model_spec self = ms.Bert spec ->
  find (fun k => match tflite_input_name spec k with
                 | None => true
                 | Some _ => false
                 end)
       ["ids"; "mask"; "segment_ids"]
  = Some key ->
  let d := export_dir_of self in
  let saved_model_file := path_join d "saved_model" in
  adds (TextClassifier.export_model _BertClassifier.methods
                                    self model_name quantization_config)
       w (io.Failed (io.KeyError key))
       [ io.Makedirs d;
         io.Makedirs d;
         io.ModelSave m saved_model_file false "tf";
         io.ConvertToTflite saved_model_file quantization_config None;
         io.Mkdtemp (temp_dir (io.temp_dirs w));
         io.Copy (get_vocab_file p)
                 (path_join (temp_dir (io.temp_dirs w)) "vocab.txt") true ].
Proof.
  intros Hm Hp Hs Hfind d saved_model_file.
  exists (S (io.temp_dirs w)).
  unfold TextClassifier.export_model, TextClassifier.save_model, io.model_save,
    io.makedirs, io.convert_to_tflite_from_file, io.mkdtemp, io.populate,
    io.save_tflite.
  cbn [io._save_vocab io._get_metadata_writer _BertClassifier.methods].
  unfold _BertClassifier._save_vocab, _BertClassifier._get_metadata_writer,
    _BertClassifier.preprocessor_vocab_file, _BertClassifier.input_name.
  rewrite Hm, Hp, Hs.
  cbn [find] in Hfind.
  destruct (tflite_input_name spec "ids") as [i |].
  - destruct (tflite_input_name spec "mask") as [k |].
    + destruct (tflite_input_name spec "segment_ids") as [g |];
        [discriminate Hfind |].
      injection Hfind as <-.
      unfold io.bind, io.emit, io.ret, io.raise. cbn.
      rewrite <- !app_assoc. reflexivity.
    + injection Hfind as <-.
      unfold io.bind, io.emit, io.ret, io.raise. cbn.
      rewrite <- !app_assoc. reflexivity.
  - injection Hfind as <-.
    unfold io.bind, io.emit, io.ret, io.raise. cbn.
    rewrite <- !app_assoc. reflexivity.
Qed.

(** X15.  Neither [save_model] nor [export_model] writes anything for a
    classifier that holds no model: both make the export directory and then
    fail with the [AttributeError] of [self._model.save]; no model is
    saved or converted and no file is written. *)
Theorem saving_without_a_model_fails_after_makedirs
        (cls : io.Subclass) (self : Classifier) (model_name : string)
        (quantization_config : option QuantizationConfig) (w : io.world) :
  _model self = None ->
  let d := export_dir_of self in
  let e := io.AttributeError "'NoneType' object has no attribute 'save'" in
  adds (TextClassifier.save_model self model_name) w (io.Failed e)
       [io.Makedirs d]
  /\ adds (TextClassifier.export_model cls self model_name quantization_config)
          w (io.Failed e) [io.Makedirs d; io.Makedirs d].
Proof.
  intros Hm d e.
  split; exists (io.temp_dirs w);
    unfold TextClassifier.export_model, TextClassifier.save_model, io.model_save,
      io.makedirs;
    rewrite Hm; unfold io.bind, io.emit, io.raise; cbn;
    rewrite <- ?app_assoc; reflexivity.
Qed.

(** The calls of [export_model_with_tokenizer] on an encoder classifier. *)
Lemma export_model_with_tokenizer_run
      (self : Classifier) (spec : ms.BertClassifierSpec)
      (o : mo.TextClassifierModelOptions) (h : hp.BertHParams)
      (p : preprocessor.BertClassifierPreprocessor)
      (model_name : string) (quantization_config : option QuantizationConfig)
      (w : io.world) :
  _hparams self = hp.Bert h ->
  _text_preprocessor self = Some (preprocessor.Bert p) ->
  _model_spec self = ms.Bert spec ->
  _model_options self = Some o ->
  let d := hp.export_dir (hp.base h) in
  let saved_model_file := path_join d "saved_model_with_tokenizer" in
  let fast := _BertClassifier.is_FAST_BERT_TOKENIZER (hp.tokenizer h) in
  let tokenizer :=
    if fast then io.tokenizer_of p
    else io.BertFastTokenizer (get_vocab_file p) (ms.do_lower_case spec)
                              (seq_len_of o) in
  adds (_BertClassifier.export_model_with_tokenizer
          self model_name quantization_config)
       w (io.Ok tt)
       ([io.Makedirs d]
          ++ (if fast then []
              else [io.Print (_BertClassifier.tokenizer_warning (hp.tokenizer h))])
          ++ [ io.ModelWithTokenizerSave
                 (io.Called (io.new_ModelWithTokenizer tokenizer (_model self))
                            ["Example input data"])
                 saved_model_file;
               io.ConvertToTflite saved_model_file quantization_config
                                  (Some true);
               io.SaveTflite
                 (io.Converted saved_model_file quantization_config (Some true))
                 (path_join d model_name) ]).
Proof.
  intros Hh Hp Hs Ho d saved_model_file fast tokenizer.
  exists (io.temp_dirs w).
  unfold _BertClassifier.export_model_with_tokenizer,
    _BertClassifier.export_tokenizer, _BertClassifier.preprocessor_vocab_file,
    io.makedirs, io.convert_to_tflite_from_file, io.save_tflite, io.print,
    export_dir_of.
  rewrite Hh, Hp, Hs, Ho. cbn [hp.base_of].
  subst tokenizer fast.
  destruct (_BertClassifier.is_FAST_BERT_TOKENIZER (hp.tokenizer h));
    unfold io.bind, io.emit, io.ret; cbn;
    rewrite <- !app_assoc; reflexivity.
Qed.

(** X16.  [export_model_with_tokenizer] on an encoder classifier that holds
    a preprocessor succeeds, and it prints its warning exactly when the
    classifier was not trained with [FAST_BERT_TOKENIZER].  In that case it
    puts a new [BertFastTokenizer] into the graph, made from the
    preprocessor's vocabulary file, the specification's [do_lower_case] and
    the [seq_len] of the model options; otherwise it reuses the
    preprocessor's tokenizer.  The TFLite file it saves is the conversion
    with custom operations allowed, without metadata; no metadata is
    populated and, apart from the two saves, no file is written. *)
Theorem export_with_tokenizer_warns_unless_trained_fast
        (self : Classifier) (spec : ms.BertClassifierSpec)
        (o : mo.TextClassifierModelOptions) (h : hp.BertHParams)
        (p : preprocessor.BertClassifierPreprocessor)
        (model_name : string) (quantization_config : option QuantizationConfig)
        (w : io.world) :
  _hparams self = hp.Bert h ->
  _text_preprocessor self = Some (preprocessor.Bert p) ->
  _model_spec self = ms.Bert spec ->
  _model_options self = Some o ->
  let d := hp.export_dir (hp.base h) in
  let saved_model_file := path_join d "saved_model_with_tokenizer" in
  exists cs tokenizer,
    adds (_BertClassifier.export_model_with_tokenizer
            self model_name quantization_config)
         w (io.Ok tt) cs
    /\ (hp.tokenizer h = hp.FAST_BERT_TOKENIZER ->
        tokenizer = io.tokenizer_of p /\ filter is_print cs = [])
    /\ (hp.tokenizer h <> hp.FAST_BERT_TOKENIZER ->
        tokenizer = io.BertFastTokenizer (get_vocab_file p)
                                         (ms.do_lower_case spec) (seq_len_of o)
        /\ filter is_print cs
           = [io.Print (_BertClassifier.tokenizer_warning (hp.tokenizer h))])
    /\ filter is_write cs
       = [ io.ModelWithTokenizerSave
             (io.Called (io.new_ModelWithTokenizer tokenizer (_model self))
                        ["Example input data"])
             saved_model_file;
           io.SaveTflite
             (io.Converted saved_model_file quantization_config (Some true))
             (path_join d model_name) ]
    /\ (forall x, ~ In (io.Populate x) cs).
Proof.
  intros Hh Hp Hs Ho d saved_model_file.
  pose proof (export_model_with_tokenizer_run self spec o h p model_name
                quantization_config w Hh Hp Hs Ho) as Hrun.
  cbv zeta in Hrun.
  destruct (hp.tokenizer h); cbn in Hrun;
    (eexists _, _; split; [exact Hrun |]); cbn.
  - split; [intros E; discriminate E |].
    split; [intros _; split; reflexivity |].
    split; [reflexivity |].
    intros x Hx. intuition discriminate.
  - split; [intros _; split; reflexivity |].
    split; [intros E; contradiction |].
    split; [reflexivity |].
    intros x Hx. intuition discriminate.
Qed.

End ExportTheorems.

(** ** Exporting what [create] returned *)

Section ExportAfterCreate.
Context {env : Environment} {xenv : ExportEnvironment}.
Local Open Scope Z_scope.

(** The attributes of the classifier that the encoder builder returns. *)
Lemma bert_factory_attributes (train_data validation_data : text_ds.Dataset)
      (opts : TextClassifierOptions) (spec : ms.BertClassifierSpec)
      (o : mo.BertModelOptions) (h : hp.BertHParams) (w : Z)
      (s s1 : state) (c : Classifier) :
  value (supported_model opts) = ms.Bert spec ->
  model_options opts = Some (mo.Bert o) ->
  hparams opts = Some (hp.Bert h) ->
  metrics_admissible h (len_label_names (text_ds.label_names train_data)) ->
  _BertClassifier.warmup_steps_of
    (total_steps_of h (preprocessor.preprocess (bert_preprocessor spec o h)
                                               train_data)) = Some w ->
  _BertClassifier.create_bert_classifier train_data validation_data opts s
  = (Return c, s1) ->
  _model_spec c = ms.Bert spec
  /\ _model_options c = Some (mo.Bert o)
  /\ _text_preprocessor c = Some (bert_preprocessor spec o h)
  /\ _label_names c = text_ds.label_names train_data
  /\ (exists m, _model c = Some m)
  /\ exists h', _hparams c = hp.Bert h'
                /\ hp.tokenizer h' = hp.tokenizer h
                /\ hp.export_dir (hp.base h') = hp.export_dir (hp.base h).
Proof.
  intros Hv Hm Hh Hadm Hw Hrun.
  unfold _BertClassifier.create_bert_classifier in Hrun.
  rewrite Hh, Hv, Hm in Hrun. unfold bind in Hrun.
  rewrite (bert_init_accepts _ _ _ _ _ Hadm) in Hrun.
  unfold _BertClassifier._create_and_train_model,
    _BertClassifier._load_and_run_preprocessor, _BertClassifier._create_model,
    _BertClassifier.get_path, with_strategy_scope, run_preprocess in Hrun.
  cbn -[_BertClassifier._create_optimizer _train_model] in Hrun.
  unfold bind at 1 in Hrun.
  cbn -[_BertClassifier._create_optimizer _train_model] in Hrun.
  match type of Hrun with
  | context [_BertClassifier._create_optimizer ?self ?td ?st] =>
      rewrite (create_optimizer_run self h td w st eq_refl Hw) in Hrun
  end.
  unfold optimizer_outcome in Hrun.
  destruct (hp.optimizer h); cbn in Hrun; [| | discriminate Hrun];
    injection Hrun as <- _;
    (repeat split; try reflexivity);
    try (eexists; reflexivity);
    (eexists; split; [reflexivity |]; split; reflexivity).
Qed.

(** The attributes of the classifier that the embedding builder returns. *)
Lemma awe_factory_attributes (train_data validation_data : text_ds.Dataset)
      (opts : TextClassifierOptions) (o : mo.AverageWordEmbeddingModelOptions)
      (h : hp.HParams) (s s1 : state) (c : Classifier) :
  model_options opts = Some (mo.AverageWordEmbedding o) ->
  hparams opts = Some h ->
  _AverageWordEmbeddingClassifier.create_average_word_embedding_classifier
    train_data validation_data opts s = (Return c, s1) ->
  _text_preprocessor c
  = Some (preprocessor.AverageWordEmbedding
            (preprocessor.new_AverageWordEmbeddingClassifierPreprocessor
               (mo.seq_len o) (mo.do_lower_case o)
               (text_ds.texts train_data ++ text_ds.texts validation_data)
               (mo.vocab_size o)))
  /\ (exists m, _model c = Some m)
  /\ _label_names c = text_ds.label_names train_data
  /\ _hparams c = h.
Proof.
  intros Hm Hh Hrun.
  destruct (awe_factory_run train_data validation_data opts o h s Hm Hh)
    as (c' & Hrun' & Hp & _ & Hmod & Hlab & Hhp).
  rewrite Hrun' in Hrun. injection Hrun as <- _.
  split; [exact Hp |]. split; [eexists; exact Hmod |].
  split; [exact Hlab | exact Hhp].
Qed.

(** X17.  Every classifier that [create] returns for an embedding-family
    specification can be exported: [export_model] succeeds, it saves the
    classifier's model under the export directory of the hyperparameters
    the classifier was trained with, and the metadata it populates lists
    the label names of the training data, in their order, next to the
    delimiter pattern and the vocabulary file it has just written from the
    preprocessor fitted during [create]. *)
Theorem export_after_create_lists_the_training_labels
        (train_data validation_data : text_ds.Dataset) (s0 s1 : state)
        (c : Classifier) (model_name : string)
        (quantization_config : option QuantizationConfig) (w : io.world) :
  TextClassifier.create train_data validation_data s0 = (Return c, s1) ->
  ms.is_AverageWordEmbeddingClassifierSpec (value (supported_model (options s0)))
  = true ->
  exists cs m p tflite_model,
    adds (TextClassifier.export_model _AverageWordEmbeddingClassifier.methods
                                      c model_name quantization_config)
         w (io.Ok tt) cs
    /\ _model c = Some m
    /\ _text_preprocessor c = Some (preprocessor.AverageWordEmbedding p)
    /\ In (io.ModelSave m (path_join (export_dir_of c) "saved_model") false "tf")
          cs
    /\ In (io.GFileWrite (path_join (temp_dir (io.temp_dirs w)) "vocab.txt")
                         (map _AverageWordEmbeddingClassifier.vocab_line
                              (get_vocab p)))
          cs
    /\ In (io.Populate
             (io.create_for_regex_model
                tflite_model
                (io.RegexTokenizer
                   "[^\w\']+"
                   (path_join (temp_dir (io.temp_dirs w)) "vocab.txt"))
                [text_ds.label_names train_data]))
          cs.
Proof.
  intros Hrun Hfam.
  destruct (create_returns_cases _ _ _ _ _ Hrun) as [_ [Hawe | Hbert]].
  2: { destruct Hbert as (spec & ? & ? & ? & Hval & _).
       rewrite Hval in Hfam. discriminate Hfam. }
  destruct Hawe as (aspec & o & h & _ & Hm & Hh & Hrun').
  destruct (awe_factory_attributes _ _ _ _ _ _ _ _ Hm Hh Hrun')
    as (Hp & [m Hmod] & Hlab & _).
  pose proof (export_model_embedding_run c m _ model_name quantization_config w
                Hmod Hp) as Hx.
  cbv zeta in Hx. rewrite Hlab in Hx.
  eexists _, m, _, _. split; [eexists; exact Hx |].
  split; [exact Hmod |]. split; [exact Hp |].
  cbn. auto 12.
Qed.

(** X18.  Every classifier that [create] returns for an encoder-family
    specification can be exported with its tokenizer, and the tokenizer in
    the exported graph agrees with the preprocessing of training: it is
    either the tokenizer of the preprocessor fitted during [create], or a
    new [BertFastTokenizer] over that preprocessor's vocabulary file with
    the preprocessor's own [do_lower_case] and [seq_len]. *)
Theorem export_with_tokenizer_matches_training
        (train_data validation_data : text_ds.Dataset) (s0 s1 : state)
        (c : Classifier) (model_name : string)
        (quantization_config : option QuantizationConfig) (w : io.world) :
  TextClassifier.create train_data validation_data s0 = (Return c, s1) ->
  ms.is_BertClassifierSpec (value (supported_model (options s0))) = true ->
  exists cs p tokenizer,
    adds (_BertClassifier.export_model_with_tokenizer
            c model_name quantization_config)
         w (io.Ok tt) cs
    /\ _text_preprocessor c = Some (preprocessor.Bert p)
    /\ In (io.ModelWithTokenizerSave
             (io.Called (io.new_ModelWithTokenizer tokenizer (_model c))
                        ["Example input data"])
             (path_join (export_dir_of c) "saved_model_with_tokenizer"))
          cs
    /\ (tokenizer = io.tokenizer_of p
        \/ tokenizer
           = io.BertFastTokenizer (get_vocab_file p)
                                  (preprocessor.bert_do_lower_case p)
                                  (preprocessor.bert_seq_len p)).
Proof.
  intros Hrun Hfam.
  destruct (create_returns_cases _ _ _ _ _ Hrun) as [_ [Hawe | Hbert]].
  { destruct Hawe as (aspec & ? & ? & Hval & _).
    rewrite Hval in Hfam. discriminate Hfam. }
  destruct Hbert as (spec & o & h & wu & Hval & Hm & Hh & Hadm & Hw & _ & Hrun').
  destruct (bert_factory_attributes train_data validation_data
              (with_defaults (options s0)) spec o h wu (after_defaults s0) s1 c
              Hval Hm Hh Hadm Hw Hrun')
    as (Hspec & Hopts & Hp & _ & _ & (h' & Hh' & Htok & Hdir)).
  pose proof (export_model_with_tokenizer_run c spec (mo.Bert o) h' _ model_name
                quantization_config w Hh' Hp Hspec Hopts) as Hx.
  cbv zeta in Hx.
  assert (Hd : export_dir_of c = hp.export_dir (hp.base h')).
  { unfold export_dir_of. rewrite Hh'. reflexivity. }
  rewrite Hd.
  destruct (_BertClassifier.is_FAST_BERT_TOKENIZER (hp.tokenizer h'));
    cbn in Hx; eexists _, _, _;
    (split; [exact Hx |]); (split; [exact Hp |]); (split; [cbn; auto 6 |]).
  - left. reflexivity.
  - right. reflexivity.
Qed.

End ExportAfterCreate.

(** ** The vocabulary file *)

Section VocabularyFile.
Context {xenv : ExportEnvironment}.
Local Open Scope Z_scope.

Lemma string_of_uint_no_line_feed (d : Decimal.uint) :
  has_no_line_feed (NilZero.string_of_uint d).
Proof.
  assert (H : forall u, has_no_line_feed (NilEmpty.string_of_uint u)).
  { intros u. induction u; cbn; try reflexivity; exact IHu. }
  destruct d; try reflexivity; apply (H (_ d)).
Qed.

Lemma str_int_no_line_feed (n : Z) : has_no_line_feed (str_int n).
Proof.
  unfold str_int, NilZero.string_of_int.
  destruct (Z.to_int n); [| cbn]; apply string_of_uint_no_line_feed.
Qed.

Lemma has_no_line_feed_app (a b : string) :
  has_no_line_feed a -> has_no_line_feed b -> has_no_line_feed (a ++ b).
Proof.
  unfold has_no_line_feed. induction a as [| ch a IH]; cbn; intros Ha Hb.
  - exact Hb.
  - apply andb_true_iff in Ha. destruct Ha as [Hc Ha].
    rewrite Hc. cbn. apply IH; assumption.
Qed.

Lemma string_append_assoc (a b c : string) :
  ((a ++ b) ++ c)%string = (a ++ (b ++ c))%string.
Proof. induction a as [| x a IH]; cbn; [reflexivity | rewrite IH; reflexivity]. Qed.

Lemma lines_from_line (s : string) : forall cur rest : string,
  has_no_line_feed s ->
  lines_from cur ((s ++ io.newline) ++ rest)
  = (cur ++ s)%string :: lines_from EmptyString rest.
Proof.
  unfold has_no_line_feed.
  induction s as [| ch s IH]; cbn; intros cur rest Hs.
  - rewrite append_empty_r. reflexivity.
  - apply andb_true_iff in Hs. destruct Hs as [Hc Hs].
    apply negb_true_iff in Hc. rewrite Hc.
    rewrite (IH _ _ Hs). f_equal.
    induction cur as [| c0 cur IHc]; cbn; [reflexivity | rewrite IHc; reflexivity].
Qed.

(** X19.  [_save_vocab] of an embedding classifier writes the vocabulary
    file in one block, one write per vocabulary entry, in the order of the
    vocabulary.  When no token contains a line feed, the text of the file
    reads back line by line as the entries: each line is the token, one
    space and the decimal index, every line is ended by a line feed, and
    nothing follows the last one. *)
Theorem vocabulary_file_has_one_line_per_entry
        (self : Classifier)
        (p : preprocessor.AverageWordEmbeddingClassifierPreprocessor)
        (vocab_filepath : string) (w : io.world) :
  _text_preprocessor self = Some (preprocessor.AverageWordEmbedding p) ->
  Forall (fun item => has_no_line_feed (fst item)) (get_vocab p) ->
  exists writes,
    adds (_AverageWordEmbeddingClassifier._save_vocab self vocab_filepath)
         w (io.Ok tt) [io.GFileWrite vocab_filepath writes]
    /\ List.length writes = List.length (get_vocab p)
    /\ lines (file_text writes)
       = map (fun item => (fst item ++ " " ++ str_int (snd item))%string)
             (get_vocab p)
         ++ [EmptyString].
Proof.
  intros Hp Hv.
  exists (map _AverageWordEmbeddingClassifier.vocab_line (get_vocab p)).
  split; [| split].
  - exists (io.temp_dirs w).
    unfold _AverageWordEmbeddingClassifier._save_vocab. rewrite Hp. reflexivity.
  - apply length_map.
  - unfold lines. induction Hv as [| item items Hitem _ IH]; [reflexivity |].
    cbn [map file_text _AverageWordEmbeddingClassifier.vocab_line app].
    unfold _AverageWordEmbeddingClassifier.vocab_line at 1.
    replace (fst item ++ " " ++ str_int (snd item) ++ io.newline)%string
      with ((fst item ++ " " ++ str_int (snd item)) ++ io.newline)%string.
    2: { rewrite !string_append_assoc. reflexivity. }
    rewrite lines_from_line.
    + cbn [String.append]. f_equal. exact IH.
    + apply has_no_line_feed_app; [exact Hitem |].
      apply (has_no_line_feed_app " "); [reflexivity |].
      apply str_int_no_line_feed.
Qed.

End VocabularyFile.

(** ** Concrete inputs for the further properties *)

Lemma evaluate_before_training_fails_witness :
  exists c s1,
    _AverageWordEmbeddingClassifier.__init__
      (ms.AverageWordEmbedding Sample.awe_spec)
      (Some (mo.AverageWordEmbedding Sample.awe_options))
      (hp.AverageWordEmbeddingHParams Sample.base_hparams)
      ["pos"; "neg"] (Sample.start Sample.embedding_options)
    = (Return c, s1)
    /\ TextClassifier.evaluate c (ds.TextDataset Sample.validation) 32 None None s1
       = (Raise (AttributeError "'NoneType' object has no attribute 'preprocess'"),
          s1).
Proof.
  eexists _, _. split; [reflexivity |].
  exact (proj2 (evaluate_before_training_fails
                  (ms.AverageWordEmbedding Sample.awe_spec)
                  (Some (mo.AverageWordEmbedding Sample.awe_options))
                  (hp.AverageWordEmbeddingHParams Sample.base_hparams)
                  ["pos"; "neg"] (Sample.start Sample.embedding_options) _ _
                  Sample.validation 32 None None (or_introl eq_refl))).
Defined.

Lemma unknown_model_is_rejected_witness :
  exists s1,
    TextClassifier.create
      Sample.train Sample.validation
      (Sample.start (Sample.options_for Sample.UNLISTED_CLASSIFIER None None))
    = (Raise (ValueError "Unknown model UNLISTED_CLASSIFIER"), s1)
    /\ trace s1 = []
    /\ hparams (options s1)
       = Some (hp.AverageWordEmbeddingHParams Sample.base_hparams)
    /\ model_options (options s1)
       = Some (mo.AverageWordEmbedding Sample.awe_options).
Proof.
  destruct (unknown_model_is_rejected
              Sample.train Sample.validation
              (Sample.start (Sample.options_for Sample.UNLISTED_CLASSIFIER None None))
              (hp.AverageWordEmbeddingHParams Sample.base_hparams)
              (mo.AverageWordEmbedding Sample.awe_options)
              eq_refl eq_refl eq_refl)
    as (s1 & Hrun & Ht & _ & Hh & Hm).
  exists s1. split; [exact Hrun |]. split; [exact Ht |].
  split; [exact Hh | exact Hm].
Defined.

Lemma warmup_steps_truncate_toward_zero_witness :
  Z.abs (-25) < 2 ^ 52
  /\ exists warmup_steps,
       _BertClassifier.warmup_steps_of (-25) = Some warmup_steps
       /\ warmup_steps = -2.
Proof.
  assert (H : Z.abs (-25) < 2 ^ 52) by reflexivity.
  split; [exact H |].
  destruct (warmup_steps_truncate_toward_zero (-25) H) as (w & Hw & Hq & _).
  exists w. split; [exact Hw | exact Hq].
Defined.

Lemma warmup_wraps_schedule_from_ten_steps_witness :
  exists c opt,
    _BertClassifier._create_optimizer
      (Sample.bert_classifier hp.FULL_TOKENIZER)
      (preprocessor.BertEncoded (Sample.bert_preprocessor_with hp.FULL_TOKENIZER)
                                Sample.train)
      (Sample.start Sample.embedding_options)
    = (Return c, Sample.start Sample.embedding_options)
    /\ _optimizer c = Some opt
    /\ optimizer_schedule opt
       = Some (tf.WarmUp Sample.lit_3e_5
                         (tf.PolynomialDecay Sample.lit_3e_5 20 Sample.lit_0_0
                                             lit_1_0)
                         2).
Proof.
  assert (H : Z.abs 20 < 2 ^ 52) by reflexivity.
  exact (warmup_wraps_schedule_from_ten_steps
           (Sample.bert_classifier hp.FULL_TOKENIZER)
           (Sample.bert_hparams_tokenizer hp.FULL_TOKENIZER)
           (preprocessor.BertEncoded
              (Sample.bert_preprocessor_with hp.FULL_TOKENIZER) Sample.train)
           (Sample.start Sample.embedding_options)
           eq_refl (or_introl eq_refl) H).
Defined.


Lemma output_layer_has_one_unit_per_label_witness :
  exists c s1,
    TextClassifier.create Sample.train Sample.validation
                          (Sample.start Sample.embedding_options)
    = (Return c, s1)
    /\ _label_names c = ["pos"; "neg"]
    /\ exists m,
         _model c = Some m /\ output_units (architecture_of m) = Some 2.
Proof.
  assert (Hrun : exists c s1,
             TextClassifier.create Sample.train Sample.validation
                                   (Sample.start Sample.embedding_options)
             = (Return c, s1)).
  { eexists. eexists. vm_compute. reflexivity. }
  destruct Hrun as (c & s1 & Hrun).
  exists c, s1. split; [exact Hrun |].
  exact (output_layer_has_one_unit_per_label
           Sample.train Sample.validation
           (Sample.start Sample.embedding_options) s1 c Hrun).
Defined.

Lemma export_model_writes_four_files_witness :
  exists cs,
    adds (TextClassifier.export_model _AverageWordEmbeddingClassifier.methods
                                      Sample.awe_classifier "model.tflite" None)
         Sample.start_world (io.Ok tt) cs
    /\ forall fs : store,
         files_after fs cs "/tmp/export/saved_model"
         = Some (SavedModel Sample.awe_model false "tf")
         /\ (forall q,
               ~ In q [ "/tmp/export/saved_model"; "/tmp/tmp0/vocab.txt";
                        "/tmp/export/model.tflite"; "/tmp/export/metadata.json" ] ->
               files_after fs cs q = fs q).
Proof.
  assert (Hnd : NoDup [ "/tmp/export/saved_model"; "/tmp/tmp0/vocab.txt";
                        "/tmp/export/model.tflite"; "/tmp/export/metadata.json" ]).
  { repeat constructor; cbn; intuition discriminate. }
  assert (Hv : @get_vocab Sample.export_environment Sample.awe_preprocessor <> [])
    by discriminate.
  destruct (export_model_writes_four_files
              Sample.awe_classifier Sample.awe_model Sample.awe_preprocessor
              "model.tflite" None Sample.start_world eq_refl eq_refl Hv Hnd)
    as (cs & writer & Hrun & _ & Hfiles).
  exists cs. split; [exact Hrun |].
  intros fs. destruct (Hfiles fs) as (H1 & _ & _ & _ & H5).
  split; [exact H1 | exact H5].
Defined.



Lemma export_model_of_an_encoder_classifier_witness :
  exists writer,
    adds (TextClassifier.export_model _BertClassifier.methods
                                      (Sample.bert_classifier hp.FULL_TOKENIZER)
                                      "model.tflite" None)
         Sample.start_world (io.Ok tt)
         [ io.Makedirs "/tmp/export";
           io.Makedirs "/tmp/export";
           io.ModelSave Sample.bert_model "/tmp/export/saved_model" false "tf";
           io.ConvertToTflite "/tmp/export/saved_model" None None;
           io.Mkdtemp "/tmp/tmp0";
           io.Copy "/models/mobilebert/vocab.txt" "/tmp/tmp0/vocab.txt" true;
           io.Populate writer;
           io.SaveTflite (io.Populated writer) "/tmp/export/model.tflite";
           io.GFileWrite "/tmp/export/metadata.json" [io.MetadataJson writer] ]
    /\ writer
       = io.create_for_bert_model
           (io.Converted "/tmp/export/saved_model" None None)
           (io.BertTokenizer "/tmp/tmp0/vocab.txt")
           [["pos"; "neg"]]
           "serving_default_input_1:0" "serving_default_input_3:0"
           "serving_default_input_2:0".
Proof.
  eexists. split; [| reflexivity].
  exact (export_model_of_an_encoder_classifier
           (Sample.bert_classifier hp.FULL_TOKENIZER) Sample.bert_model
           Sample.bert_spec (Sample.bert_preprocessor_with hp.FULL_TOKENIZER)
           "serving_default_input_1:0" "serving_default_input_3:0"
           "serving_default_input_2:0" "model.tflite" None Sample.start_world
           eq_refl eq_refl eq_refl eq_refl eq_refl eq_refl).
Defined.

Lemma export_model_fails_late_on_a_missing_input_name_witness :
  @adds Sample.export_environment_without_mask unit
        (@TextClassifier.export_model
           Sample.export_environment_without_mask
           (@_BertClassifier.methods Sample.export_environment_without_mask)
           (Sample.bert_classifier hp.FULL_TOKENIZER) "model.tflite" None)
        Sample.start_world_without_mask (io.Failed (io.KeyError "mask"))
        [ io.Makedirs "/tmp/export";
          io.Makedirs "/tmp/export";
          io.ModelSave Sample.bert_model "/tmp/export/saved_model" false "tf";
          io.ConvertToTflite "/tmp/export/saved_model" None None;
          io.Mkdtemp "/tmp/tmp0";
          io.Copy "/models/mobilebert/vocab.txt" "/tmp/tmp0/vocab.txt" true ].
Proof.
  exact (@export_model_fails_late_on_a_missing_input_name
           Sample.export_environment_without_mask
           (Sample.bert_classifier hp.FULL_TOKENIZER) Sample.bert_model
           Sample.bert_spec (Sample.bert_preprocessor_with hp.FULL_TOKENIZER)
           "mask" "model.tflite" None Sample.start_world_without_mask
           eq_refl eq_refl eq_refl eq_refl).
Defined.

Lemma saving_without_a_model_fails_after_makedirs_witness :
  adds (TextClassifier.save_model (set_model None Sample.awe_classifier)
                                  "saved_model")
       Sample.start_world
       (io.Failed (io.AttributeError "'NoneType' object has no attribute 'save'"))
       [io.Makedirs "/tmp/export"]
  /\ adds (TextClassifier.export_model _AverageWordEmbeddingClassifier.methods
                                       (set_model None Sample.awe_classifier)
                                       "model.tflite" None)
          Sample.start_world
          (io.Failed (io.AttributeError "'NoneType' object has no attribute 'save'"))
          [io.Makedirs "/tmp/export"; io.Makedirs "/tmp/export"].
Proof.
  exact (saving_without_a_model_fails_after_makedirs
           _AverageWordEmbeddingClassifier.methods
           (set_model None Sample.awe_classifier) "model.tflite" None
           Sample.start_world eq_refl).
Defined.

Lemma export_with_tokenizer_warns_unless_trained_fast_witness :
  exists cs,
    adds (_BertClassifier.export_model_with_tokenizer
            (Sample.bert_classifier hp.FULL_TOKENIZER)
            "model_with_tokenizer.tflite" None)
         Sample.start_world (io.Ok tt) cs
    /\ filter is_print cs
       = [ io.Print
             "WARNING: This model was trained with SupportedBertTokenizers.FULL_TOKENIZER tokenizer, but the exported model with tokenizer will have a SupportedBertTokenizers.FAST_BERT_TOKENIZER tokenizer." ]
    /\ filter is_write cs
       = [ io.ModelWithTokenizerSave
             (io.Called
                (io.new_ModelWithTokenizer
                   (io.BertFastTokenizer "/models/mobilebert/vocab.txt" true 8)
                   (Some Sample.bert_model))
                ["Example input data"])
             "/tmp/export/saved_model_with_tokenizer";
           io.SaveTflite
             (io.Converted "/tmp/export/saved_model_with_tokenizer" None
                           (Some true))
             "/tmp/export/model_with_tokenizer.tflite" ].
Proof.
  destruct (export_with_tokenizer_warns_unless_trained_fast
              (Sample.bert_classifier hp.FULL_TOKENIZER) Sample.bert_spec
              (mo.Bert Sample.bert_options)
              (Sample.bert_hparams_tokenizer hp.FULL_TOKENIZER)
              (Sample.bert_preprocessor_with hp.FULL_TOKENIZER)
              "model_with_tokenizer.tflite" None Sample.start_world
              eq_refl eq_refl eq_refl eq_refl)
    as (cs & tokenizer & Hrun & _ & Hfull & Hwrites & _).
  assert (Hne : hp.FULL_TOKENIZER <> hp.FAST_BERT_TOKENIZER) by discriminate.
  destruct (Hfull Hne) as [Htok Hprint].
  exists cs. split; [exact Hrun |]. split; [exact Hprint |].
  rewrite Hwrites, Htok. reflexivity.
Defined.

Lemma export_after_create_lists_the_training_labels_witness :
  exists c s1 cs tflite_model,
    TextClassifier.create Sample.train Sample.validation
                          (Sample.start Sample.embedding_options)
    = (Return c, s1)
    /\ adds (TextClassifier.export_model _AverageWordEmbeddingClassifier.methods
                                         c "model.tflite" None)
            Sample.start_world (io.Ok tt) cs
    /\ In (io.Populate
             (io.create_for_regex_model
                tflite_model
                (io.RegexTokenizer "[^\w\']+" "/tmp/tmp0/vocab.txt")
                [["pos"; "neg"]]))
          cs.
Proof.
  assert (Hrun : exists c s1,
             TextClassifier.create Sample.train Sample.validation
                                   (Sample.start Sample.embedding_options)
             = (Return c, s1)).
  { eexists. eexists. vm_compute. reflexivity. }
  destruct Hrun as (c & s1 & Hrun).
  destruct (export_after_create_lists_the_training_labels
              Sample.train Sample.validation
              (Sample.start Sample.embedding_options) s1 c "model.tflite" None
              Sample.start_world Hrun eq_refl)
    as (cs & m & p & tflite_model & Hx & _ & _ & _ & _ & Hpop).
  exists c, s1, cs, tflite_model.
  split; [exact Hrun |]. split; [exact Hx | exact Hpop].
Defined.

Lemma export_with_tokenizer_matches_training_witness :
  exists c s1 cs p,
    TextClassifier.create
      Sample.train Sample.validation
      (Sample.start (Sample.encoder_options
                       (Sample.bert_hparams_with [] [] hp.ADAMW)))
    = (Return c, s1)
    /\ adds (_BertClassifier.export_model_with_tokenizer
               c "model_with_tokenizer.tflite" None)
            Sample.start_world (io.Ok tt) cs
    /\ _text_preprocessor c = Some (preprocessor.Bert p).
Proof.
  assert (Hrun : exists c s1,
             TextClassifier.create
               Sample.train Sample.validation
               (Sample.start (Sample.encoder_options
                                (Sample.bert_hparams_with [] [] hp.ADAMW)))
             = (Return c, s1)).
  { eexists. eexists. vm_compute. reflexivity. }
  destruct Hrun as (c & s1 & Hrun).
  destruct (export_with_tokenizer_matches_training
              Sample.train Sample.validation
              (Sample.start (Sample.encoder_options
                               (Sample.bert_hparams_with [] [] hp.ADAMW)))
              s1 c "model_with_tokenizer.tflite" None Sample.start_world
              Hrun eq_refl)
    as (cs & p & tokenizer & Hx & Hp & _).
  exists c, s1, cs, p.
  split; [exact Hrun |]. split; [exact Hx | exact Hp].
Defined.

Lemma vocabulary_file_has_one_line_per_entry_witness :
  exists writes,
    adds (_AverageWordEmbeddingClassifier._save_vocab
            Sample.awe_classifier "/tmp/tmp0/vocab.txt")
         Sample.start_world (io.Ok tt)
         [io.GFileWrite "/tmp/tmp0/vocab.txt" writes]
    /\ lines (file_text writes)
       = [ "<PAD> 0"; "<UNKNOWN> 1"; "a 2"; "fine 3"; "film 4"; "" ].
Proof.
  assert (Hv : Forall (fun item => has_no_line_feed (fst item))
                      (@get_vocab Sample.export_environment
                                  Sample.awe_preprocessor)).
  { repeat constructor. }
  destruct (vocabulary_file_has_one_line_per_entry
              Sample.awe_classifier Sample.awe_preprocessor
              "/tmp/tmp0/vocab.txt" Sample.start_world eq_refl Hv)
    as (writes & Hrun & _ & Hlines).
  exists writes. split; [exact Hrun | exact Hlines].
Defined.

Lemma create_fills_in_the_callers_options_witness :
  exists c s1,
    TextClassifier.create
      Sample.train Sample.validation (Sample.start Sample.embedding_options)
    = (Return c, s1)
    /\ supported_model (options s1)
       = supported_model (options (Sample.start Sample.embedding_options))
    /\ hparams (options s1) <> None
    /\ _model_options c = model_options (options s1)
    /\ _model_spec c = value (supported_model (options s1)).
Proof.
  assert (Hrun : exists c s1,
             TextClassifier.create
               Sample.train Sample.validation
               (Sample.start Sample.embedding_options)
             = (Return c, s1)).
  { eexists. eexists. vm_compute. reflexivity. }
  destruct Hrun as (c & s1 & Hrun).
  destruct (create_fills_in_the_callers_options
              Sample.train Sample.validation
              (Sample.start Sample.embedding_options) s1 c Hrun)
    as (Hsm & _ & Hhp & Hmo & Hspec).
  exists c, s1.
  split; [exact Hrun |]. split; [exact Hsm |]. split; [exact Hhp |].
  split; [exact Hmo | exact Hspec].
Defined.
